(** * The skill registry and executor of [core.skill]

    A shallow embedding of [src/core/skill/types.py], [registry.py] and
    [executor.py], and the properties of the Registry + Executor pair.

    Python objects are modelled by the data they hold; the registry and the
    executor are mutable objects, so every method is a state transformer
    that may raise.  What lies outside the three modules (the file system,
    PyYAML, pydantic's error texts, the handler modules, the wall clock and
    [repr]) is collected in an environment record [Env]. *)

From Stdlib Require Import ZArith String Ascii List Bool Lia.
From stdpp Require Import base option list strings pretty gmap.

Local Open Scope Z_scope.
Set Warnings "-register-all".

(** ** Python values *)

(** JSON-like values: what a YAML descriptor holds, what a caller passes as
    input and what a handler returns.  Floats are left out. *)
Inductive Value : Type :=
| VNone
| VBool (b : bool)
| VInt (z : Z)
| VStr (s : string)
| VList (l : list Value)
| VDict (d : list (string * Value)).

(** A [dict] with string keys, in insertion order. *)
Abbreviation Dict := (list (string * Value)).

(** [key in d] *)
Fixpoint dict_mem {A} (k : string) (d : list (string * A)) : bool :=
  match d with
  | [] => false
  | (k', _) :: d' => if String.eqb k k' then true else dict_mem k d'
  end.

(** [d.get(key)]: [None] stands for an absent key. *)
Fixpoint dict_get {A} (k : string) (d : list (string * A)) : option A :=
  match d with
  | [] => None
  | (k', v) :: d' => if String.eqb k k' then Some v else dict_get k d'
  end.

(** [d[key] = v]: an existing key keeps its position, a new key goes last. *)
Fixpoint dict_set {A} (k : string) (v : A) (d : list (string * A))
  : list (string * A) :=
  match d with
  | [] => [(k, v)]
  | (k', v') :: d' =>
      if String.eqb k k' then (k, v) :: d' else (k', v') :: dict_set k v d'
  end.

(** [list(d.keys())] and [list(d.values())] *)
Definition dict_keys {A} (d : list (string * A)) : list string := map fst d.
Definition dict_values {A} (d : list (string * A)) : list A := map snd d.

(** ** Strings *)

(** A character of a string is a code point below 256. *)
Module Str.

(** [s.startswith(p)] *)
Fixpoint startswith (p s : string) : bool :=
  match p, s with
  | EmptyString, _ => true
  | String a p', String b s' => if Ascii.eqb a b then startswith p' s' else false
  | String _ _, EmptyString => false
  end.

(** The scan of [str.replace] for a non-empty [old]: occurrences are found
    from the left and do not overlap.  [skip] counts the characters of the
    occurrence just replaced that are still to be passed over. *)
Fixpoint replace_from (old new : string) (skip : nat) (s : string) : string :=
  match s with
  | EmptyString => EmptyString
  | String c rest =>
      match skip with
      | S k => replace_from old new k rest
      | O =>
          if startswith old s
          then new +:+ replace_from old new (Nat.pred (String.length old)) rest
          else String c (replace_from old new O rest)
      end
  end.

(** With an empty [old], Python puts [new] before every character and at
    the end. *)
Fixpoint intersperse (new s : string) : string :=
  match s with
  | EmptyString => new
  | String c rest => new +:+ String c (intersperse new rest)
  end.

(** [s.replace(old, new)] *)
Definition replace (old new s : string) : string :=
  match old with
  | EmptyString => intersperse new s
  | String _ _ => replace_from old new O s
  end.

(** [s.endswith(p)] *)
Definition endswith (p s : string) : bool :=
  let n := String.length s in
  let m := String.length p in
  if Nat.leb m n then String.eqb (String.substring (n - m) m s) p else false.

(** [s[:-k]] *)
Definition drop_last (k : nat) (s : string) : string :=
  String.substring 0 (String.length s - k) s.

(** [needle in s] *)
Fixpoint contains (needle s : string) : bool :=
  if startswith needle s then true
  else match s with
       | EmptyString => false
       | String _ rest => contains needle rest
       end.

(** [s.lower()]: the capital letters among the code points below 256 are
    A to Z and, but for the multiplication sign, 192 to 222. *)
Definition lower_char (c : ascii) : ascii :=
  let n := nat_of_ascii c in
  if ((Nat.leb 65 n && Nat.leb n 90)
      || (Nat.leb 192 n && Nat.leb n 222 && negb (Nat.eqb n 215)))%bool
  then ascii_of_nat (n + 32) else c.

Fixpoint lower (s : string) : string :=
  match s with
  | EmptyString => EmptyString
  | String c rest => String (lower_char c) (lower rest)
  end.

End Str.

(** ** Exceptions *)

(** The subclasses of [Exception] the three modules raise or catch by
    name.  [OtherError] stands for any other subclass of [Exception] (a
    [TypeError], a [KeyError], an [OSError], [yaml.YAMLError], pydantic's
    [ValidationError], ...), none of which derives from [ImportError] or
    [AttributeError]. *)
Inductive ExceptionClass : Type :=
| FileNotFoundError
| ValueError
| ImportError
| ModuleNotFoundError
| AttributeError
| OtherError (cls : string).

(** The class of an object that is raised: a subclass of [Exception], or a
    class that derives from [BaseException] alone ([SystemExit],
    [KeyboardInterrupt], [GeneratorExit], [asyncio.CancelledError]), which
    [except Exception] does not catch. *)
Inductive ExnClass : Type :=
| Exception (cls : ExceptionClass)
| NonException (cls : string).
Coercion Exception : ExceptionClass >-> ExnClass.

(** An exception object: its class and [str(e)]. *)
Record Exn : Type := mkExn { exn_class : ExnClass; exn_str : string }.

(** [isinstance(e, Exception)] *)
Definition is_Exception (e : Exn) : bool :=
  match exn_class e with
  | Exception _ => true
  | NonException _ => false
  end.

(** [isinstance(e, ImportError)] *)
Definition is_ImportError (e : Exn) : bool :=
  match exn_class e with
  | Exception (ImportError | ModuleNotFoundError) => true
  | _ => false
  end.

(** [isinstance(e, AttributeError)] *)
Definition is_AttributeError (e : Exn) : bool :=
  match exn_class e with
  | Exception AttributeError => true
  | _ => false
  end.

(** ** The environment *)

(** What [yaml.safe_load] gives for a descriptor file.  [Unreadable cls text]
    covers a file that cannot be read, a file PyYAML rejects and a document
    that is not a mapping: either way the loader that opened the file ends
    by raising an exception of the class [cls] with the text [text].  What
    [open], PyYAML and the reading of a document raise derives from
    [Exception]. *)
Inductive Yaml : Type :=
| Unreadable (cls : ExceptionClass) (text : string)
| Mapping (config : Dict).

(** A call of a handler function on the input, when it ends: it returns or
    it raises, an [Exception] or not.  A coroutine function is awaited at
    once, so both calling conventions are one function here; an attribute
    that is not callable is a function that raises [TypeError].  What a
    handler does besides (its own state, its effects, the time it takes, a
    call that never ends) is not modelled. *)
Inductive Outcome : Type :=
| Returns (v : Value)
| Raises (e : Exn).

(** [importlib.import_module(path)] *)
Inductive Import : Type :=
| ImportFails (e : Exn)
| Module (attrs : string -> option (Dict -> Outcome)).

Record Env : Type := mkEnv {
  (** [str(self.skills_dir)] and [str(self.skills_dir / name)] *)
  dir_str : string;
  path_str : string -> string;
  (** [self.skills_dir.exists()] *)
  root_exists : bool;
  (** the loop over [self.skills_dir.iterdir()]: each child with
      [is_dir()], or the exception raised when the root cannot be listed
      ([NotADirectoryError] for a root that is a regular file,
      [PermissionError] for one that may not be read) *)
  iterdir : Exn + list (string * bool);
  (** the file [skills_dir / name / 'skill.yaml'], if it exists *)
  descriptor : string -> option Yaml;
  import_module : string -> Import;
  (** the successive readings of [time.time()] *)
  wall : nat -> Z;
  (** [repr(v)], used by [str] on containers and by the message of an
      invalid enum value *)
  py_repr : Value -> string;
  (** the text of pydantic's [ValidationError] for the named model *)
  validation_text : string -> string
}.

(** The children of the root, when it can be listed. *)
Definition listing (env : Env) : list (string * bool) :=
  match iterdir env with
  | inr children => children
  | inl _ => []
  end.

(** [str(v)] *)
Definition py_str (env : Env) (v : Value) : string :=
  match v with
  | VStr s => s
  | VInt z => pretty z
  | VBool true => "True"
  | VBool false => "False"
  | VNone => "None"
  | VList _ | VDict _ => py_repr env v
  end.

(** ** Effects *)

(** What a run leaves behind outside the two objects. *)
Inductive Event : Type :=
| EvOpen (dir : string)                              (* open(dir/skill.yaml) *)
| EvPrint (line : string)                            (* print(line) *)
| EvImport (module_path : string)                    (* import_module *)
| EvCall (module_path fn : string) (input : Dict).   (* handler_func(input) *)

Record World : Type := mkWorld {
  log : list Event;      (* oldest first *)
  ticks : nat;           (* readings of the clock taken so far *)
  next_addr : nat        (* identity of the next object constructed *)
}.

Inductive Res (A : Type) : Type :=
| Ok (a : A)
| Raise (e : Exn).
Arguments Ok {A} a.
Arguments Raise {A} e.

(** A method of an object of state [S]: it runs in a world, returns or
    raises, and leaves the object and the world changed. *)
Definition M (S A : Type) : Type := S * World -> Res A * (S * World).

Definition ret {S A} (a : A) : M S A := fun s => (Ok a, s).

Definition raise {S A} (e : Exn) : M S A := fun s => (Raise e, s).

Definition bind {S A B} (m : M S A) (k : A -> M S B) : M S B :=
  fun s =>
    match m s with
    | (Ok a, s') => k a s'
    | (Raise e, s') => (Raise e, s')
    end.

(** [try: m  except Exception as e: h(e)]: what does not derive from
    [Exception] is not caught.  A [try] with clauses for subclasses of
    [Exception] only is one whose [h] raises again what no clause names. *)
Definition try_except {S A} (m : M S A) (h : Exn -> M S A) : M S A :=
  fun s =>
    match m s with
    | (Ok a, s') => (Ok a, s')
    | (Raise e, s') => if is_Exception e then h e s' else (Raise e, s')
    end.

Notation "'let*' x ':=' m 'in' k" := (bind m (fun x => k))
  (at level 10, x name, m at level 100, k at level 200).
Notation "'run' m 'in' k" := (bind m (fun _ => k))
  (at level 10, m at level 100, k at level 200).

Definition get_self {S} : M S S := fun s => (Ok (fst s), s).
Definition set_self {S} (x : S) : M S unit := fun s => (Ok tt, (x, snd s)).

Definition emit {S} (ev : Event) : M S unit :=
  fun '(x, w) => (Ok tt, (x, mkWorld (log w ++ [ev]) (ticks w) (next_addr w))).

(** [time.time()] *)
Definition time_time {S} (env : Env) : M S Z :=
  fun '(x, w) => (Ok (wall env (ticks w)), (x, mkWorld (log w) (Datatypes.S (ticks w)) (next_addr w))).

(** The identity of a freshly constructed object. *)
Definition fresh_addr {S} : M S nat :=
  fun '(x, w) => (Ok (next_addr w), (x, mkWorld (log w) (ticks w) (Datatypes.S (next_addr w)))).

(** [asyncio.gather] with [return_exceptions=True].  No task of this
    program suspends before it is done, so the tasks run one after the other
    in the order given; an exception takes the place of the task's result. *)
Fixpoint gather_exceptions {S A} (tasks : list (M S A)) : M S (list (Res A)) :=
  match tasks with
  | [] => ret []
  | task :: rest =>
      fun s =>
        let (r, s') := task s in
        (let* rs := gather_exceptions rest in ret (r :: rs)) s'
  end.

(** The results in order, or the first exception among them. *)
Fixpoint first_exception {A} (rs : list (Res A)) : Exn + list A :=
  match rs with
  | [] => inr []
  | Raise e :: _ => inl e
  | Ok a :: rest =>
      match first_exception rest with
      | inl e => inl e
      | inr l => inr (a :: l)
      end
  end.

(** [asyncio.gather] without [return_exceptions], for tasks none of which
    suspends: every task still runs to its end, and the first exception, if
    any, is raised to the awaiting caller. *)
Definition gather {S A} (tasks : list (M S A)) : M S (list A) :=
  let* rs := gather_exceptions tasks in
  match first_exception rs with
  | inl e => raise e
  | inr l => ret l
  end.

(** ** [types.py] *)

Inductive SkillType : Type := PURE_PROMPT | PURE_SCRIPT | HYBRID.

Definition SkillType_value (t : SkillType) : string :=
  match t with
  | PURE_PROMPT => "pure-prompt"
  | PURE_SCRIPT => "pure-script"
  | HYBRID => "hybrid"
  end.

(** [SkillType(v)]: lookup of an enum member by value. *)
Definition SkillType_call (env : Env) (v : Value) : Res SkillType :=
  let invalid := Raise (mkExn ValueError (py_repr env v +:+ " is not a valid SkillType")) in
  match v with
  | VStr s =>
      if String.eqb s "pure-prompt" then Ok PURE_PROMPT
      else if String.eqb s "pure-script" then Ok PURE_SCRIPT
      else if String.eqb s "hybrid" then Ok HYBRID
      else invalid
  | _ => invalid
  end.

Record InputSchema : Type := mkInputSchema {
  in_type : string;
  in_properties : Dict;
  in_required : list string
}.

Record OutputSchema : Type := mkOutputSchema {
  out_type : string;
  out_properties : Dict
}.

Record ExecutionConfig : Type := mkExecutionConfig {
  handler : string;
  function : string;
  timeout : Z
}.

Record SkillMetadata : Type := mkSkillMetadata {
  name : string;
  version : string;
  description : string;
  tags : list string;
  type : SkillType
}.

(** [SkillDefinition(SkillMetadata)]: the inherited fields are [meta]. *)
Record SkillDefinition : Type := mkSkillDefinition {
  meta : SkillMetadata;
  input_schema : InputSchema;
  output_schema : OutputSchema;
  prompt_template : option string;
  execution : option ExecutionConfig
}.

(** [output: Optional[Any]] is a value, [VNone] when there is none;
    [execution_time] is the difference of two clock readings. *)
Record SkillResult : Type := mkSkillResult {
  success : bool;
  output : Value;
  error : option string;
  execution_time : Z
}.

(** *** Field validation by pydantic

    A value of the declared type is accepted as it is; pydantic's
    conversions between scalar types are not modelled, a value of another
    type is a validation error ([None] below). *)
Module Pydantic.

Definition str_field (v : Value) : option string :=
  match v with VStr s => Some s | _ => None end.

Definition int_field (v : Value) : option Z :=
  match v with VInt z => Some z | _ => None end.

Definition dict_field (v : Value) : option Dict :=
  match v with VDict d => Some d | _ => None end.

(** [List[str]] *)
Fixpoint str_items (l : list Value) : option (list string) :=
  match l with
  | [] => Some []
  | VStr s :: rest =>
      match str_items rest with
      | Some ss => Some (s :: ss)
      | None => None
      end
  | _ :: _ => None
  end.

Definition str_list_field (v : Value) : option (list string) :=
  match v with VList l => str_items l | _ => None end.

(** A field with a default: the default when the key is absent. *)
Definition with_default {A} (f : Value -> option A) (dflt : A)
           (k : string) (d : Dict) : option A :=
  match dict_get k d with
  | None => Some dflt
  | Some v => f v
  end.

Definition input_schema_of (v : Value) : option InputSchema :=
  match v with
  | VDict d =>
      match with_default str_field "object" "type" d,
            with_default dict_field [] "properties" d,
            with_default str_list_field [] "required" d with
      | Some t, Some p, Some r => Some (mkInputSchema t p r)
      | _, _, _ => None
      end
  | _ => None
  end.

Definition output_schema_of (v : Value) : option OutputSchema :=
  match v with
  | VDict d =>
      match with_default str_field "object" "type" d,
            with_default dict_field [] "properties" d with
      | Some t, Some p => Some (mkOutputSchema t p)
      | _, _ => None
      end
  | _ => None
  end.

(** [Optional[str]] *)
Definition optional_str (v : Value) : option (option string) :=
  match v with
  | VNone => Some None
  | VStr s => Some (Some s)
  | _ => None
  end.

(** [Optional[ExecutionConfig]], given [None] or a dict. *)
Definition optional_execution (v : Value) : option (option ExecutionConfig) :=
  match v with
  | VNone => Some None
  | VDict d =>
      match dict_get "handler" d, with_default str_field "execute" "function" d,
            with_default int_field 30000 "timeout" d with
      | Some (VStr h), Some f, Some t => Some (Some (mkExecutionConfig h f t))
      | _, _, _ => None
      end
  | _ => None
  end.

(** [SkillMetadata(name=.., version=.., description=.., tags=.., type=..)] *)
Definition metadata_of (n v d tg : Value) (ty : SkillType) : option SkillMetadata :=
  match str_field n, str_field v, str_field d, str_list_field tg with
  | Some n', Some v', Some d', Some tg' => Some (mkSkillMetadata n' v' d' tg' ty)
  | _, _, _, _ => None
  end.

(** The constructor [SkillDefinition] on the metadata's fields and the
    four further arguments. *)
Definition definition_of (md : SkillMetadata) (i o p e : Value)
  : option SkillDefinition :=
  match input_schema_of i, output_schema_of o, optional_str p, optional_execution e with
  | Some i', Some o', Some p', Some e' => Some (mkSkillDefinition md i' o' p' e')
  | _, _, _, _ => None
  end.

End Pydantic.

(** [type(v).__name__] *)
Definition type_name (v : Value) : string :=
  match v with
  | VNone => "NoneType"
  | VBool _ => "bool"
  | VInt _ => "int"
  | VStr _ => "str"
  | VList _ => "list"
  | VDict _ => "dict"
  end.

(** A definition object in the cache: the definition and its identity. *)
Record Obj : Type := mkObj { addr : nat; deref : SkillDefinition }.

(** [schema.dict()] *)
Definition InputSchema_dict (s : InputSchema) : Value :=
  VDict [("type", VStr (in_type s));
         ("properties", VDict (in_properties s));
         ("required", VList (map VStr (in_required s)))].

Definition OutputSchema_dict (s : OutputSchema) : Value :=
  VDict [("type", VStr (out_type s));
         ("properties", VDict (out_properties s))].

(** ** [registry.py] *)

Module SkillRegistry.

(** The object's attributes; [skills_dir] lives in the environment. *)
Record t : Type := mk {
  _metadata : list (string * SkillMetadata);
  _full_definitions : gmap string Obj;
  _loaded : bool
}.

Definition init : t := mk [] ∅ false.

Definition validation_error {A} (env : Env) (model : string) : M t A :=
  raise (mkExn (OtherError "ValidationError") (validation_text env model)).

(** [_load_metadata(skill_path)], for the child [dir] of the root. *)
Definition _load_metadata (env : Env) (dir : string) : M t SkillMetadata :=
  match descriptor env dir with
  | None =>
      raise (mkExn FileNotFoundError ("skill.yaml not found in " +:+ path_str env dir))
  | Some yaml =>
      run emit (EvOpen dir) in
      match yaml with
      | Unreadable cls text => raise (mkExn cls text)
      | Mapping config =>
          match dict_get "name" config, dict_get "version" config,
                dict_get "description" config with
          | None, _, _ =>
              raise (mkExn ValueError ("Skill missing 'name' field: " +:+ path_str env dir))
          | Some _, None, _ =>
              raise (mkExn ValueError ("Skill missing 'version' field: " +:+ path_str env dir))
          | Some _, Some _, None =>
              raise (mkExn ValueError ("Skill missing 'description' field: " +:+ path_str env dir))
          | Some n, Some v, Some d =>
              match SkillType_call env (default (VStr "pure-script") (dict_get "type" config)) with
              | Raise e => raise e
              | Ok ty =>
                  match Pydantic.metadata_of n v d
                          (default (VList []) (dict_get "tags" config)) ty with
                  | None => validation_error env "SkillMetadata"
                  | Some md => ret md
                  end
              end
          end
      end
  end.

(** The body of the loop over the gathered results: a result that is
    neither an [Exception] nor a [SkillMetadata] is passed over. *)
Definition install (r : Res SkillMetadata) : M t unit :=
  match r with
  | Raise e =>
      if is_Exception e
      then emit (EvPrint ("Warning: Failed to load skill metadata: " +:+ exn_str e))
      else ret tt
  | Ok md =>
      let* self := get_self in
      set_self (mk (dict_set (name md) md (_metadata self))
                   (_full_definitions self) (_loaded self))
  end.

Fixpoint install_all (rs : list (Res SkillMetadata)) : M t unit :=
  match rs with
  | [] => ret tt
  | r :: rest => run install r in install_all rest
  end.

(** The children of the root that are directories holding a descriptor. *)
Definition candidates (env : Env) : list string :=
  map fst (List.filter (fun c : string * bool =>
                     (snd c && bool_decide (is_Some (descriptor env (fst c))))%bool)
                  (listing env)).

Definition scan (env : Env) : M t (list (string * SkillMetadata)) :=
  if negb (root_exists env) then
    raise (mkExn FileNotFoundError ("Skills directory not found: " +:+ dir_str env))
  else
    match iterdir env with
    | inl e => raise e
    | inr _ =>
        let tasks := map (_load_metadata env) (candidates env) in
        let* results := gather_exceptions tasks in
        run install_all results in
        let* self := get_self in
        run set_self (mk (_metadata self) (_full_definitions self) true) in
        ret (_metadata self)
    end.

(** [_load_execution_config(exec_config)]: a dict, or [None]. *)
Definition _load_execution_config (exec_config : Value) : Res Value :=
  match exec_config with
  | VNone => Ok VNone
  | VDict d =>
      Ok (VDict [("handler", default (VStr "handler.py") (dict_get "handler" d));
                 ("function", default (VStr "execute") (dict_get "function" d));
                 ("timeout", default (VInt 30000) (dict_get "timeout" d))])
  | v =>
      Raise (mkExn AttributeError
               ("'" +:+ type_name v +:+ "' object has no attribute 'get'"))
  end.

Definition load_full (env : Env) (skill_name : string) : M t Obj :=
  let* self := get_self in
  match _full_definitions self !! skill_name with
  | Some cached => ret cached
  | None =>
      match dict_get skill_name (_metadata self) with
      | None =>
          raise (mkExn ValueError
                   ("Skill '" +:+ skill_name +:+ "' not found in registry. "
                    +:+ "Available skills: "
                    +:+ py_str env (VList (map VStr (dict_keys (_metadata self))))))
      | Some md =>
          match descriptor env skill_name with
          | None =>
              raise (mkExn FileNotFoundError
                       ("skill.yaml not found for '" +:+ skill_name +:+ "'"))
          | Some yaml =>
              run emit (EvOpen skill_name) in
              match yaml with
              | Unreadable cls text => raise (mkExn cls text)
              | Mapping config =>
                  match (match dict_get "execution" config with
                         | Some v => _load_execution_config v
                         | None => Ok VNone
                         end) with
                  | Raise e => raise e
                  | Ok exec =>
                      match Pydantic.definition_of md
                              (default (VDict []) (dict_get "input_schema" config))
                              (default (VDict []) (dict_get "output_schema" config))
                              (default VNone (dict_get "prompt_template" config))
                              exec with
                      | None => validation_error env "SkillDefinition"
                      | Some definition =>
                          let* a := fresh_addr in
                          let cached := mkObj a definition in
                          run set_self (mk (_metadata self)
                                          (<[skill_name := cached]> (_full_definitions self))
                                          (_loaded self)) in
                          ret cached
                      end
                  end
              end
          end
      end
  end.

(** [any(tag in s.tags for tag in tags)] *)
Definition any_tag (wanted : list string) (s : SkillMetadata) : bool :=
  existsb (fun tag => existsb (String.eqb tag) (tags s)) wanted.

(** [list(tags)]; [None] is the default argument.  An empty list is falsy,
    as [None] is. *)
Definition list_ (wanted : option (list string)) (self : t) : list SkillMetadata :=
  let skills := dict_values (_metadata self) in
  match wanted with
  | Some (tag :: more) => List.filter (fun s => any_tag (tag :: more) s) skills
  | Some [] | None => skills
  end.

Definition get_full (skill_name : string) (self : t) : option Obj :=
  _full_definitions self !! skill_name.

Definition is_loaded (self : t) : bool := _loaded self.

Definition get_skill_names (self : t) : list string := dict_keys (_metadata self).

Definition clear_cache : M t unit :=
  let* self := get_self in
  set_self (mk (_metadata self) ∅ (_loaded self)).

End SkillRegistry.

(** ** [executor.py] *)

(** One entry of the list given to [execute_batch]: [input_data] may be
    left out. *)
Record Execution : Type := mkExecution {
  skill_name : string;
  input_data : option Dict
}.

Module SkillExecutor.

Record t : Type := mk {
  registry : SkillRegistry.t;
  _loaded : bool
}.

Definition init : t := mk SkillRegistry.init false.

(** A method call on [self.registry]. *)
Definition on_registry {A} (m : M SkillRegistry.t A) : M t A :=
  fun '(self, w) =>
    let '(r, (reg, w')) := m (registry self, w) in
    (r, (mk reg (_loaded self), w')).

Definition ensure_loaded (env : Env) : M t unit :=
  let* self := get_self in
  if _loaded self then ret tt
  else
    run on_registry (SkillRegistry.scan env) in
    let* self := get_self in
    set_self (mk (registry self) true).

(** One turn of the loop over [input_data.items()]. *)
Definition substitute (env : Env) (template : string) (item : string * Value) : string :=
  let (key, value) := item in
  let template := Str.replace ("{{" +:+ key +:+ "}}") (py_str env value) template in
  Str.replace ("{" +:+ key +:+ "}") (py_str env value) template.

Definition render (env : Env) (template : string) (input : Dict) : string :=
  fold_left (substitute env) input template.

Definition _execute_prompt_skill (env : Env) (skill : SkillDefinition)
           (input : Dict) : M t Value :=
  match prompt_template skill with
  | None | Some EmptyString =>
      raise (mkExn ValueError
               ("Pure prompt skill '" +:+ name (meta skill) +:+ "' missing prompt_template"))
  | Some template =>
      ret (VDict [("type", VStr "prompt");
                  ("content", VStr (render env template input));
                  ("skill_name", VStr (name (meta skill)))])
  end.

(** [skills.{skill.name}.{handler}], the handler without its [.py] and
    with dots for slashes. *)
Definition module_path_of (skill : SkillDefinition) (exec : ExecutionConfig) : string :=
  let h := handler exec in
  let h := if Str.endswith ".py" h then Str.drop_last 3 h else h in
  "skills." +:+ name (meta skill) +:+ "." +:+ Str.replace "/" "." h.

Definition _execute_script_skill (env : Env) (skill : SkillDefinition)
           (input : Dict) : M t Value :=
  match execution skill with
  | None =>
      raise (mkExn ValueError
               ("Script skill '" +:+ name (meta skill) +:+ "' missing execution config"))
  | Some exec =>
      try_except
        (let module_path := module_path_of skill exec in
         run emit (EvImport module_path) in
         match import_module env module_path with
         | ImportFails e => raise e
         | Module attrs =>
             let function_name := function exec in
             match attrs function_name with
             | None =>
                 raise (mkExn AttributeError
                          ("Function '" +:+ function_name +:+ "' not found in module '"
                           +:+ module_path +:+ "'"))
             | Some handler_func =>
                 run emit (EvCall module_path function_name input) in
                 match handler_func input with
                 | Returns result => ret result
                 | Raises e => raise e
                 end
             end
         end)
        (fun e =>
           if is_ImportError e then
             raise (mkExn ImportError
                      ("Failed to import skill module for '" +:+ name (meta skill)
                       +:+ "': " +:+ exn_str e))
           else if is_AttributeError e then
             raise (mkExn AttributeError
                      ("Handler function not found for skill '" +:+ name (meta skill)
                       +:+ "': " +:+ exn_str e))
           else raise e)
  end.

Definition _execute_hybrid_skill (env : Env) (skill : SkillDefinition)
           (input : Dict) : M t Value :=
  _execute_script_skill env skill input.

(** [execute(skill_name, input_data)].  The optional [context] is accepted
    and never read, and is left out.  [SkillType] has three members, so
    the final [else] of the dispatch is not reached. *)
Definition execute (env : Env) (skill_name : string) (input : Dict) : M t SkillResult :=
  run ensure_loaded env in
  let* cached := on_registry (SkillRegistry.load_full env skill_name) in
  let skill := deref cached in
  let* start_time := time_time env in
  try_except
    (let* output :=
       match type (meta skill) with
       | PURE_PROMPT => _execute_prompt_skill env skill input
       | PURE_SCRIPT => _execute_script_skill env skill input
       | HYBRID => _execute_hybrid_skill env skill input
       end in
     let* now := time_time env in
     ret (mkSkillResult true output None (now - start_time)))
    (fun e =>
       let* now := time_time env in
       ret (mkSkillResult false VNone (Some (exn_str e)) (now - start_time))).

Definition execute_batch (env : Env) (executions : list Execution)
  : M t (list SkillResult) :=
  run ensure_loaded env in
  let tasks :=
    map (fun exec => execute env (skill_name exec) (default [] (input_data exec)))
        executions in
  gather tasks.

(** The summary [list_skills] gives for one skill. *)
Definition summary (s : SkillMetadata) : Value :=
  VDict [("name", VStr (name s));
         ("version", VStr (version s));
         ("description", VStr (description s));
         ("tags", VList (map VStr (tags s)));
         ("type", VStr (SkillType_value (type s)))].

Definition list_skills (wanted : option (list string)) (self : t) : list Value :=
  if negb (_loaded self) then []
  else map summary (SkillRegistry.list_ wanted (registry self)).

(** [x is not None] *)
Definition is_not_None {A} (x : option A) : bool :=
  match x with Some _ => true | None => false end.

Definition get_skill_info (env : Env) (skill_name : string) : M t Value :=
  run ensure_loaded env in
  let* cached := on_registry (SkillRegistry.load_full env skill_name) in
  let skill := deref cached in
  ret (VDict [("name", VStr (name (meta skill)));
              ("version", VStr (version (meta skill)));
              ("description", VStr (description (meta skill)));
              ("tags", VList (map VStr (tags (meta skill))));
              ("type", VStr (SkillType_value (type (meta skill))));
              ("input_schema", InputSchema_dict (input_schema skill));
              ("output_schema", OutputSchema_dict (output_schema skill));
              ("has_prompt", VBool (is_not_None (prompt_template skill)));
              ("has_execution", VBool (is_not_None (execution skill)))]).

End SkillExecutor.

(** * Vocabulary of the properties *)

(** ** Invariants and calls *)

(** [m] keeps [P]: whatever [m] returns or raises, [P] still holds of the
    object and the world it leaves. *)
Definition preserves {S A} (P : S * World -> Prop) (m : M S A) : Prop :=
  forall s r s', m s = (r, s') -> P s -> P s'.

(** The registry's cache holds the object [o] for the name [n]. *)
Definition reg_cached (n : string) (o : Obj) (s : SkillRegistry.t * World) : Prop :=
  SkillRegistry._full_definitions (fst s) !! n = Some o.

Definition cached_at (n : string) (o : Obj) (s : SkillExecutor.t * World) : Prop :=
  reg_cached n o (SkillExecutor.registry (fst s), snd s).

(** A property of the executor's registry, as a property of the executor. *)
Definition of_registry (R : SkillRegistry.t -> Prop) (s : SkillExecutor.t * World) : Prop :=
  R (SkillExecutor.registry (fst s)).

(** The calls a client can make on an executor and its registry. *)
Inductive Call : Type :=
| CallScan
| CallLoadFull (n : string)
| CallClearCache
| CallEnsureLoaded
| CallExecute (n : string) (input : Dict)
| CallExecuteBatch (executions : list Execution).

(** The state a call leaves, whether it returns or raises. *)
Definition after (env : Env) (c : Call) (s : SkillExecutor.t * World)
  : SkillExecutor.t * World :=
  match c with
  | CallScan => snd (SkillExecutor.on_registry (SkillRegistry.scan env) s)
  | CallLoadFull n => snd (SkillExecutor.on_registry (SkillRegistry.load_full env n) s)
  | CallClearCache => snd (SkillExecutor.on_registry SkillRegistry.clear_cache s)
  | CallEnsureLoaded => snd (SkillExecutor.ensure_loaded env s)
  | CallExecute n input => snd (SkillExecutor.execute env n input s)
  | CallExecuteBatch l => snd (SkillExecutor.execute_batch env l s)
  end.

(** A sequence of calls, each in the environment of its time. *)
Definition after_all (cs : list (Env * Call)) (s : SkillExecutor.t * World)
  : SkillExecutor.t * World :=
  fold_left (fun s c => after (fst c) (snd c) s) cs s.

Definition is_clear_cache (c : Call) : bool :=
  match c with CallClearCache => true | _ => false end.

(** A new executor in a world where nothing has happened yet. *)
Definition blank : SkillExecutor.t * World := (SkillExecutor.init, mkWorld [] 0 0).



(** ** What a scan finds *)

Definition add_log (w : World) (evs : list Event) : World :=
  mkWorld (log w ++ evs) (ticks w) (next_addr w).

(** What [_load_metadata] makes of the descriptor found in [dir]: it
    depends on the environment alone. *)
Definition metadata_result (env : Env) (dir : string) : Res SkillMetadata :=
  fst (SkillRegistry._load_metadata env dir (SkillRegistry.init, mkWorld [] 0 0)).

(** The results of the tasks that returned, and the exceptions of those
    that raised, each in the order of the tasks. *)
Fixpoint loaded {A} (rs : list (Res A)) : list A :=
  match rs with
  | [] => []
  | Ok a :: rest => a :: loaded rest
  | Raise _ :: rest => loaded rest
  end.

Fixpoint failures {A} (rs : list (Res A)) : list Exn :=
  match rs with
  | [] => []
  | Ok _ :: rest => failures rest
  | Raise e :: rest => e :: failures rest
  end.

(** The line [scan] prints for a task that raised. *)
Definition warning (e : Exn) : Event :=
  EvPrint ("Warning: Failed to load skill metadata: " +:+ exn_str e).

(** [self._metadata[md.name] = md] *)
Definition record (catalog : list (string * SkillMetadata)) (md : SkillMetadata)
  : list (string * SkillMetadata) :=
  dict_set (name md) md catalog.

(** The catalog a scan leaves: the records that loaded, entered one after
    the other in the order of the directory listing. *)
Definition scanned (env : Env) (catalog : list (string * SkillMetadata))
  : list (string * SkillMetadata) :=
  fold_left record (loaded (map (metadata_result env) (SkillRegistry.candidates env))) catalog.

(** A descriptor that cannot be read, or one without a field that
    [_load_metadata] asks for: [name], [version] or [description]. *)
Definition unloadable (env : Env) (dir : string) : Prop :=
  match descriptor env dir with
  | Some (Unreadable _ _) => True
  | Some (Mapping config) =>
      dict_get "name" config = None \/ dict_get "version" config = None
      \/ dict_get "description" config = None
  | None => False
  end.

(** The descriptor in [dir] declares the record [md]: it is a mapping whose
    [name], [version] and [description] are the strings of [md], whose
    [tags] are its tags, none when the key is absent, and whose [type] is
    the value of its type, which is pure-script when the key is absent. *)
Definition declares (env : Env) (dir : string) (md : SkillMetadata) : Prop :=
  exists config,
    descriptor env dir = Some (Mapping config)
    /\ dict_get "name" config = Some (VStr (name md))
    /\ dict_get "version" config = Some (VStr (version md))
    /\ dict_get "description" config = Some (VStr (description md))
    /\ default (VList []) (dict_get "tags" config) = VList (map VStr (tags md))
    /\ default (VStr "pure-script") (dict_get "type" config)
       = VStr (SkillType_value (type md)).

(** ** What a dispatch does *)

(** The branch of [execute] on the variant. *)
Definition dispatch (env : Env) (skill : SkillDefinition) (input : Dict)
  : M SkillExecutor.t Value :=
  match type (meta skill) with
  | PURE_PROMPT => SkillExecutor._execute_prompt_skill env skill input
  | PURE_SCRIPT => SkillExecutor._execute_script_skill env skill input
  | HYBRID => SkillExecutor._execute_hybrid_skill env skill input
  end.

(** Its outcome and the events it leaves depend on the environment alone. *)
Definition dispatch_result (env : Env) (skill : SkillDefinition) (input : Dict) : Res Value :=
  fst (dispatch env skill input blank).

Definition dispatch_events (env : Env) (skill : SkillDefinition) (input : Dict) : list Event :=
  log (snd (snd (dispatch env skill input blank))).

(** The two ways [execute] builds its [SkillResult]. *)
Definition result_of (r : Res Value) (elapsed : Z) : SkillResult :=
  match r with
  | Ok v => mkSkillResult true v None elapsed
  | Raise e => mkSkillResult false VNone (Some (exn_str e)) elapsed
  end.

(** The world after an [execute] that reached its dispatch: the events of
    the dispatch, and two readings of the clock. *)
Definition executed (w : World) (evs : list Event) : World :=
  mkWorld (log w ++ evs) (S (S (ticks w))) (next_addr w).

(** The exception of a dispatch that [except Exception] does not catch. *)
Definition escaping (r : Res Value) : option Exn :=
  match r with
  | Raise e => if is_Exception e then None else Some e
  | Ok _ => None
  end.

(** The world after an [execute] whose dispatch raised such an exception:
    the events of the dispatch, and the one reading of the clock before
    it. *)
Definition interrupted (w : World) (evs : list Event) : World :=
  mkWorld (log w ++ evs) (S (ticks w)) (next_addr w).

(** What [execute] makes of the outcome [r] of its dispatch, begun in the
    world [w]: the result that wraps it, or the exception it lets
    through. *)
Definition concluded (env : Env) (r : Res Value) (evs : list Event)
           (self : SkillExecutor.t) (w : World)
  : Res SkillResult * (SkillExecutor.t * World) :=
  match escaping r with
  | Some e => (Raise e, (self, interrupted w evs))
  | None =>
      (Ok (result_of r (wall env (S (ticks w)) - wall env (ticks w))),
       (self, executed w evs))
  end.

(** The definition lacks what its variant needs: the condition of the
    guards of [_execute_prompt_skill] and [_execute_script_skill]. *)
Definition lacks_required_part (skill : SkillDefinition) : Prop :=
  match type (meta skill) with
  | PURE_PROMPT => prompt_template skill = None \/ prompt_template skill = Some ""
  | PURE_SCRIPT | HYBRID => execution skill = None
  end.

(** The message of the guard that rejects it. *)
Definition missing_part_message (skill : SkillDefinition) : string :=
  match type (meta skill) with
  | PURE_PROMPT => "Pure prompt skill '" +:+ name (meta skill) +:+ "' missing prompt_template"
  | PURE_SCRIPT | HYBRID => "Script skill '" +:+ name (meta skill) +:+ "' missing execution config"
  end.

(** The descriptor [config] gives no part, or a null one. *)
Definition no_part (key : string) (config : Dict) : Prop :=
  default VNone (dict_get key config) = VNone.

(** The schemas of the descriptor, when it has any, are accepted. *)
Definition schemas_valid (config : Dict) : Prop :=
  is_Some (Pydantic.input_schema_of (default (VDict []) (dict_get "input_schema" config)))
  /\ is_Some (Pydantic.output_schema_of (default (VDict []) (dict_get "output_schema" config))).

(** The descriptor of a skill of type [ty] lacks the part its variant
    needs: a pure-prompt skill has no [prompt_template], or an empty one; a
    script or hybrid skill has no [execution] block.  The part of the other
    variant is absent too, or, for the template, a string. *)
Definition lacks_part (ty : SkillType) (config : Dict) : Prop :=
  match ty with
  | PURE_PROMPT =>
      (no_part "prompt_template" config \/ dict_get "prompt_template" config = Some (VStr ""))
      /\ no_part "execution" config
  | PURE_SCRIPT | HYBRID =>
      no_part "execution" config
      /\ is_Some (Pydantic.optional_str (default VNone (dict_get "prompt_template" config)))
  end.

(** After the scan of [env] by a new executor, [load_full] returns for
    [n] a definition of type [ty] that lacks what its variant needs, and
    keeps it in the cache. *)
Definition loads_without_part (env : Env) (n : string) (ty : SkillType) : Prop :=
  let s1 := after env CallEnsureLoaded blank in
  let r := SkillExecutor.on_registry (SkillRegistry.load_full env n) s1 in
  exists o,
    fst r = Ok o
    /\ type (meta (deref o)) = ty
    /\ lacks_required_part (deref o)
    /\ cached_at n o (snd r).

(** The calls of handler functions among some events. *)
Definition handler_calls (evs : list Event) : list Event :=
  List.filter (fun ev => match ev with EvCall _ _ _ => true | _ => false end) evs.

(** ** Template substitution *)



(** ** The specification's wording *)

Module Spec.

(** *** Literal substitution without re-scanning

    "For every key in the input, replace every occurrence of [{{key}}] and
    every occurrence of [{key}] in the template text with the string form
    of the value; once a substring has been replaced it is not re-scanned."
    A piece of the text is a character of the template, still to be read,
    or a value that was put in, which is not read again. *)
Inductive Piece : Type :=
| Raw (c : ascii)
| Put (value : string).

Fixpoint pieces (template : string) : list Piece :=
  match template with
  | EmptyString => []
  | String c rest => Raw c :: pieces rest
  end.

Fixpoint text (ps : list Piece) : string :=
  match ps with
  | [] => EmptyString
  | Raw c :: rest => String c (text rest)
  | Put value :: rest => value +:+ text rest
  end.

(** The characters of the template at the head of [ps] spell [old]. *)
Fixpoint spelled (old : string) (ps : list Piece) : bool :=
  match old, ps with
  | EmptyString, _ => true
  | String a old', Raw b :: ps' => (Ascii.eqb a b && spelled old' ps')%bool
  | String _ _, _ => false
  end.

(** Every occurrence of [old] among the characters of the template,
    from the left, gives way to the value; [skip] counts the characters of
    the occurrence just found that are still to be passed over. *)
Fixpoint put_from (old value : string) (skip : nat) (ps : list Piece) : list Piece :=
  match ps with
  | [] => []
  | p :: rest =>
      match skip with
      | S k => put_from old value k rest
      | O =>
          if spelled old ps
          then Put value :: put_from old value (Nat.pred (String.length old)) rest
          else p :: put_from old value O rest
      end
  end.

Definition put (env : Env) (ps : list Piece) (item : string * Value) : list Piece :=
  let (key, value) := item in
  put_from ("{" +:+ key +:+ "}") (py_str env value) O
    (put_from ("{{" +:+ key +:+ "}}") (py_str env value) O ps).

Definition substituted (env : Env) (template : string) (input : Dict) : string :=
  text (fold_left (put env) input (pieces template)).

(** *** Descriptors

    The required fields of a descriptor are [name], [version], [description]
    and [type]; a descriptor is malformed when it cannot be parsed or a
    required field is missing. *)
Definition malformed (env : Env) (dir : string) : Prop :=
  match descriptor env dir with
  | Some (Unreadable _ _) => True
  | Some (Mapping config) =>
      dict_get "name" config = None \/ dict_get "version" config = None
      \/ dict_get "description" config = None \/ dict_get "type" config = None
  | None => False
  end.

End Spec.

(** ** A skills directory to run the code on *)

Module Demo.

(** A stand-in for [repr], right for strings without quotes or escapes and
    for lists of them. *)
Definition quoted (v : Value) : string :=
  match v with
  | VStr s => "'" +:+ s +:+ "'"
  | VInt z => pretty z
  | VBool true => "True"
  | VBool false => "False"
  | VNone => "None"
  | VList _ => "[...]"
  | VDict _ => "{...}"
  end.

Definition repr (v : Value) : string :=
  match v with
  | VList [] => "[]"
  | VList (x :: l) =>
      "[" +:+ fold_left (fun acc y => acc +:+ ", " +:+ quoted y) l (quoted x) +:+ "]"
  | _ => quoted v
  end.

Definition described (n ty : string) (more : Dict) : Yaml :=
  Mapping ([("name", VStr n); ("version", VStr "1.0.0");
            ("description", VStr ("The " +:+ n +:+ " skill")); ("type", VStr ty)] ++ more).

(** The descriptors, by directory. *)
Definition files : list (string * Yaml) :=
  [("greeter", described "greeter" "pure-prompt"
      [("tags", VList [VStr "text"]);
       ("prompt_template", VStr "Hello {{name}}, age {age}")]);
   ("web-search", described "web-search" "hybrid"
      [("tags", VList [VStr "search"; VStr "web"]);
       ("prompt_template", VStr "Search the web for {{query}}");
       ("execution", VDict [("handler", VStr "handler.py"); ("function", VStr "execute")])]);
   ("bare", described "bare" "pure-prompt" []);
   ("idle", described "idle" "pure-script" []);
   ("quiet", described "quiet" "pure-script" [("execution", VDict [])]);
   ("faulty", described "faulty" "pure-script"
      [("execution", VDict [("handler", VStr "lib/run.py"); ("function", VStr "main")])]);
   ("boom", described "boom" "pure-script" [("execution", VDict [])]);
   ("broken", Mapping [("name", VStr "broken"); ("description", VStr "no version")]);
   ("garbled", Unreadable (OtherError "ScannerError") "mapping values are not allowed here")].

Definition found (results : list Dict) : Value :=
  VDict [("query", VStr "rocq"); ("results", VList (map VDict results))].

(** The handler modules. *)
Definition modules (path : string) : Import :=
  let only (fn : string) (f : Dict -> Outcome) : Import :=
    (Module (fun a => if String.eqb a fn then Some f else None)) in
  if String.eqb path "skills.web-search.handler" then
    only "execute" (fun _ => Returns (found [[("title", VStr "Rocq")]]))
  else if String.eqb path "skills.quiet.handler" then
    only "execute" (fun _ => Returns VNone)
  else if String.eqb path "skills.faulty.lib.run" then
    only "main" (fun _ => Raises (mkExn ValueError "bad input"))
  else if String.eqb path "skills.boom.handler" then
    only "execute" (fun _ => Raises (mkExn AttributeError "boom"))
  else if String.eqb path "skills.leaver.handler" then
    only "execute" (fun _ => Raises (mkExn (NonException "SystemExit") "1"))
  else
    ImportFails (mkExn ModuleNotFoundError ("No module named '" +:+ path +:+ "'")).

Definition directory (root : string) (files : list (string * Yaml)) : Env :=
  mkEnv root (fun n => root +:+ "/" +:+ n) true
        (inr (map (fun f => (fst f, true)) files ++ [("README.md", false)]))
        (fun n => dict_get n files)
        modules
        (fun n => 1000 * Z.of_nat n)
        repr
        (fun model => "1 validation error for " +:+ model).

Definition skills : Env := directory "skills" files.

(** Two directories whose descriptors declare the same name. *)
Definition twins : Env :=
  directory "twins" [("a", described "dup" "pure-prompt" []);
                     ("b", described "dup" "pure-script" [])].

(** Definitions that lack what their variant needs, a prompt skill whose
    template is empty, and a script skill whose handler exits. *)
Definition partial : Env :=
  directory "partial"
    [("bare", described "bare" "pure-prompt" []);
     ("idle", described "idle" "pure-script" []);
     ("half", described "half" "hybrid" [("prompt_template", VStr "Ask about {{topic}}")]);
     ("mute", described "mute" "pure-prompt" [("prompt_template", VStr "")]);
     ("leaver", described "leaver" "pure-script" [("execution", VDict [])])].

(** A descriptor without a [type]. *)
Definition untyped : Env :=
  directory "untyped"
    [("plain", Mapping [("name", VStr "plain"); ("version", VStr "0.1.0");
                        ("description", VStr "A skill of no declared type")])].

(** The root is a regular file. *)
Definition regular_file : Env :=
  mkEnv "skills.txt" (fun n => "skills.txt/" +:+ n) true
        (inl (mkExn (OtherError "NotADirectoryError")
                "[Errno 20] Not a directory: 'skills.txt'"))
        (fun _ => None) modules
        (fun n => 1000 * Z.of_nat n) repr (fun model => model).

(** The root is not there. *)
Definition nowhere : Env :=
  mkEnv "missing" (fun n => "missing/" +:+ n) false
        (inl (mkExn FileNotFoundError "[Errno 2] No such file or directory: 'missing'"))
        (fun _ => None) modules
        (fun n => 1000 * Z.of_nat n) repr (fun model => model).

End Demo.

(** * Vocabulary of the further properties *)

(** ** Invariants of the registry *)

(** Every record of the catalog and every cached definition is filed under
    the name it carries. *)
Definition filed_by_name (r : SkillRegistry.t) : Prop :=
  (forall k md, dict_get k (SkillRegistry._metadata r) = Some md -> name md = k)
  /\ (forall k o, SkillRegistry._full_definitions r !! k = Some o -> name (meta (deref o)) = k).

(** The catalog is a [dict]: no key occurs twice. *)
Definition keys_unique (r : SkillRegistry.t) : Prop :=
  NoDup (dict_keys (SkillRegistry._metadata r)).

(** The objects of the cache were constructed before now. *)
Definition addrs_below (s : SkillExecutor.t * World) : Prop :=
  forall k o,
    SkillRegistry._full_definitions (SkillExecutor.registry (fst s)) !! k = Some o ->
    (addr o < next_addr (snd s))%nat.

(** No object was constructed before [a0] is the next identity; with
    [strict], every object of the cache was constructed since. *)
Definition made_since (strict : bool) (a0 : nat) (s : SkillExecutor.t * World) : Prop :=
  (a0 <= next_addr (snd s))%nat
  /\ (strict = true ->
      forall k o,
        SkillRegistry._full_definitions (SkillExecutor.registry (fst s)) !! k = Some o ->
        (a0 <= addr o)%nat).

(** The executor has done its scan and its catalog is [catalog]. *)
Definition loaded_with (catalog : list (string * SkillMetadata))
           (s : SkillExecutor.t * World) : Prop :=
  SkillExecutor._loaded (fst s) = true
  /\ SkillRegistry._metadata (SkillExecutor.registry (fst s)) = catalog.

Definition is_scan (c : Call) : bool :=
  match c with CallScan => true | _ => false end.

(** The events in which code of a skill is imported or called. *)
Definition code_events (evs : list Event) : list Event :=
  List.filter (fun ev => match ev with
                         | EvImport _ | EvCall _ _ _ => true
                         | _ => false
                         end) evs.



(** The events a run added to the log. *)
Definition new_events (before after : World) : list Event :=
  skipn (length (log before)) (log after).

(** ** [skills/web-search/handler.py] *)

Module WebSearch.

(** [range(limit)]: an [int] (a [bool] is one), or a [TypeError]. *)
Definition range (limit : Value) : Exn + list nat :=
  match limit with
  | VInt z => inr (seq 0 (Z.to_nat z))
  | VBool b => inr (seq 0 (if b then 1 else 0))
  | v => inl (mkExn (OtherError "TypeError")
                ("'" +:+ type_name v +:+ "' object cannot be interpreted as an integer"))
  end.

(** One element of [mock_results]. *)
Definition mock_result (env : Env) (query : Value) (i : nat) : Value :=
  let n := pretty (Z.of_nat i + 1) in
  VDict [("title", VStr ("Result " +:+ n +:+ " for '" +:+ py_str env query +:+ "'"));
         ("url", VStr ("https://example.com/result-" +:+ n));
         ("snippet", VStr ("This is result " +:+ n +:+ " for the query '"
                           +:+ py_str env query +:+ "'. "
                           +:+ "It contains relevant information about the topic."));
         ("source", VStr "Example Search")].

(** [execute(input_data)]; the pause of [asyncio.sleep] is not modelled. *)
Definition execute (env : Env) (input : Dict) : Outcome :=
  let query := default VNone (dict_get "query" input) in
  let limit := default (VInt 5) (dict_get "limit" input) in
  match range limit with
  | inl e => Raises e
  | inr indices =>
      let mock_results := map (mock_result env query) indices in
      Returns (VDict [("results", VList mock_results);
                      ("total", VInt (Z.of_nat (length mock_results)));
                      ("query", query)])
  end.

End WebSearch.

(** ** [skills/code-analysis/analyzer.py] *)

Module Analyzer.

(** A match of a regular expression: where it starts and its first group
    (the empty string when the pattern has none).  The [re] module is taken
    as given: [finditer pattern code] is the list of the matches
    [re.finditer] yields, in order. *)
Record Match : Type := mkMatch { start : nat; group1 : string }.

Definition Finditer : Type := string -> string -> list Match.

(** The patterns of the module. *)
Definition print_pattern : string := "\bprint\s*\(".
Definition def_pattern : string := "def\s+(\w+)\s*\([^)]*\)\s*:".
Definition todo_pattern : string := "#\s*TODO[:\s]*(.+)".
Definition console_pattern : string := "console\.log\s*\(".
Definition var_pattern : string := "\bvar\s+".

Definition newline : ascii := ascii_of_nat 10.

(** [s.split('\n')] *)
Fixpoint split_lines (s : string) : list string :=
  match s with
  | EmptyString => [EmptyString]
  | String c rest =>
      if Ascii.eqb c newline then EmptyString :: split_lines rest
      else match split_lines rest with
           | line :: more => String c line :: more
           | [] => [String c EmptyString]
           end
  end.

(** [c.isspace()]: the white space among the code points below 256 is 9
    to 13, 28 to 32, 133 (next line) and 160 (no-break space). *)
Definition is_space (c : ascii) : bool :=
  let n := nat_of_ascii c in
  ((Nat.leb 9 n && Nat.leb n 13) || (Nat.leb 28 n && Nat.leb n 32)
   || Nat.eqb n 133 || Nat.eqb n 160)%bool.

Fixpoint lstrip (s : string) : string :=
  match s with
  | EmptyString => EmptyString
  | String c rest => if is_space c then lstrip rest else s
  end.

Fixpoint rstrip (s : string) : string :=
  match s with
  | EmptyString => EmptyString
  | String c rest =>
      match rstrip rest with
      | EmptyString => if is_space c then EmptyString else String c EmptyString
      | kept => String c kept
      end
  end.

(** [s.strip()] *)
Definition strip (s : string) : string := rstrip (lstrip s).

(** [s.count('\n')] *)
Fixpoint count_newlines (s : string) : nat :=
  match s with
  | EmptyString => O
  | String c rest => (if Ascii.eqb c newline then 1 else 0) + count_newlines rest
  end.

(** [code[:pos].count('\n') + 1] *)
Definition line_of (code : string) (pos : nat) : Z :=
  Z.of_nat (count_newlines (String.substring 0 pos code)) + 1.

(** [s.find(sub, from)]: the first index not below [from] where [sub]
    starts, if any; [at_] is the index of the head of [s]. *)
Fixpoint find_at (sub : string) (from at_ : nat) (s : string) : option nat :=
  if (Nat.leb from at_ && Str.startswith sub s)%bool then Some at_
  else match s with
       | EmptyString => None
       | String _ rest => find_at sub from (S at_) rest
       end.

Definition find (sub : string) (from : nat) (s : string) : option nat :=
  find_at sub from O s.

(** [code[a:b]] *)
Definition slice (a b : nat) (s : string) : string := String.substring a (b - a) s.

(** [bool(s)] *)
Definition nonempty (s : string) : bool :=
  match s with EmptyString => false | String _ _ => true end.

(** [len([l for l in lines if l.strip() and not l.strip().startswith(mark)])] *)
Definition lines_of_code (mark : string) (code : string) : nat :=
  length (List.filter (fun l => (nonempty (strip l) && negb (Str.startswith mark (strip l)))%bool)
                      (split_lines code)).

(** [len([l for l in text.split('\n') if l.strip()])] *)
Definition nonblank_lines (text : string) : nat :=
  length (List.filter (fun l => nonempty (strip l)) (split_lines text)).

(** A [for] loop over an iterator: the body runs on every item that is
    left, and the iterator is left exhausted. *)
Definition for_each {A B} (iterator : list A) (body : B -> A -> B) (acc : B) : B * list A :=
  (fold_left body iterator acc, []).

Definition issue (severity category message : string) (line : Z) (suggestion : string) : Value :=
  VDict [("severity", VStr severity); ("category", VStr category);
         ("message", VStr message); ("line", VInt line); ("suggestion", VStr suggestion)].

(** The body of the loop over the function definitions. *)
Definition check_function (code : string) (issues : list Value) (m : Match) : list Value :=
  let func_name := group1 m in
  let func_start := start m in
  let func_end := match find (String newline "def ") (func_start + 1) code with
                  | None => String.length code
                  | Some next_def => next_def
                  end in
  let func_code := slice func_start func_end code in
  let func_lines := nonblank_lines func_code in
  if Nat.ltb 50 func_lines then
    issues ++ [issue "info" "complexity"
                 ("Function '" +:+ func_name +:+ "' is long (" +:+ pretty (Z.of_nat func_lines)
                  +:+ " lines)")
                 (line_of code func_start)
                 "Consider breaking this function into smaller functions"]
  else issues.

(** [_analyze_python(code)]: issues, suggestions and metrics. *)
Definition _analyze_python (finditer : Finditer) (code : string)
  : list Value * list Value * Dict :=
  let metrics := [("lines_of_code", VInt (Z.of_nat (lines_of_code "#" code)))] in
  let print_matches := finditer print_pattern code in
  let (issues, _) :=
    for_each print_matches
      (fun issues m =>
         issues ++ [issue "warning" "best-practices" "Print statement found in code"
                      (line_of code (start m)) "Consider using logging instead of print"])
      [] in
  let functions := finditer def_pattern code in
  let (issues, functions) := for_each functions (check_function code) issues in
  let todo_matches := finditer todo_pattern code in
  let (suggestions, _) :=
    for_each todo_matches
      (fun suggestions m =>
         suggestions ++ [VDict [("category", VStr "maintenance");
                                ("message", VStr ("TODO comment found: " +:+ strip (group1 m)));
                                ("line", VInt (line_of code (start m)))]])
      [] in
  let metrics :=
    dict_set "complexity"
      (VDict [("num_functions", VInt (Z.of_nat (length functions)));
              ("estimated_complexity",
               VStr (if Nat.ltb (length functions) 5 then "low" else "medium"))])
      metrics in
  (issues, suggestions, metrics).

(** [_analyze_javascript(code)] *)
Definition _analyze_javascript (finditer : Finditer) (code : string)
  : list Value * list Value * Dict :=
  let metrics := [("lines_of_code", VInt (Z.of_nat (lines_of_code "//" code)))] in
  let console_matches := finditer console_pattern code in
  let (issues, _) :=
    for_each console_matches
      (fun issues m =>
         issues ++ [issue "warning" "best-practices" "console.log statement found in code"
                      (line_of code (start m)) "Remove or replace with proper logging"])
      [] in
  let var_matches := finditer var_pattern code in
  let (issues, _) :=
    for_each var_matches
      (fun issues m =>
         issues ++ [issue "warning" "modern-js" "Usage of 'var' keyword"
                      (line_of code (start m)) "Use 'let' or 'const' instead of 'var'"])
      issues in
  let metrics := dict_set "complexity" (VDict [("estimated_complexity", VStr "low")]) metrics in
  (issues, [], metrics).

(** [v == s] for a string [s] *)
Definition equals_str (s : string) (v : Value) : bool :=
  match v with VStr s' => String.eqb s' s | _ => false end.

(** [isinstance(v, dict)] *)
Definition is_dict (v : Value) : bool :=
  match v with VDict _ => true | _ => false end.

(** The suggestions counted as critical. *)
Definition critical (env : Env) (suggestions : list Value) : list Value :=
  List.filter (fun s => (is_dict s
                         && Str.contains "critical" (Str.lower (py_str env s)))%bool)
              suggestions.

(** [analyze(input_data)].  [checks] is read and never used. *)
Definition analyze (finditer : Finditer) (env : Env) (input : Dict) : Outcome :=
  let code := default (VStr "") (dict_get "code" input) in
  let language := default (VStr "python") (dict_get "language" input) in
  let on_string (f : Finditer -> string -> list Value * list Value * Dict)
    : Exn + list Value * list Value * Dict :=
    match code with
    | VStr text => inr (f finditer text)
    | v => inl (mkExn AttributeError
                  ("'" +:+ type_name v +:+ "' object has no attribute 'split'"))
    end in
  let analysed :=
    if equals_str "python" language then on_string _analyze_python
    else if (equals_str "javascript" language || equals_str "typescript" language)%bool
         then on_string _analyze_javascript
         else inr ([], [], []) in
  match analysed with
  | inl e => Raises e
  | inr (issues, suggestions, metrics) =>
      let critical_count := length (critical env suggestions) in
      let score := 100 - Z.of_nat (length issues) * 5 - Z.of_nat critical_count * 10 in
      let score := Z.max 0 (Z.min 100 score) in
      Returns (VDict [("score", VInt score);
                      ("issues", VList issues);
                      ("suggestions", VList suggestions);
                      ("metrics", VDict metrics);
                      ("language", language)])
  end.

End Analyzer.

(** Every character of the string is an ASCII character. *)
Fixpoint ascii_only (s : string) : bool :=
  match s with
  | EmptyString => true
  | String c rest => (Nat.ltb (nat_of_ascii c) 128 && ascii_only rest)%bool
  end.

(** The metrics count [lines] lines of code: no more than the code has
    lines, and for ASCII code those that are not blank and do not begin
    with the comment mark. *)
Definition counts_lines (mark code : string) (lines : Z) : Prop :=
  0 <= lines <= Z.of_nat (length (Analyzer.split_lines code))
  /\ (ascii_only code = true -> lines = Z.of_nat (Analyzer.lines_of_code mark code)).

(** The parts of the dict [analyze] returns. *)
Definition report (score : Z) (issues suggestions : list Value) (metrics : Dict)
           (language : Value) : Value :=
  VDict [("score", VInt score); ("issues", VList issues);
         ("suggestions", VList suggestions); ("metrics", VDict metrics);
         ("language", language)].

(** An issue or a suggestion that carries a line of the code. *)
Definition on_line_of (code : string) (item : Value) : Prop :=
  exists fields line,
    item = VDict fields
    /\ dict_get "line" fields = Some (VInt line)
    /\ 1 <= line <= Z.of_nat (length (Analyzer.split_lines code)).
(** * Properties *)

(** ** [str.replace] on examples *)

Example replace_all_occurrences :
  Str.replace "ab" "X" "abcabab-a" = "XcXX-a".
Proof. reflexivity. Qed.

Example replace_no_overlap :
  Str.replace "aa" "b" "aaa" = "ba".
Proof. reflexivity. Qed.

Example replace_empty_old :
  Str.replace "" "-" "abc" = "-a-b-c-".
Proof. reflexivity. Qed.

(** ** Reasoning about methods *)

Section Preserves.
Context {S : Type} (P : S * World -> Prop).

Lemma preserves_ret {A} (a : A) : preserves P (ret a).
Proof. intros s r s' [= _ <-]. auto. Qed.

Lemma preserves_raise {A} (e : Exn) : preserves P (@raise S A e).
Proof. intros s r s' [= _ <-]. auto. Qed.

Lemma preserves_bind {A B} (m : M S A) (k : A -> M S B) :
  preserves P m -> (forall a, preserves P (k a)) -> preserves P (bind m k).
Proof.
  intros Hm Hk s r s' Hrun HP. unfold bind in Hrun.
  destruct (m s) as [[a|e] s1] eqn:E.
  - eapply Hk; eauto.
  - injection Hrun as _ <-. eauto.
Qed.

Lemma preserves_try {A} (m : M S A) (h : Exn -> M S A) :
  preserves P m -> (forall e, preserves P (h e)) -> preserves P (try_except m h).
Proof.
  intros Hm Hh s r s' Hrun HP. unfold try_except in Hrun.
  destruct (m s) as [[a|e] s1] eqn:E.
  - injection Hrun as _ <-. eauto.
  - destruct (is_Exception e).
    + eapply Hh; eauto.
    + injection Hrun as _ <-. eauto.
Qed.

(** [P] does not look at the world. *)
Hypothesis P_world : forall x w w', P (x, w) -> P (x, w').

Lemma preserves_emit ev : preserves P (emit ev).
Proof. intros [x w] r s' [= _ <-]. eauto. Qed.

Lemma preserves_time_time env : preserves P (time_time env).
Proof. intros [x w] r s' [= _ <-]. eauto. Qed.

End Preserves.

Lemma preserves_gather_exceptions {S A} (P : S * World -> Prop) (tasks : list (M S A)) :
  Forall (preserves P) tasks -> preserves P (gather_exceptions tasks).
Proof.
  induction 1 as [|task rest Ht _ IH]; simpl.
  - apply preserves_ret.
  - intros s r s' Hrun HP. destruct (task s) as [r1 s1] eqn:E.
    assert (Hk : preserves P (let* rs := gather_exceptions rest in ret (r1 :: rs))).
    { apply preserves_bind; [exact IH | intros; apply preserves_ret]. }
    exact (Hk s1 r s' Hrun (Ht s r1 s1 E HP)).
Qed.

Lemma preserves_gather {S A} (P : S * World -> Prop) (tasks : list (M S A)) :
  Forall (preserves P) tasks -> preserves P (gather tasks).
Proof.
  intros H. unfold gather. apply preserves_bind.
  - by apply preserves_gather_exceptions.
  - intros rs. destruct (first_exception rs); [apply preserves_raise | apply preserves_ret].
Qed.

Ltac unfold_run H :=
  unfold bind, ret, raise, get_self, set_self, emit, fresh_addr, time_time,
    try_except, SkillRegistry.validation_error in H;
  simpl in H.

Ltac split_run H :=
  repeat match type of H with
         | context [match ?x with _ => _ end] => destruct x eqn:?; simpl in H
         end.

(** ** The cache of full definitions *)

Lemma load_metadata_self env dir self w r s' :
  SkillRegistry._load_metadata env dir (self, w) = (r, s') -> fst s' = self.
Proof.
  unfold SkillRegistry._load_metadata. intros H.
  unfold_run H. split_run H; injection H as _ <-; reflexivity.
Qed.

Lemma load_full_keeps_cached env n k o :
  preserves (reg_cached k o) (SkillRegistry.load_full env n).
Proof.
  intros [self w] r s' H HP. unfold reg_cached in *. simpl in HP.
  unfold SkillRegistry.load_full in H. unfold_run H.
  split_run H; injection H as _ <-; simpl; auto.
  rewrite lookup_insert_ne; auto. congruence.
Qed.

Lemma install_keeps_cached k o r : preserves (reg_cached k o) (SkillRegistry.install r).
Proof.
  intros [self w] res s' H HP. unfold reg_cached in *.
  unfold SkillRegistry.install in H.
  destruct r as [md|e]; [|destruct (is_Exception e)]; unfold_run H; injection H as _ <-; auto.
Qed.

Lemma install_all_keeps_cached k o rs : preserves (reg_cached k o) (SkillRegistry.install_all rs).
Proof.
  induction rs as [|r rs IH]; simpl.
  - apply preserves_ret.
  - apply preserves_bind; [apply install_keeps_cached | auto].
Qed.

Lemma load_metadata_keeps {P : SkillRegistry.t -> Prop} env dir :
  preserves (fun s => P (fst s)) (SkillRegistry._load_metadata env dir).
Proof.
  intros [self w] r s' H HP. apply load_metadata_self in H. simpl in *. congruence.
Qed.

Lemma scan_keeps_cached env k o : preserves (reg_cached k o) (SkillRegistry.scan env).
Proof.
  unfold SkillRegistry.scan. destruct (negb (root_exists env)); [apply preserves_raise|].
  destruct (iterdir env); [apply preserves_raise|].
  apply preserves_bind.
  - apply preserves_gather_exceptions, Forall_forall. intros m Hm.
    apply list_elem_of_In, in_map_iff in Hm as (dir & <- & _).
    apply (@load_metadata_keeps (fun self => SkillRegistry._full_definitions self !! k = Some o)).
  - intros rs. apply preserves_bind; [apply install_all_keeps_cached|].
    intros _ [self w] r s' H HP. unfold_run H. injection H as _ <-. exact HP.
Qed.

(** ** What the executor leaves of its registry *)

Lemma on_registry_preserves {A} (P : SkillRegistry.t * World -> Prop) (m : M SkillRegistry.t A) :
  preserves P m ->
  preserves (fun s => P (SkillExecutor.registry (fst s), snd s)) (SkillExecutor.on_registry m).
Proof.
  intros Hm [self w] r s' H HP. unfold SkillExecutor.on_registry in H.
  destruct (m (SkillExecutor.registry self, w)) as [r0 [reg w']] eqn:E.
  injection H as _ <-. simpl in *. exact (Hm _ _ _ E HP).
Qed.

Section RegistryInvariant.
(** A property of the registry object that [scan] and [load_full] keep is
    kept by every method of the executor. *)
Variable R : SkillRegistry.t -> Prop.
Hypothesis R_scan : forall env, preserves (fun s => R (fst s)) (SkillRegistry.scan env).
Hypothesis R_load_full :
  forall env n, preserves (fun s => R (fst s)) (SkillRegistry.load_full env n).

Local Abbreviation P := (of_registry R).

Lemma of_registry_world x w w' : P (x, w) -> P (x, w').
Proof. auto. Qed.

Lemma ensure_loaded_preserves env : preserves P (SkillExecutor.ensure_loaded env).
Proof.
  intros [self w] r s' H HP. unfold SkillExecutor.ensure_loaded in H.
  unfold bind at 1 in H. unfold get_self at 1 in H. simpl in H.
  destruct (SkillExecutor._loaded self).
  - injection H as _ <-. exact HP.
  - unfold bind at 1 in H.
    destruct (SkillExecutor.on_registry (SkillRegistry.scan env) (self, w))
      as [[a|e] [self1 w1]] eqn:E.
    + unfold_run H. injection H as _ <-.
      exact (on_registry_preserves (fun s => R (fst s)) _ (R_scan env) _ _ _ E HP).
    + injection H as _ <-.
      exact (on_registry_preserves (fun s => R (fst s)) _ (R_scan env) _ _ _ E HP).
Qed.

Lemma prompt_preserves env skill input :
  preserves P (SkillExecutor._execute_prompt_skill env skill input).
Proof.
  unfold SkillExecutor._execute_prompt_skill.
  destruct (prompt_template skill) as [[|c t]|];
    first [apply preserves_raise | apply preserves_ret].
Qed.

Lemma script_preserves env skill input :
  preserves P (SkillExecutor._execute_script_skill env skill input).
Proof.
  unfold SkillExecutor._execute_script_skill.
  destruct (execution skill) as [exec|]; [|apply preserves_raise].
  apply preserves_try.
  - apply preserves_bind; [apply preserves_emit, of_registry_world|]. intros _.
    destruct (import_module env _) as [e|attrs]; [apply preserves_raise|].
    destruct (attrs _) as [f|]; [|apply preserves_raise].
    apply preserves_bind; [apply preserves_emit, of_registry_world|]. intros _.
    destruct (f input); [apply preserves_ret | apply preserves_raise].
  - intros e. destruct (is_ImportError e); [apply preserves_raise|].
    destruct (is_AttributeError e); apply preserves_raise.
Qed.

Lemma execute_preserves env n input : preserves P (SkillExecutor.execute env n input).
Proof.
  unfold SkillExecutor.execute.
  apply preserves_bind; [apply ensure_loaded_preserves|]. intros _.
  apply preserves_bind.
  { apply (on_registry_preserves (fun s => R (fst s))), R_load_full. }
  intros cached.
  apply preserves_bind; [apply preserves_time_time, of_registry_world|]. intros t0.
  apply preserves_try.
  - apply preserves_bind.
    + destruct (type _); unfold SkillExecutor._execute_hybrid_skill;
        auto using prompt_preserves, script_preserves.
    + intros v. apply preserves_bind; [apply preserves_time_time, of_registry_world|].
      intros. apply preserves_ret.
  - intros e. apply preserves_bind; [apply preserves_time_time, of_registry_world|].
    intros. apply preserves_ret.
Qed.

Lemma execute_batch_preserves env l : preserves P (SkillExecutor.execute_batch env l).
Proof.
  unfold SkillExecutor.execute_batch.
  apply preserves_bind; [apply ensure_loaded_preserves|]. intros _.
  apply preserves_gather, Forall_forall. intros m Hm.
  apply list_elem_of_In, in_map_iff in Hm as (x & <- & _). apply execute_preserves.
Qed.

End RegistryInvariant.

(** ** [load_full] and the cache *)

Lemma load_full_hit env n o s :
  reg_cached n o s -> SkillRegistry.load_full env n s = (Ok o, s).
Proof.
  destruct s as [self w]. unfold reg_cached, SkillRegistry.load_full. simpl.
  intros H. unfold bind, get_self. simpl. rewrite H. reflexivity.
Qed.

Lemma load_full_caches env n o s s1 :
  SkillRegistry.load_full env n s = (Ok o, s1) -> reg_cached n o s1.
Proof.
  destruct s as [self w]. unfold reg_cached, SkillRegistry.load_full. intros H.
  unfold_run H. split_run H; try discriminate H.
  - injection H as <- <-. assumption.
  - injection H as <- <-. simpl. apply lookup_insert_eq.
Qed.

Lemma on_registry_load_full_hit env n o s :
  cached_at n o s -> SkillExecutor.on_registry (SkillRegistry.load_full env n) s = (Ok o, s).
Proof.
  destruct s as [[reg ld] w]. unfold cached_at. simpl. intros H.
  unfold SkillExecutor.on_registry. rewrite (load_full_hit env n o _ H). reflexivity.
Qed.

Lemma on_registry_load_full_caches env n o s s1 :
  SkillExecutor.on_registry (SkillRegistry.load_full env n) s = (Ok o, s1) -> cached_at n o s1.
Proof.
  destruct s as [self w]. unfold SkillExecutor.on_registry. intros H.
  destruct (SkillRegistry.load_full env n _) as [r [reg w']] eqn:E.
  injection H as -> <-. apply load_full_caches in E. exact E.
Qed.

Lemma preserves_snd {S A} (P : S * World -> Prop) (m : M S A) s :
  preserves P m -> P s -> P (snd (m s)).
Proof. intros H HP. destruct (m s) as [r s'] eqn:E. exact (H _ _ _ E HP). Qed.

Lemma after_keeps_cached env c k o s :
  is_clear_cache c = false -> cached_at k o s -> cached_at k o (after env c s).
Proof.
  pose proof (fun env => scan_keeps_cached env k o) as Hscan.
  pose proof (fun env n => load_full_keeps_cached env n k o) as Hload.
  intros Hc. destruct c; try discriminate Hc; simpl; apply preserves_snd.
  - apply (on_registry_preserves (reg_cached k o)), Hscan.
  - apply (on_registry_preserves (reg_cached k o)), Hload.
  - apply (ensure_loaded_preserves (fun r => SkillRegistry._full_definitions r !! k = Some o)); auto.
  - apply (execute_preserves (fun r => SkillRegistry._full_definitions r !! k = Some o)); auto.
  - apply (execute_batch_preserves (fun r => SkillRegistry._full_definitions r !! k = Some o)); auto.
Qed.

Lemma after_all_keeps_cached cs k o s :
  forallb (fun c => negb (is_clear_cache (snd c))) cs = true ->
  cached_at k o s -> cached_at k o (after_all cs s).
Proof.
  revert s. induction cs as [|[env c] cs IH]; simpl; intros s Hcs Hk; [exact Hk|].
  apply andb_prop in Hcs as [Hc Hcs]. apply IH; [exact Hcs|].
  apply after_keeps_cached; [|exact Hk]. by destruct (is_clear_cache c).
Qed.

(** C8.  Once [load_full] has returned a definition for a name, every later
    [load_full] for that name returns the same object (same identity, same
    content), whatever calls other than [clear_cache] came in between and
    whatever the descriptor on disk has become; the call changes neither
    the registry nor the world, so no file is opened. *)
Theorem load_full_returns_cached_instance env n s o s1 :
  SkillExecutor.on_registry (SkillRegistry.load_full env n) s = (Ok o, s1) ->
  forall cs, forallb (fun c => negb (is_clear_cache (snd c))) cs = true ->
  forall env',
    SkillExecutor.on_registry (SkillRegistry.load_full env' n) (after_all cs s1)
    = (Ok o, after_all cs s1).
Proof.
  intros Hload cs Hcs env'. apply on_registry_load_full_hit.
  apply after_all_keeps_cached; [exact Hcs|].
  eapply on_registry_load_full_caches, Hload.
Qed.

(** ** [scan] *)

Lemma add_log_nil w : add_log w [] = w.
Proof. destruct w. unfold add_log. simpl. by rewrite app_nil_r. Qed.

Lemma add_log_app w a b : add_log (add_log w a) b = add_log w (a ++ b).
Proof. unfold add_log. simpl. by rewrite app_assoc. Qed.

Lemma loaded_failures_length {A} (rs : list (Res A)) :
  (length (loaded rs) + length (failures rs) = length rs)%nat.
Proof. induction rs as [|[a|e] rs IH]; simpl; lia. Qed.

Lemma load_metadata_run env dir self w :
  is_Some (descriptor env dir) ->
  SkillRegistry._load_metadata env dir (self, w)
  = (metadata_result env dir, (self, add_log w [EvOpen dir])).
Proof.
  intros [yaml Hy]. unfold metadata_result, SkillRegistry._load_metadata. rewrite Hy.
  unfold bind, emit. simpl.
  destruct yaml as [cls text|config]; [reflexivity|].
  destruct (dict_get "name" config), (dict_get "version" config),
    (dict_get "description" config); try reflexivity.
  destruct (SkillType_call env _); [|reflexivity].
  destruct (Pydantic.metadata_of _ _ _ _ _); reflexivity.
Qed.

(** What [SkillType(v)] and [_load_metadata] raise derives from
    [Exception]. *)
Lemma SkillType_call_raises env v e :
  SkillType_call env v = Raise e -> is_Exception e = true.
Proof.
  unfold SkillType_call.
  destruct v as [| | |s| |]; try (by intros [= <-]).
  destruct (String.eqb s "pure-prompt"); [discriminate|].
  destruct (String.eqb s "pure-script"); [discriminate|].
  destruct (String.eqb s "hybrid"); [discriminate|]. by intros [= <-].
Qed.

Lemma metadata_result_raises env dir e :
  metadata_result env dir = Raise e -> is_Exception e = true.
Proof.
  unfold metadata_result, SkillRegistry._load_metadata.
  destruct (descriptor env dir) as [[cls text|config]|]; unfold bind, emit, raise; simpl;
    try (by intros [= <-]).
  destruct (dict_get "name" config), (dict_get "version" config),
    (dict_get "description" config); try (by intros [= <-]).
  destruct (SkillType_call env _) as [ty|e'] eqn:E.
  - destruct (Pydantic.metadata_of _ _ _ _ _); [discriminate|]. by intros [= <-].
  - intros [= <-]. by apply SkillType_call_raises in E.
Qed.

Lemma failures_of_metadata env dirs :
  List.filter is_Exception (failures (map (metadata_result env) dirs))
  = failures (map (metadata_result env) dirs).
Proof.
  induction dirs as [|dir dirs IH]; simpl; [reflexivity|].
  destruct (metadata_result env dir) as [md|e] eqn:E; simpl; [exact IH|].
  rewrite (metadata_result_raises _ _ _ E). by rewrite IH.
Qed.

Lemma candidates_have_descriptor env dir :
  In dir (SkillRegistry.candidates env) -> is_Some (descriptor env dir).
Proof.
  unfold SkillRegistry.candidates. intros H.
  apply in_map_iff in H as ([d b] & <- & H). apply filter_In in H as [_ H].
  apply andb_prop in H as [_ H]. simpl in *. by apply bool_decide_eq_true in H.
Qed.

Lemma gather_metadata_run env dirs self w :
  (forall dir, In dir dirs -> is_Some (descriptor env dir)) ->
  gather_exceptions (map (SkillRegistry._load_metadata env) dirs) (self, w)
  = (Ok (map (metadata_result env) dirs), (self, add_log w (map EvOpen dirs))).
Proof.
  revert w. induction dirs as [|dir dirs IH]; intros w Hd; simpl.
  - by rewrite add_log_nil.
  - rewrite load_metadata_run by (apply Hd; by left).
    unfold bind. rewrite IH by (intros; apply Hd; by right).
    unfold ret, add_log. simpl. by rewrite <- app_assoc.
Qed.

Lemma install_all_run rs self w :
  SkillRegistry.install_all rs (self, w)
  = (Ok tt,
     (SkillRegistry.mk (fold_left record (loaded rs) (SkillRegistry._metadata self))
        (SkillRegistry._full_definitions self) (SkillRegistry._loaded self),
      add_log w (map warning (List.filter is_Exception (failures rs))))).
Proof.
  revert self w. induction rs as [|[md|e] rs IH]; intros self w; simpl.
  - rewrite add_log_nil. by destruct self.
  - unfold bind at 1. unfold SkillRegistry.install, bind, get_self, set_self. simpl.
    rewrite IH. reflexivity.
  - unfold bind at 1. unfold SkillRegistry.install. destruct (is_Exception e).
    + unfold emit. rewrite IH. unfold add_log. simpl. by rewrite <- app_assoc.
    + unfold ret. by rewrite IH.
Qed.

Lemma scan_run env self w :
  SkillRegistry.scan env (self, w)
  = if root_exists env then
      match iterdir env with
      | inl e => (Raise e, (self, w))
      | inr _ =>
          (Ok (scanned env (SkillRegistry._metadata self)),
           (SkillRegistry.mk (scanned env (SkillRegistry._metadata self))
              (SkillRegistry._full_definitions self) true,
            add_log w (map EvOpen (SkillRegistry.candidates env)
                       ++ map warning (failures (map (metadata_result env)
                                                   (SkillRegistry.candidates env))))))
      end
    else
      (Raise (mkExn FileNotFoundError ("Skills directory not found: " +:+ dir_str env)),
       (self, w)).
Proof.
  unfold SkillRegistry.scan. destruct (root_exists env); simpl; [|reflexivity].
  destruct (iterdir env) as [e|children] eqn:E; [reflexivity|].
  unfold bind at 1. rewrite gather_metadata_run by apply candidates_have_descriptor.
  unfold bind at 1. rewrite install_all_run, failures_of_metadata.
  unfold bind, get_self, set_self, ret, add_log. simpl. by rewrite <- app_assoc.
Qed.

(** Only a root that is listed has candidates. *)
Lemma candidates_listed env dir :
  In dir (SkillRegistry.candidates env) -> exists children, iterdir env = inr children.
Proof.
  unfold SkillRegistry.candidates, listing.
  destruct (iterdir env) as [e|children]; [intros []|eauto].
Qed.

(** *** Dictionaries *)

Lemma dict_get_set {A} k k' (v : A) d :
  dict_get k (dict_set k' v d) = if String.eqb k k' then Some v else dict_get k d.
Proof.
  induction d as [|[k0 v0] d IH]; simpl.
  - reflexivity.
  - destruct (String.eqb k' k0) eqn:E0; simpl.
    + apply String.eqb_eq in E0 as <-. destruct (String.eqb k k'); reflexivity.
    + destruct (String.eqb k k0) eqn:E1.
      * apply String.eqb_eq in E1 as <-.
        rewrite String.eqb_sym, E0. reflexivity.
      * exact IH.
Qed.

Lemma dict_set_length_new {A} k (v : A) d :
  dict_get k d = None -> length (dict_set k v d) = S (length d).
Proof.
  induction d as [|[k0 v0] d IH]; simpl; [reflexivity|].
  destruct (String.eqb k k0); [discriminate|]. intros H. simpl. by rewrite IH.
Qed.

Lemma record_all_absent mds catalog k :
  ~ In k (map name mds) ->
  dict_get k (fold_left record mds catalog) = dict_get k catalog.
Proof.
  revert catalog. induction mds as [|md mds IH]; intros catalog Hk; simpl; [reflexivity|].
  rewrite IH by (intros ?; apply Hk; by right). unfold record. rewrite dict_get_set.
  destruct (String.eqb k (name md)) eqn:E; [|reflexivity].
  apply String.eqb_eq in E. exfalso. apply Hk. left. congruence.
Qed.

Lemma record_all_distinct mds catalog :
  NoDup (map name mds) ->
  (forall md, In md mds -> dict_get (name md) catalog = None) ->
  length (fold_left record mds catalog) = (length catalog + length mds)%nat
  /\ forall md, In md mds -> dict_get (name md) (fold_left record mds catalog) = Some md.
Proof.
  revert catalog. induction mds as [|md mds IH]; intros catalog Hnd Hfresh; simpl.
  - split; [lia | tauto].
  - simpl in Hnd. apply NoDup_cons in Hnd as [Hmd Hnd].
    assert (Hmd' : ~ In (name md) (map name mds)) by (by rewrite <- list_elem_of_In).
    destruct (IH (record catalog md) Hnd) as [Hlen Hget].
    { intros md' Hin. unfold record. rewrite dict_get_set.
      destruct (String.eqb (name md') (name md)) eqn:E.
      - apply String.eqb_eq in E. exfalso. apply Hmd'. rewrite <- E. by apply in_map.
      - apply Hfresh. by right. }
    split.
    + rewrite Hlen. unfold record. rewrite dict_set_length_new by (apply Hfresh; by left). lia.
    + intros md' [<-|Hin]; [|by apply Hget].
      rewrite record_all_absent by exact Hmd'. unfold record.
      by rewrite dict_get_set, String.eqb_refl.
Qed.

(** ** Template substitution *)

Lemma startswith_app p s : Str.startswith p (p +:+ s) = true.
Proof. induction p as [|a p IH]; simpl; [reflexivity|]. by rewrite Ascii.eqb_refl. Qed.


Lemma string_app_length (p s : string) :
  String.length (p +:+ s) = (String.length p + String.length s)%nat.
Proof. induction p as [|a p IH]; simpl; [reflexivity|]. by rewrite IH. Qed.


Lemma replace_from_skip old new p s :
  Str.replace_from old new (String.length p) (p +:+ s) = Str.replace_from old new O s.
Proof. induction p as [|a p IH]; simpl; [reflexivity | exact IH]. Qed.

Lemma replace_from_here old new s :
  old <> EmptyString ->
  Str.replace_from old new O (old +:+ s) = new +:+ Str.replace_from old new O s.
Proof.
  intros Hold. destruct old as [|a old']; [congruence|].
  change (String a old' +:+ s) with (String a (old' +:+ s)).
  cbn [Str.replace_from].
  change (String a (old' +:+ s)) with (String a old' +:+ s).
  rewrite startswith_app. cbn [String.length Nat.pred].
  by rewrite replace_from_skip.
Qed.







(** ** [execute], step by step *)

Lemma dispatch_run env skill input self w :
  dispatch env skill input (self, w)
  = (dispatch_result env skill input, (self, add_log w (dispatch_events env skill input))).
Proof.
  unfold dispatch_result, dispatch_events, dispatch, blank,
    SkillExecutor._execute_hybrid_skill, SkillExecutor._execute_script_skill,
    SkillExecutor._execute_prompt_skill.
  destruct (type (meta skill)).
  - destruct (prompt_template skill) as [[|c t]|]; unfold raise, ret, add_log; simpl;
      rewrite app_nil_r; by destruct w.
  - destruct (execution skill) as [exec|];
      [|unfold raise, add_log; simpl; rewrite app_nil_r; by destruct w].
    unfold try_except, bind, emit, raise, ret, add_log. simpl.
    destruct (import_module env _) as [e|attrs];
      [destruct (is_Exception e), (is_ImportError e), (is_AttributeError e); reflexivity|].
    destruct (attrs _) as [f|]; simpl; [|reflexivity].
    destruct (f input) as [v|e]; simpl; rewrite <- ?app_assoc; [reflexivity|].
    destruct (is_Exception e), (is_ImportError e), (is_AttributeError e); reflexivity.
  - destruct (execution skill) as [exec|];
      [|unfold raise, add_log; simpl; rewrite app_nil_r; by destruct w].
    unfold try_except, bind, emit, raise, ret, add_log. simpl.
    destruct (import_module env _) as [e|attrs];
      [destruct (is_Exception e), (is_ImportError e), (is_AttributeError e); reflexivity|].
    destruct (attrs _) as [f|]; simpl; [|reflexivity].
    destruct (f input) as [v|e]; simpl; rewrite <- ?app_assoc; [reflexivity|].
    destruct (is_Exception e), (is_ImportError e), (is_AttributeError e); reflexivity.
Qed.

(** [execute] once the registry is scanned and the definition is loaded:
    the result wraps the outcome of the dispatch, timed by two readings of
    the clock, unless the dispatch raised what [except Exception] does not
    catch. *)
Lemma execute_concluded env n input s s1 cached self w :
  SkillExecutor.ensure_loaded env s = (Ok tt, s1) ->
  SkillExecutor.on_registry (SkillRegistry.load_full env n) s1 = (Ok cached, (self, w)) ->
  SkillExecutor.execute env n input s
  = concluded env (dispatch_result env (deref cached) input)
      (dispatch_events env (deref cached) input) self w.
Proof.
  intros Hscan Hload. unfold SkillExecutor.execute, concluded, escaping.
  unfold bind at 1. rewrite Hscan. unfold bind at 1. rewrite Hload.
  unfold bind at 1. unfold time_time at 1. unfold try_except.
  unfold bind at 1.
  change (match type (meta (deref cached)) with
          | PURE_PROMPT => SkillExecutor._execute_prompt_skill env (deref cached) input
          | PURE_SCRIPT => SkillExecutor._execute_script_skill env (deref cached) input
          | HYBRID => SkillExecutor._execute_hybrid_skill env (deref cached) input
          end) with (dispatch env (deref cached) input).
  rewrite dispatch_run.
  destruct (dispatch_result env (deref cached) input) as [v|e];
    [|destruct (is_Exception e)];
    unfold bind, time_time, ret, result_of, executed, interrupted, add_log; simpl; reflexivity.
Qed.

Lemma execute_run env n input s s1 cached self w :
  SkillExecutor.ensure_loaded env s = (Ok tt, s1) ->
  SkillExecutor.on_registry (SkillRegistry.load_full env n) s1 = (Ok cached, (self, w)) ->
  escaping (dispatch_result env (deref cached) input) = None ->
  SkillExecutor.execute env n input s
  = (Ok (result_of (dispatch_result env (deref cached) input)
                   (wall env (S (ticks w)) - wall env (ticks w))),
     (self, executed w (dispatch_events env (deref cached) input))).
Proof.
  intros Hscan Hload Hesc. rewrite (execute_concluded _ _ _ _ _ _ _ _ Hscan Hload).
  unfold concluded. by rewrite Hesc.
Qed.

(** A dispatch lets through only what the code of the skill raised: the
    guards and a prompt skill raise [ValueError]. *)
Lemma escaping_prompt env skill input :
  type (meta skill) = PURE_PROMPT -> escaping (dispatch_result env skill input) = None.
Proof.
  unfold dispatch_result, dispatch, SkillExecutor._execute_prompt_skill. intros ->.
  by destruct (prompt_template skill) as [[|c t]|].
Qed.

Lemma escaping_no_execution env skill input :
  execution skill = None -> escaping (dispatch_result env skill input) = None.
Proof.
  intros H. unfold dispatch_result, dispatch, SkillExecutor._execute_hybrid_skill,
    SkillExecutor._execute_script_skill, SkillExecutor._execute_prompt_skill.
  rewrite H. destruct (type (meta skill)); [|reflexivity..].
  by destruct (prompt_template skill) as [[|c t]|].
Qed.

(** An exception of [ensure_loaded] or of [load_full] leaves [execute] as
    it is: both calls stand before the [try]. *)
Lemma execute_scan_raises env n input s e s1 :
  SkillExecutor.ensure_loaded env s = (Raise e, s1) ->
  SkillExecutor.execute env n input s = (Raise e, s1).
Proof.
  intros H. unfold SkillExecutor.execute. unfold bind at 1. by rewrite H.
Qed.

Lemma execute_load_raises env n input s s1 e s2 :
  SkillExecutor.ensure_loaded env s = (Ok tt, s1) ->
  SkillExecutor.on_registry (SkillRegistry.load_full env n) s1 = (Raise e, s2) ->
  SkillExecutor.execute env n input s = (Raise e, s2).
Proof.
  intros H1 H2. unfold SkillExecutor.execute.
  unfold bind at 1. rewrite H1. unfold bind at 1. by rewrite H2.
Qed.

(** Whatever [execute] does, it is one of the three. *)
Lemma execute_cases env n input s :
  (exists e s1, SkillExecutor.ensure_loaded env s = (Raise e, s1)
                /\ SkillExecutor.execute env n input s = (Raise e, s1))
  \/ (exists s1 e s2,
         SkillExecutor.ensure_loaded env s = (Ok tt, s1)
         /\ SkillExecutor.on_registry (SkillRegistry.load_full env n) s1 = (Raise e, s2)
         /\ SkillExecutor.execute env n input s = (Raise e, s2))
  \/ (exists s1 cached self w,
         SkillExecutor.ensure_loaded env s = (Ok tt, s1)
         /\ SkillExecutor.on_registry (SkillRegistry.load_full env n) s1
            = (Ok cached, (self, w))
         /\ SkillExecutor.execute env n input s
            = concluded env (dispatch_result env (deref cached) input)
                (dispatch_events env (deref cached) input) self w).
Proof.
  destruct (SkillExecutor.ensure_loaded env s) as [[[]|e] s1] eqn:E1.
  - destruct (SkillExecutor.on_registry (SkillRegistry.load_full env n) s1)
      as [[cached|e] [self w]] eqn:E2.
    + right; right. exists s1, cached, self, w. split; [reflexivity|]. split; [exact E2|].
      by eapply execute_concluded.
    + right; left. exists s1, e, (self, w). split; [reflexivity|]. split; [exact E2|].
      by eapply execute_load_raises.
  - left. exists e, s1. split; [reflexivity|]. by apply execute_scan_raises.
Qed.

(** ** Failures before the dispatch *)

Lemma startswith_app_both p q s :
  Str.startswith (p +:+ q) (p +:+ s) = Str.startswith q s.
Proof. induction p as [|a p IH]; simpl; [reflexivity|]. by rewrite Ascii.eqb_refl. Qed.

(** A name that is neither cached nor in the catalog: [load_full] raises,
    and so does [execute]. *)
Lemma execute_unknown_name env n input s self w :
  SkillExecutor.ensure_loaded env s = (Ok tt, (self, w)) ->
  SkillRegistry._full_definitions (SkillExecutor.registry self) !! n = None ->
  dict_get n (SkillRegistry._metadata (SkillExecutor.registry self)) = None ->
  exists e,
    SkillExecutor.execute env n input s = (Raise e, (self, w))
    /\ exn_class e = ValueError
    /\ Str.startswith ("Skill '" +:+ n +:+ "' not found in registry. ") (exn_str e) = true.
Proof.
  intros Hscan Hcache Hmeta. eexists. split; [|split].
  - eapply execute_load_raises; [exact Hscan|].
    unfold SkillExecutor.on_registry, SkillRegistry.load_full, bind, get_self. simpl.
    rewrite Hcache, Hmeta. unfold raise. by destruct self.
  - reflexivity.
  - cbn [exn_str]. rewrite !startswith_app_both. apply startswith_app.
Qed.

(** C1.  [execute("does-not-exist", {})] on a scanned directory that has no
    such skill does not return a failed [SkillResult]: the [ValueError] of
    [load_full] leaves [execute], whose [try] begins after the call. *)
Theorem execute_unknown_skill_raises :
  fst (SkillExecutor.execute Demo.skills "does-not-exist" [] blank)
  = Raise (mkExn ValueError
             ("Skill 'does-not-exist' not found in registry. Available skills: "
              +:+ "['greeter', 'web-search', 'bare', 'idle', 'quiet', 'faulty', 'boom']")).
Proof. vm_compute. reflexivity. Qed.

(** The same when the root directory is absent: the exception of [scan]
    leaves [execute]. *)
Example execute_without_root_raises :
  fst (SkillExecutor.execute Demo.nowhere "greeter" [] blank)
  = Raise (mkExn FileNotFoundError "Skills directory not found: missing").
Proof. vm_compute. reflexivity. Qed.

(** ** [execute_batch] *)





(** C3.  A batch whose second entry names an unknown skill returns no
    list at all: it raises the [ValueError] of that entry, and the result
    of the first entry, which alone succeeds, is lost with it. *)
Theorem execute_batch_unknown_entry_raises :
  let ada := [("name", VStr "Ada"); ("age", VInt 30)] in
  fst (SkillExecutor.execute_batch Demo.skills
         [mkExecution "greeter" (Some ada); mkExecution "does-not-exist" None] blank)
  = Raise (mkExn ValueError
             ("Skill 'does-not-exist' not found in registry. Available skills: "
              +:+ "['greeter', 'web-search', 'bare', 'idle', 'quiet', 'faulty', 'boom']"))
  /\ fst (SkillExecutor.execute_batch Demo.skills [mkExecution "greeter" (Some ada)] blank)
     = Ok [mkSkillResult true
             (VDict [("type", VStr "prompt"); ("content", VStr "Hello Ada, age 30");
                     ("skill_name", VStr "greeter")])
             None 1000].
Proof. split; vm_compute; reflexivity. Qed.

(** A failure inside the dispatch stays with its entry. *)
Example execute_batch_handler_failure_contained :
  fst (SkillExecutor.execute_batch Demo.skills
         [mkExecution "faulty" None; mkExecution "web-search" None] blank)
  = Ok [mkSkillResult false VNone (Some "bad input") 1000;
        mkSkillResult true
          (VDict [("query", VStr "rocq");
                  ("results", VList [VDict [("title", VStr "Rocq")]])])
          None 1000].
Proof. vm_compute. reflexivity. Qed.

(** ** Handlers that raise *)

(** A handler's exception that is neither an [ImportError] nor an
    [AttributeError] reaches [execute] as it is, after one call of the
    handler. *)
Lemma script_handler_raises env skill exec attrs f input e :
  type (meta skill) <> PURE_PROMPT ->
  execution skill = Some exec ->
  import_module env (SkillExecutor.module_path_of skill exec) = Module attrs ->
  attrs (function exec) = Some f ->
  f input = Raises e ->
  is_ImportError e = false -> is_AttributeError e = false ->
  dispatch_result env skill input = Raise e
  /\ handler_calls (dispatch_events env skill input)
     = [EvCall (SkillExecutor.module_path_of skill exec) (function exec) input].
Proof.
  intros Hty Hexec Himp Hattr Hf Hi Ha.
  unfold dispatch_result, dispatch_events, dispatch, blank,
    SkillExecutor._execute_hybrid_skill, SkillExecutor._execute_script_skill.
  destruct (type (meta skill)); [congruence| |];
    rewrite Hexec; unfold try_except, bind, emit; simpl;
    rewrite Himp, Hattr; simpl; rewrite Hf; simpl; rewrite Hi, Ha;
    destruct (is_Exception e); split; reflexivity.
Qed.

(** C7.  The handler of [boom] raises [AttributeError("boom")].  The
    [try] of [_execute_script_skill] encloses the call of the handler, so
    its [except AttributeError] clause re-raises the exception under the
    text of a resolution failure, and the result's [error] is not the
    message the handler raised. *)
Theorem execute_handler_attribute_error_relabelled :
  (exists attrs f,
      import_module Demo.skills "skills.boom.handler" = Module attrs
      /\ attrs "execute" = Some f
      /\ f [] = Raises (mkExn AttributeError "boom"))
  /\ fst (SkillExecutor.execute Demo.skills "boom" [] blank)
     = Ok (mkSkillResult false VNone
             (Some "Handler function not found for skill 'boom': boom") 1000).
Proof.
  split; [|vm_compute; reflexivity].
  eexists _, _. repeat split; reflexivity.
Qed.

(** Another class of exception keeps its message. *)
Example execute_handler_value_error_reported :
  fst (SkillExecutor.execute Demo.skills "faulty" [] blank)
  = Ok (mkSkillResult false VNone (Some "bad input") 1000).
Proof. vm_compute. reflexivity. Qed.

(** ** Definitions that lack what their variant needs *)

Lemma dispatch_missing_part env skill input :
  lacks_required_part skill ->
  dispatch_result env skill input = Raise (mkExn ValueError (missing_part_message skill))
  /\ dispatch_events env skill input = [].
Proof.
  unfold lacks_required_part, missing_part_message, dispatch_result, dispatch_events,
    dispatch, SkillExecutor._execute_hybrid_skill, SkillExecutor._execute_script_skill,
    SkillExecutor._execute_prompt_skill.
  destruct (type (meta skill)).
  - intros [-> | ->]; split; reflexivity.
  - intros ->; split; reflexivity.
  - intros ->; split; reflexivity.
Qed.

(** A method call on the registry, seen through the executor. *)
Lemma on_registry_run {A} (m : M SkillRegistry.t A) reg ld w r reg' w' :
  m (reg, w) = (r, (reg', w')) ->
  SkillExecutor.on_registry m (SkillExecutor.mk reg ld, w)
  = (r, (SkillExecutor.mk reg' ld, w')).
Proof. intros H. unfold SkillExecutor.on_registry. simpl. by rewrite H. Qed.

Lemma ensure_loaded_done env x w :
  SkillExecutor._loaded x = true -> SkillExecutor.ensure_loaded env (x, w) = (Ok tt, (x, w)).
Proof. intros H. unfold SkillExecutor.ensure_loaded, bind, get_self. simpl. by rewrite H. Qed.

(** [load_full] of a name of the catalog that is not cached, whose
    descriptor has no [execution] and whose other parts are accepted:
    nothing is checked against the variant, and the definition is
    constructed and cached. *)
Lemma load_full_without_execution env n self w md config i o p :
  SkillRegistry._full_definitions self !! n = None ->
  dict_get n (SkillRegistry._metadata self) = Some md ->
  descriptor env n = Some (Mapping config) ->
  no_part "execution" config ->
  Pydantic.input_schema_of (default (VDict []) (dict_get "input_schema" config)) = Some i ->
  Pydantic.output_schema_of (default (VDict []) (dict_get "output_schema" config)) = Some o ->
  Pydantic.optional_str (default VNone (dict_get "prompt_template" config)) = Some p ->
  let cached := mkObj (next_addr w) (mkSkillDefinition md i o p None) in
  SkillRegistry.load_full env n (self, w)
  = (Ok cached,
     (SkillRegistry.mk (SkillRegistry._metadata self)
        (<[n := cached]> (SkillRegistry._full_definitions self))
        (SkillRegistry._loaded self),
      mkWorld (log w ++ [EvOpen n]) (ticks w) (S (next_addr w)))).
Proof.
  intros Hc Hm Hd He Hi Ho Hp cached.
  unfold SkillRegistry.load_full, bind, get_self. simpl. rewrite Hc, Hm, Hd.
  unfold emit. simpl.
  assert (match dict_get "execution" config with
          | Some v => SkillRegistry._load_execution_config v
          | None => Ok VNone
          end = Ok VNone) as ->.
  { unfold no_part in He. destruct (dict_get "execution" config) as [v|]; [|reflexivity].
    simpl in He. by subst v. }
  unfold Pydantic.definition_of. rewrite Hi, Ho, Hp. reflexivity.
Qed.

(** The claim C2 fails on these inputs: the descriptor of [bare] declares a
    pure-prompt skill and has no [prompt_template], that of [idle] a
    pure-script skill and that of [half] a hybrid skill, both without an
    [execution] block; yet [load_full] returns the definition of each and
    leaves it in the cache. *)
Lemma load_full_accepts_definition_without_required_part :
  loads_without_part Demo.partial "bare" PURE_PROMPT
  /\ loads_without_part Demo.partial "idle" PURE_SCRIPT
  /\ loads_without_part Demo.partial "half" HYBRID.
Proof.
  unfold loads_without_part.
  split; [|split]; eexists;
    (split; [vm_compute; reflexivity|]);
    (split; [reflexivity|]);
    (split; [first [reflexivity | left; reflexivity]|]);
    vm_compute; reflexivity.
Qed.

(** C2, amended.  [load_full] checks nothing against the variant.  For a
    name of the catalog that is not yet cached, whose descriptor lacks the
    part its variant needs (the [prompt_template] of a pure-prompt skill,
    the [execution] block of a script or hybrid skill) and is otherwise
    accepted, [load_full] returns the definition without the part and keeps
    it in the cache.  The definition then reaches the dispatch of [execute],
    whose guard fails the call: [execute] returns a result with
    [success = false] and the guard's message, and calls no handler. *)
Theorem missing_part_rejected_at_dispatch env n input x w md config :
  SkillExecutor._loaded x = true ->
  SkillRegistry._full_definitions (SkillExecutor.registry x) !! n = None ->
  dict_get n (SkillRegistry._metadata (SkillExecutor.registry x)) = Some md ->
  descriptor env n = Some (Mapping config) ->
  schemas_valid config ->
  lacks_part (type md) config ->
  exists o s2,
    SkillExecutor.on_registry (SkillRegistry.load_full env n) (x, w) = (Ok o, s2)
    /\ meta (deref o) = md
    /\ lacks_required_part (deref o)
    /\ cached_at n o s2
    /\ exists elapsed s3,
        SkillExecutor.execute env n input (x, w)
        = (Ok (mkSkillResult false VNone (Some (missing_part_message (deref o))) elapsed), s3)
        /\ cached_at n o s3
        /\ handler_calls (new_events w (snd s3)) = [].
Proof.
  intros Hl Hc Hm Hd [[i Hi] [o Ho]] Hlacks.
  assert (exists p, no_part "execution" config
                    /\ Pydantic.optional_str (default VNone (dict_get "prompt_template" config))
                       = Some p
                    /\ lacks_required_part (mkSkillDefinition md i o p None))
    as (p & He & Hp & Hreq).
  { unfold lacks_required_part. simpl. destruct (type md); simpl in Hlacks.
    - destruct Hlacks as [[Ht | Ht] He].
      + exists None. unfold no_part in Ht. rewrite Ht. auto.
      + exists (Some ""). rewrite Ht. auto.
    - destruct Hlacks as [He [p Hp]]. eauto.
    - destruct Hlacks as [He [p Hp]]. eauto. }
  destruct x as [reg ld]. simpl in Hl, Hc, Hm. subst ld.
  pose proof (load_full_without_execution env n reg w md config i o p Hc Hm Hd He Hi Ho Hp)
    as Hload.
  cbv zeta in Hload. apply (on_registry_run _ _ true) in Hload.
  set (cached := mkObj (next_addr w) (mkSkillDefinition md i o p None)) in *.
  pose proof (on_registry_load_full_caches _ _ _ _ _ Hload) as Hcached.
  destruct (dispatch_missing_part env (deref cached) input Hreq) as [Hr Hev].
  eexists cached, _. split; [exact Hload|]. split; [reflexivity|].
  split; [exact Hreq|]. split; [exact Hcached|].
  eexists _, _. split; [|split].
  - rewrite (execute_run env n input _ _ _ _ _
               (ensure_loaded_done env (SkillExecutor.mk reg true) w eq_refl) Hload)
      by (by rewrite Hr).
    rewrite Hr. reflexivity.
  - exact Hcached.
  - rewrite Hev. unfold new_events, executed. simpl.
    rewrite app_nil_r, drop_app_length. reflexivity.
Qed.

Lemma missing_part_rejected_at_dispatch_witness :
  let s := after Demo.skills CallEnsureLoaded blank in
  exists elapsed s3,
    SkillExecutor.execute Demo.skills "idle" [] (fst s, snd s)
    = (Ok (mkSkillResult false VNone
             (Some "Script skill 'idle' missing execution config") elapsed), s3).
Proof.
  intros s.
  destruct (missing_part_rejected_at_dispatch Demo.skills "idle" [] (fst s) (snd s)
              (mkSkillMetadata "idle" "1.0.0" "The idle skill" [] PURE_SCRIPT)
              [("name", VStr "idle"); ("version", VStr "1.0.0");
               ("description", VStr "The idle skill"); ("type", VStr "pure-script")])
    as (o & s2 & Hload & Hmeta & _ & _ & elapsed & s3 & H & _).
  - vm_compute. reflexivity.
  - vm_compute. reflexivity.
  - vm_compute. reflexivity.
  - vm_compute. reflexivity.
  - split; eexists; vm_compute; reflexivity.
  - split; [reflexivity|]. eexists. vm_compute. reflexivity.
  - exists elapsed, s3. rewrite H. unfold missing_part_message. rewrite Hmeta. reflexivity.
Defined.

(** ** Prompt skills *)

(** The specification's reading on its own example. *)
Example spec_substituted_example :
  Spec.substituted Demo.skills "Hello {{name}}, age {age}"
    [("name", VStr "Ada"); ("age", VInt 30)]
  = "Hello Ada, age 30".
Proof. vm_compute. reflexivity. Qed.




(** ** The result envelope *)

(** The claim C6 fails on this input: the handler of [quiet] returns
    [None], so the call succeeds and the result has no output. *)
Lemma execute_success_without_output :
  fst (SkillExecutor.execute Demo.skills "quiet" [] blank)
  = Ok (mkSkillResult true VNone None 1000).
Proof. vm_compute. reflexivity. Qed.

(** C6, amended.  In every result that [execute] returns, [error] is
    present iff [success] is false, and [output] is absent when [success]
    is false; when [success] is true, [output] is what the dispatch
    produced: the prompt record for a pure-prompt skill, and for a script
    or hybrid skill whatever the handler returned, [None] included.
    [execution_time] is the difference of two successive readings of the
    clock, hence not negative when the clock does not run backwards. *)
Theorem execute_result_envelope env n input s r s' :
  SkillExecutor.execute env n input s = (Ok r, s') ->
  (is_Some (error r) <-> success r = false)
  /\ (success r = false -> output r = VNone)
  /\ (exists o,
         cached_at n o s'
         /\ r = result_of (dispatch_result env (deref o) input) (execution_time r)
         /\ (success r = true -> type (meta (deref o)) = PURE_PROMPT -> output r <> VNone))
  /\ (exists k, execution_time r = wall env (S k) - wall env k)
  /\ ((forall k, wall env k <= wall env (S k)) -> 0 <= execution_time r).
Proof.
  intros Hrun.
  destruct (execute_cases env n input s)
    as [(e & s1 & _ & H) | [(s1 & e & s2 & _ & _ & H) | (s1 & o & self & w & _ & Hload & H)]];
    rewrite H in Hrun; try discriminate Hrun.
  unfold concluded in Hrun.
  destruct (escaping (dispatch_result env (deref o) input)); [discriminate Hrun|].
  injection Hrun as <- <-.
  apply on_registry_load_full_caches in Hload.
  assert (Hprompt : type (meta (deref o)) = PURE_PROMPT ->
                    forall v, dispatch_result env (deref o) input = Ok v -> v <> VNone).
  { unfold dispatch_result, dispatch, SkillExecutor._execute_prompt_skill. intros -> v.
    destruct (prompt_template (deref o)) as [[|c t]|]; simpl; intros [= <-]; discriminate. }
  destruct (dispatch_result env (deref o) input) as [v|e] eqn:E; simpl.
  - split; [split; [intros [x Hx]; discriminate | discriminate]|].
    split; [discriminate|]. split; [|split; [eauto | intros Hw; specialize (Hw (ticks w)); lia]].
    exists o. split; [exact Hload|]. split; [by rewrite E|]. intros _ Hty. by apply Hprompt.
  - split; [split; eauto|]. split; [reflexivity|].
    split; [|split; [eauto | intros Hw; specialize (Hw (ticks w)); lia]].
    exists o. split; [exact Hload|]. split; [by rewrite E|]. discriminate.
Qed.

Lemma execute_result_envelope_witness :
  let r := mkSkillResult false VNone (Some "bad input") 1000 in
  (is_Some (error r) <-> success r = false) /\ 0 <= execution_time r.
Proof.
  intros r.
  destruct (execute_result_envelope Demo.skills "faulty" [] blank r
              (snd (SkillExecutor.execute Demo.skills "faulty" [] blank)))
    as (H1 & _ & _ & _ & H5).
  - vm_compute. reflexivity.
  - split; [exact H1|]. apply H5. intros k. simpl. lia.
Defined.

(** ** Scanning a directory with malformed descriptors *)

Lemma unloadable_fails env dir :
  unloadable env dir -> exists e, metadata_result env dir = Raise e.
Proof.
  unfold unloadable, metadata_result, SkillRegistry._load_metadata.
  destruct (descriptor env dir) as [[e|config]|]; [eauto | | tauto].
  unfold bind, emit. simpl.
  destruct (dict_get "name" config), (dict_get "version" config),
    (dict_get "description" config); intros [H|[H|H]]; try discriminate H; eauto.
Qed.

(** The entry of a name after records have been entered in turn: the last
    of them with that name, or else the entry there was before. *)
Lemma record_all_get mds catalog k :
  dict_get k (fold_left record mds catalog)
  = match find (fun md => String.eqb k (name md)) (rev mds) with
    | Some md => Some md
    | None => dict_get k catalog
    end.
Proof.
  induction mds as [|md mds IH] using rev_ind; [reflexivity|].
  rewrite fold_left_app, rev_app_distr. simpl. unfold record at 1.
  rewrite dict_get_set. destruct (String.eqb k (name md)); [reflexivity | exact IH].
Qed.

(** *** The descriptors that load *)

Lemma str_items_map_VStr l : Pydantic.str_items (map VStr l) = Some l.
Proof. induction l as [|s l IH]; simpl; [reflexivity|]. by rewrite IH. Qed.

Lemma str_items_inv l ss : Pydantic.str_items l = Some ss -> l = map VStr ss.
Proof.
  revert ss. induction l as [|v l IH]; intros ss; simpl.
  - by intros [= <-].
  - destruct v as [| | |s| |]; try discriminate.
    destruct (Pydantic.str_items l) as [ss'|]; [|discriminate].
    intros [= <-]. simpl. f_equal. by apply IH.
Qed.

Lemma SkillType_call_Ok env v ty :
  SkillType_call env v = Ok ty <-> v = VStr (SkillType_value ty).
Proof.
  split.
  - unfold SkillType_call. destruct v as [| | |s| |]; try discriminate.
    destruct (String.eqb s "pure-prompt") eqn:E1.
    { intros [= <-]. apply String.eqb_eq in E1. by subst. }
    destruct (String.eqb s "pure-script") eqn:E2.
    { intros [= <-]. apply String.eqb_eq in E2. by subst. }
    destruct (String.eqb s "hybrid") eqn:E3; [|discriminate].
    intros [= <-]. apply String.eqb_eq in E3. by subst.
  - intros ->. by destruct ty.
Qed.

(** With the fields validated as they are typed, a candidate loads
    exactly when its descriptor declares a record, and then it loads to
    that record. *)
Lemma metadata_result_Ok env dir md :
  metadata_result env dir = Ok md <-> declares env dir md.
Proof.
  unfold declares, metadata_result, SkillRegistry._load_metadata. split.
  - destruct (descriptor env dir) as [[cls text|config]|]; unfold bind, emit, raise; simpl;
      try discriminate.
    destruct (dict_get "name" config) as [n|] eqn:Hn; [|discriminate].
    destruct (dict_get "version" config) as [v|] eqn:Hv; [|discriminate].
    destruct (dict_get "description" config) as [d|] eqn:Hd; [|discriminate].
    destruct (SkillType_call env _) as [ty|e] eqn:Ety; [|discriminate].
    apply SkillType_call_Ok in Ety.
    unfold Pydantic.metadata_of, Pydantic.str_field, Pydantic.str_list_field.
    destruct n as [| | |n| |]; try discriminate.
    destruct v as [| | |v| |]; try discriminate.
    destruct d as [| | |d| |]; try discriminate.
    destruct (default (VList []) (dict_get "tags" config)) as [| | | |tg|] eqn:Etg;
      try discriminate.
    destruct (Pydantic.str_items tg) as [tg'|] eqn:Eitems; [|discriminate].
    apply str_items_inv in Eitems. subst tg. intros [= <-]. simpl.
    exists config. repeat split; assumption.
  - intros (config & -> & Hn & Hv & Hd & Htg & Hty). unfold bind, emit. simpl.
    rewrite Hn, Hv, Hd, Hty, Htg.
    rewrite (proj2 (SkillType_call_Ok env _ (type md)) eq_refl).
    unfold Pydantic.metadata_of. simpl. rewrite str_items_map_VStr. by destruct md.
Qed.

(** The claim C5 fails on these inputs.  The two descriptors under [twins]
    are well-formed and declare the same name, and the catalog of a new
    registry holds one record after the scan, not two.  The descriptor
    under [untyped] has no [type], a required field; it is installed as a
    pure-script skill and no warning is printed.  And the root
    [regular_file] is there, yet [scan] raises: it is no directory. *)
Lemma scan_same_name_untyped_or_unlistable :
  let new := (SkillRegistry.init, mkWorld [] 0 0) in
  let results := map (metadata_result Demo.twins) (SkillRegistry.candidates Demo.twins) in
  (length (loaded results) = 2%nat
   /\ failures results = []
   /\ exists catalog,
       fst (SkillRegistry.scan Demo.twins new) = Ok catalog /\ length catalog = 1%nat)
  /\ (SkillRegistry.candidates Demo.untyped = ["plain"]
      /\ Spec.malformed Demo.untyped "plain"
      /\ fst (SkillRegistry.scan Demo.untyped new)
         = Ok [("plain", mkSkillMetadata "plain" "0.1.0" "A skill of no declared type" []
                           PURE_SCRIPT)]
      /\ log (snd (snd (SkillRegistry.scan Demo.untyped new))) = [EvOpen "plain"])
  /\ (root_exists Demo.regular_file = true
      /\ fst (SkillRegistry.scan Demo.regular_file new)
         = Raise (mkExn (OtherError "NotADirectoryError")
                    "[Errno 20] Not a directory: 'skills.txt'")).
Proof.
  split; [|split].
  - split; [reflexivity|]. split; [reflexivity|].
    eexists. split; [vm_compute; reflexivity | reflexivity].
  - split; [reflexivity|]. split; [|split; vm_compute; reflexivity].
    unfold Spec.malformed. simpl. auto.
  - split; reflexivity.
Qed.

(** C5, amended.  [scan] raises when the root directory is absent
    ([FileNotFoundError]) and when the root cannot be listed (the exception
    of the listing, such as [NotADirectoryError]); either way it changes
    nothing.  Otherwise it returns the catalog and raises no exception:
    every candidate's descriptor is opened; the records of those that load
    are entered under their names in the order of the listing, a later
    record replacing an earlier one of the same name; one warning is
    printed for each candidate that fails, among them every descriptor that
    cannot be read and every one without [name], [version] or
    [description]; the cache is untouched and the registry is marked
    loaded.  A candidate whose descriptor declares a record loads to that
    record, and a descriptor without [type] declares a pure-script one.
    When the names that load are distinct and new to the catalog, the
    catalog grows by exactly their number and holds each record. *)
Theorem scan_tolerates_malformed env self w :
  let dirs := SkillRegistry.candidates env in
  let results := map (metadata_result env) dirs in
  let catalog := scanned env (SkillRegistry._metadata self) in
  SkillRegistry.scan env (self, w)
  = (if root_exists env then
       match iterdir env with
       | inl e => (Raise e, (self, w))
       | inr _ =>
           (Ok catalog,
            (SkillRegistry.mk catalog (SkillRegistry._full_definitions self) true,
             add_log w (map EvOpen dirs ++ map warning (failures results))))
       end
     else
       (Raise (mkExn FileNotFoundError ("Skills directory not found: " +:+ dir_str env)),
        (self, w)))
  /\ (length (loaded results) + length (failures results) = length dirs)%nat
  /\ (forall dir, In dir dirs -> unloadable env dir ->
                  exists e, metadata_result env dir = Raise e)
  /\ (forall dir md, declares env dir md -> metadata_result env dir = Ok md)
  /\ (forall dir md, declares env dir md ->
                     (forall config, descriptor env dir = Some (Mapping config) ->
                                     dict_get "type" config = None) ->
                     type md = PURE_SCRIPT)
  /\ (forall k,
         dict_get k catalog
         = match find (fun md => String.eqb k (name md)) (rev (loaded results)) with
           | Some md => Some md
           | None => dict_get k (SkillRegistry._metadata self)
           end)
  /\ (NoDup (map name (loaded results)) ->
      (forall md, In md (loaded results) ->
                  dict_get (name md) (SkillRegistry._metadata self) = None) ->
      length catalog = (length (SkillRegistry._metadata self) + length (loaded results))%nat
      /\ forall md, In md (loaded results) -> dict_get (name md) catalog = Some md).
Proof.
  intros dirs results catalog. split; [apply scan_run|]. split.
  { unfold results. rewrite loaded_failures_length. apply length_map. }
  split; [intros dir _; apply unloadable_fails|].
  split; [intros dir md; apply metadata_result_Ok|].
  split.
  { intros dir md (config & Hd & _ & _ & _ & _ & Hty) Hno.
    rewrite (Hno config Hd) in Hty. simpl in Hty. injection Hty as Hty.
    by destruct (type md). }
  split; [intros k; apply record_all_get|].
  intros Hnd Hnew. by apply record_all_distinct.
Qed.

Lemma scan_tolerates_malformed_witness :
  exists catalog s',
    SkillRegistry.scan Demo.skills (SkillRegistry.init, mkWorld [] 0 0) = (Ok catalog, s')
    /\ length catalog = 7%nat
    /\ length (SkillRegistry.candidates Demo.skills) = 9%nat
    /\ handler_calls (log (snd s')) = []
    /\ length (log (snd s')) = 11%nat.
Proof.
  destruct (scan_tolerates_malformed Demo.skills SkillRegistry.init (mkWorld [] 0 0))
    as (Hrun & _ & _ & _ & _ & _ & Hsize).
  destruct Hsize as [Hlen _].
  - vm_compute. repeat constructor; intros H; inversion H; subst;
      repeat match goal with
             | H : _ ∈ _ :: _ |- _ => inversion H; clear H; subst
             | H : _ ∈ [] |- _ => inversion H
             end.
  - intros md _. reflexivity.
  - eexists _, _. split; [exact Hrun|]. split; [exact Hlen|].
    split; [reflexivity|]. split; reflexivity.
Defined.

(** ** The cache *)

Lemma load_full_returns_cached_instance_witness :
  let s0 := after Demo.skills CallEnsureLoaded blank in
  let r := SkillExecutor.on_registry (SkillRegistry.load_full Demo.skills "greeter") s0 in
  let later := [(Demo.skills, CallExecute "web-search" []);
                (Demo.twins, CallScan);
                (Demo.skills, CallLoadFull "bare")] in
  exists o,
    fst r = Ok o
    /\ SkillExecutor.on_registry (SkillRegistry.load_full Demo.nowhere "greeter")
         (after_all later (snd r))
       = (Ok o, after_all later (snd r)).
Proof.
  intros s0 r later. eexists. split; [vm_compute; reflexivity|].
  apply (load_full_returns_cached_instance Demo.skills "greeter" s0).
  - vm_compute. reflexivity.
  - reflexivity.
Defined.

(** C9.  [clear_cache] returns, empties the cache and leaves the catalog,
    the loaded flag and the world as they were, so [list], [get_skill_names]
    and [is_loaded] answer as before.  After it no name is cached: a
    [load_full] for a name of the catalog whose descriptor is on disk opens
    that descriptor again. *)
Theorem clear_cache_keeps_catalog self w :
  exists self',
    SkillRegistry.clear_cache (self, w) = (Ok tt, (self', w))
    /\ SkillRegistry._full_definitions self' = ∅
    /\ SkillRegistry._metadata self' = SkillRegistry._metadata self
    /\ SkillRegistry._loaded self' = SkillRegistry._loaded self
    /\ (forall wanted, SkillRegistry.list_ wanted self' = SkillRegistry.list_ wanted self)
    /\ SkillRegistry.get_skill_names self' = SkillRegistry.get_skill_names self
    /\ SkillRegistry.is_loaded self' = SkillRegistry.is_loaded self
    /\ (forall n, SkillRegistry.get_full n self' = None)
    /\ (forall env n,
           is_Some (dict_get n (SkillRegistry._metadata self)) ->
           is_Some (descriptor env n) ->
           log (snd (snd (SkillRegistry.load_full env n (self', w)))) = log w ++ [EvOpen n]).
Proof.
  eexists. split; [reflexivity|]. simpl.
  do 3 (split; [reflexivity|]). split; [intros wanted; reflexivity|].
  do 2 (split; [reflexivity|]).
  split; [intros n; apply lookup_empty|].
  intros env n [md Hmd] [yaml Hy].
  unfold SkillRegistry.load_full, bind, get_self. simpl.
  rewrite lookup_empty, Hmd, Hy. unfold emit, raise, SkillRegistry.validation_error.
  destruct yaml as [e|config]; [reflexivity|].
  destruct (match dict_get "execution" config with
            | Some v => SkillRegistry._load_execution_config v
            | None => Ok VNone
            end); [|reflexivity].
  destruct (Pydantic.definition_of _ _ _ _ _); reflexivity.
Qed.

Lemma clear_cache_keeps_catalog_witness :
  let r := SkillRegistry.scan Demo.skills (SkillRegistry.init, mkWorld [] 0 0) in
  let loaded := SkillRegistry.load_full Demo.skills "greeter" (snd r) in
  let cleared := SkillRegistry.clear_cache (snd loaded) in
  SkillRegistry.get_full "greeter" (fst (snd loaded)) <> None
  /\ SkillRegistry.get_full "greeter" (fst (snd cleared)) = None
  /\ SkillRegistry.get_skill_names (fst (snd cleared))
     = ["greeter"; "web-search"; "bare"; "idle"; "quiet"; "faulty"; "boom"].
Proof.
  intros r loaded cleared.
  destruct (clear_cache_keeps_catalog (fst (snd loaded)) (snd (snd loaded)))
    as (self' & Hrun & _ & _ & _ & _ & Hnames & _ & Hfull & _).
  assert (Hc : cleared = (Ok tt, (self', snd (snd loaded)))).
  { unfold cleared. rewrite <- Hrun. by destruct (snd loaded). }
  rewrite Hc. cbn [fst snd]. split; [vm_compute; discriminate|]. split; [apply Hfull|].
  rewrite Hnames. vm_compute. reflexivity.
Defined.

(** ** Listing *)

(** C10.  [list] with an empty list of tags returns every metadata record,
    as [list] without tags does: the empty filter is no filter.  The same
    holds of the executor's [list_skills]. *)
Theorem list_empty_tags_is_no_filter (self : SkillRegistry.t) (x : SkillExecutor.t) :
  SkillRegistry.list_ (Some []) self = SkillRegistry.list_ None self
  /\ SkillRegistry.list_ (Some []) self = dict_values (SkillRegistry._metadata self)
  /\ length (SkillRegistry.list_ (Some []) self) = length (SkillRegistry._metadata self)
  /\ SkillExecutor.list_skills (Some []) x = SkillExecutor.list_skills None x.
Proof.
  split; [reflexivity|]. split; [reflexivity|]. split; [|reflexivity].
  unfold SkillRegistry.list_, dict_values. apply length_map.
Qed.

(** A filter that is not empty keeps the records that share a tag with it. *)
Example list_by_tag :
  let self := SkillExecutor.registry (fst (after Demo.skills CallEnsureLoaded blank)) in
  map name (SkillRegistry.list_ (Some ["search"]) self) = ["web-search"]
  /\ length (SkillRegistry.list_ (Some []) self) = 7%nat.
Proof. split; vm_compute; reflexivity. Qed.

(** * Further properties *)

(** ** Invariants of the executor *)

Lemma preserves_emit_log {S} (P : S * World -> Prop) ev :
  (forall x w, P (x, w) -> P (x, add_log w [ev])) -> preserves P (emit ev).
Proof. intros H [x w] r s' [= _ <-] HP. by apply H. Qed.

Lemma preserves_time_tick {T} (P : T * World -> Prop) env :
  (forall x w, P (x, w) -> P (x, mkWorld (log w) (S (ticks w)) (next_addr w))) ->
  preserves P (time_time env).
Proof. intros H [x w] r s' [= _ <-] HP. by apply H. Qed.

Section ExecutorInvariant.
(** A property that survives a line in the log and a reading of the clock,
    and that [ensure_loaded] and [load_full] keep, is kept by [execute],
    [execute_batch] and [get_skill_info]. *)
Variable P : SkillExecutor.t * World -> Prop.
Hypothesis P_log : forall x w ev, P (x, w) -> P (x, add_log w [ev]).
Hypothesis P_tick :
  forall x w, P (x, w) -> P (x, mkWorld (log w) (S (ticks w)) (next_addr w)).
Hypothesis P_ensure_loaded : forall env, preserves P (SkillExecutor.ensure_loaded env).
Hypothesis P_load_full :
  forall env n, preserves P (SkillExecutor.on_registry (SkillRegistry.load_full env n)).

Lemma dispatch_keeps env skill input : preserves P (dispatch env skill input).
Proof.
  unfold dispatch, SkillExecutor._execute_hybrid_skill.
  assert (Hscript : preserves P (SkillExecutor._execute_script_skill env skill input)).
  { unfold SkillExecutor._execute_script_skill.
    destruct (execution skill) as [exec|]; [|apply preserves_raise].
    apply preserves_try.
    - apply preserves_bind; [apply preserves_emit_log; auto|]. intros _.
      destruct (import_module env _) as [e|attrs]; [apply preserves_raise|].
      destruct (attrs _) as [f|]; [|apply preserves_raise].
      apply preserves_bind; [apply preserves_emit_log; auto|]. intros _.
      destruct (f input); [apply preserves_ret | apply preserves_raise].
    - intros e. destruct (is_ImportError e); [apply preserves_raise|].
      destruct (is_AttributeError e); apply preserves_raise. }
  destruct (type (meta skill)); try exact Hscript.
  unfold SkillExecutor._execute_prompt_skill.
  destruct (prompt_template skill) as [[|c t]|];
    first [apply preserves_raise | apply preserves_ret].
Qed.

Lemma execute_keeps env n input : preserves P (SkillExecutor.execute env n input).
Proof.
  unfold SkillExecutor.execute.
  apply preserves_bind; [apply P_ensure_loaded|]. intros _.
  apply preserves_bind; [apply P_load_full|]. intros cached.
  apply preserves_bind; [apply preserves_time_tick; auto|]. intros t0.
  apply preserves_try.
  - apply preserves_bind; [apply dispatch_keeps|]. intros v.
    apply preserves_bind; [apply preserves_time_tick; auto|]. intros. apply preserves_ret.
  - intros e. apply preserves_bind; [apply preserves_time_tick; auto|].
    intros. apply preserves_ret.
Qed.

Lemma execute_batch_keeps env l : preserves P (SkillExecutor.execute_batch env l).
Proof.
  unfold SkillExecutor.execute_batch.
  apply preserves_bind; [apply P_ensure_loaded|]. intros _.
  apply preserves_gather, Forall_forall. intros m Hm.
  apply list_elem_of_In, in_map_iff in Hm as (x & <- & _). apply execute_keeps.
Qed.

Lemma get_skill_info_keeps env n : preserves P (SkillExecutor.get_skill_info env n).
Proof.
  unfold SkillExecutor.get_skill_info.
  apply preserves_bind; [apply P_ensure_loaded|]. intros _.
  apply preserves_bind; [apply P_load_full|]. intros cached. apply preserves_ret.
Qed.

End ExecutorInvariant.

(** ** [ensure_loaded] and [load_full], case by case *)

Lemma ensure_loaded_run env x w :
  SkillExecutor.ensure_loaded env (x, w)
  = if SkillExecutor._loaded x then (Ok tt, (x, w))
    else if root_exists env then
      match iterdir env with
      | inl e => (Raise e, (x, w))
      | inr _ =>
          let reg := SkillExecutor.registry x in
          let dirs := SkillRegistry.candidates env in
          (Ok tt,
           (SkillExecutor.mk
              (SkillRegistry.mk (scanned env (SkillRegistry._metadata reg))
                 (SkillRegistry._full_definitions reg) true)
              true,
            add_log w (map EvOpen dirs
                       ++ map warning (failures (map (metadata_result env) dirs)))))
      end
    else
      (Raise (mkExn FileNotFoundError ("Skills directory not found: " +:+ dir_str env)),
       (x, w)).
Proof.
  unfold SkillExecutor.ensure_loaded. unfold bind at 1. unfold get_self at 1. simpl.
  destruct x as [reg ld]. simpl. destruct ld; [reflexivity|].
  unfold bind at 1. unfold SkillExecutor.on_registry. simpl. rewrite scan_run.
  destruct (root_exists env); [|reflexivity]. destruct (iterdir env); reflexivity.
Qed.

Lemma definition_of_meta md i o p e d :
  Pydantic.definition_of md i o p e = Some d -> meta d = md.
Proof.
  unfold Pydantic.definition_of.
  destruct (Pydantic.input_schema_of i), (Pydantic.output_schema_of o),
    (Pydantic.optional_str p), (Pydantic.optional_execution e); intros [= <-]; reflexivity.
Qed.

(** The three ways [load_full] ends: a hit returns the cached object and
    changes nothing; a failure leaves the registry as it was; a miss that
    succeeds opens the descriptor, constructs one object around the
    catalog's record and caches it under the name asked for. *)
Lemma load_full_cases env n self w :
  (exists o,
      SkillRegistry._full_definitions self !! n = Some o
      /\ SkillRegistry.load_full env n (self, w) = (Ok o, (self, w)))
  \/ (exists e,
         SkillRegistry._full_definitions self !! n = None
         /\ (SkillRegistry.load_full env n (self, w) = (Raise e, (self, w))
             \/ SkillRegistry.load_full env n (self, w)
                = (Raise e, (self, add_log w [EvOpen n]))))
  \/ (exists md d,
         SkillRegistry._full_definitions self !! n = None
         /\ dict_get n (SkillRegistry._metadata self) = Some md
         /\ meta d = md
         /\ SkillRegistry.load_full env n (self, w)
            = (Ok (mkObj (next_addr w) d),
               (SkillRegistry.mk (SkillRegistry._metadata self)
                  (<[n := mkObj (next_addr w) d]> (SkillRegistry._full_definitions self))
                  (SkillRegistry._loaded self),
                mkWorld (log w ++ [EvOpen n]) (ticks w) (S (next_addr w))))).
Proof.
  unfold SkillRegistry.load_full, bind, get_self. simpl.
  destruct (SkillRegistry._full_definitions self !! n) as [o|] eqn:Hc.
  { left. exists o. split; reflexivity. }
  right. destruct (dict_get n (SkillRegistry._metadata self)) as [md|] eqn:Hm.
  2:{ left. eexists. split; [reflexivity|]. left. reflexivity. }
  destruct (descriptor env n) as [yaml|].
  2:{ left. eexists. split; [reflexivity|]. left. reflexivity. }
  unfold emit. simpl. destruct yaml as [e|config].
  { left. eexists. split; [reflexivity|]. right. reflexivity. }
  destruct (match dict_get "execution" config with
            | Some v => SkillRegistry._load_execution_config v
            | None => Ok VNone
            end) as [exec|e].
  2:{ left. eexists. split; [reflexivity|]. right. reflexivity. }
  destruct (Pydantic.definition_of _ _ _ _ _) as [d|] eqn:Hd.
  2:{ left. eexists. split; [reflexivity|]. right. reflexivity. }
  right. exists md, d. split; [reflexivity|]. split; [reflexivity|].
  split; [by eapply definition_of_meta|]. reflexivity.
Qed.

(** ** The scan happens once *)

(** X1.  Once [ensure_loaded] has returned, the executor is loaded and
    every later [ensure_loaded] returns at once, whatever the skills
    directory has become: nothing is scanned, opened or printed again. *)
Theorem ensure_loaded_scans_once env s s1 :
  SkillExecutor.ensure_loaded env s = (Ok tt, s1) ->
  SkillExecutor._loaded (fst s1) = true
  /\ forall env', SkillExecutor.ensure_loaded env' s1 = (Ok tt, s1).
Proof.
  destruct s as [x w]. rewrite ensure_loaded_run. intros H.
  assert (Hl : SkillExecutor._loaded (fst s1) = true).
  { destruct (SkillExecutor._loaded x) eqn:E.
    - injection H as <-. exact E.
    - destruct (root_exists env); [|discriminate].
      destruct (iterdir env); [discriminate|]. injection H as <-. reflexivity. }
  split; [exact Hl|]. intros env'. destruct s1 as [x1 w1].
  rewrite ensure_loaded_run. simpl in Hl. by rewrite Hl.
Qed.

Lemma ensure_loaded_scans_once_witness :
  let s1 := after Demo.skills CallEnsureLoaded blank in
  SkillExecutor.ensure_loaded Demo.nowhere s1 = (Ok tt, s1).
Proof.
  intros s1.
  destruct (ensure_loaded_scans_once Demo.skills blank s1) as [_ H].
  - vm_compute. reflexivity.
  - apply H.
Defined.

(** X2.  [ensure_loaded] raises only on an executor that is not loaded,
    and only what [scan] raises before it reads a descriptor: the
    [FileNotFoundError] of its own test when the root directory is absent,
    the exception of the listing when the root is there and cannot be
    listed.  The executor and the world are left as they were, so the next
    call scans again. *)
Theorem ensure_loaded_failure_changes_nothing env s e s1 :
  SkillExecutor.ensure_loaded env s = (Raise e, s1) ->
  s1 = s
  /\ SkillExecutor._loaded (fst s) = false
  /\ ((root_exists env = false
       /\ e = mkExn FileNotFoundError ("Skills directory not found: " +:+ dir_str env))
      \/ (root_exists env = true /\ iterdir env = inl e))
  /\ SkillExecutor.ensure_loaded env s1 = (Raise e, s1).
Proof.
  destruct s as [x w]. intros H. pose proof H as H'. revert H.
  rewrite ensure_loaded_run. simpl.
  destruct (SkillExecutor._loaded x); [discriminate|].
  destruct (root_exists env).
  - destruct (iterdir env) as [e'|children]; [|discriminate].
    intros [= <- <-]. auto 6.
  - intros [= <- <-]. auto 6.
Qed.

Lemma ensure_loaded_failure_changes_nothing_witness :
  snd (SkillExecutor.ensure_loaded Demo.nowhere blank) = blank.
Proof.
  destruct (ensure_loaded_failure_changes_nothing Demo.nowhere blank
              (mkExn FileNotFoundError "Skills directory not found: missing")
              (snd (SkillExecutor.ensure_loaded Demo.nowhere blank))) as [H _].
  - vm_compute. reflexivity.
  - exact H.
Defined.

(** ** A loaded executor keeps its catalog *)

Lemma loaded_with_ensure_loaded catalog env :
  preserves (loaded_with catalog) (SkillExecutor.ensure_loaded env).
Proof.
  intros [x w] r s' H [Hl Hc]. rewrite ensure_loaded_run in H. simpl in Hl.
  rewrite Hl in H. injection H as _ <-. by split.
Qed.

Lemma loaded_with_load_full catalog env n :
  preserves (loaded_with catalog)
    (SkillExecutor.on_registry (SkillRegistry.load_full env n)).
Proof.
  intros [[reg ld] w] r s' H [Hl Hc]. simpl in Hl, Hc.
  destruct (load_full_cases env n reg w)
    as [(o & _ & E) | [(e & _ & [E|E]) | (md & d & _ & _ & _ & E)]];
    rewrite (on_registry_run _ _ ld _ _ _ _ E) in H; injection H as _ <-; by split.
Qed.

Lemma loaded_with_after catalog env c s :
  is_scan c = false -> loaded_with catalog s -> loaded_with catalog (after env c s).
Proof.
  intros Hc. destruct c; try discriminate Hc; simpl; apply preserves_snd.
  - apply loaded_with_load_full.
  - intros [[reg ld] w] r s' [= _ <-] H. exact H.
  - apply loaded_with_ensure_loaded.
  - apply execute_keeps; auto using loaded_with_ensure_loaded, loaded_with_load_full.
  - apply execute_batch_keeps; auto using loaded_with_ensure_loaded, loaded_with_load_full.
Qed.

(** X3.  Once the executor is loaded, no call but a direct
    [registry.scan()] changes the catalog: [execute], [execute_batch],
    [ensure_loaded], [load_full] and [clear_cache] leave it as it is,
    whatever appears in or vanishes from the skills directory, so a skill
    added later is not discovered. *)
Theorem loaded_executor_keeps_catalog catalog cs s :
  loaded_with catalog s ->
  forallb (fun c => negb (is_scan (snd c))) cs = true ->
  loaded_with catalog (after_all cs s).
Proof.
  revert s. induction cs as [|[env c] cs IH]; simpl; intros s Hs Hcs; [exact Hs|].
  apply andb_prop in Hcs as [Hc Hcs]. apply IH; [|exact Hcs].
  apply loaded_with_after; [|exact Hs]. by destruct (is_scan c).
Qed.

Lemma loaded_executor_keeps_catalog_witness :
  let s := after Demo.twins CallEnsureLoaded blank in
  let later := [(Demo.skills, CallExecute "greeter" []);
                (Demo.skills, CallClearCache);
                (Demo.skills, CallExecuteBatch [mkExecution "dup" None])] in
  SkillRegistry.get_skill_names (SkillExecutor.registry (fst (after_all later s))) = ["dup"].
Proof.
  intros s later.
  destruct (loaded_executor_keeps_catalog
              [("dup", mkSkillMetadata "dup" "1.0.0" "The dup skill" [] PURE_SCRIPT)]
              later s) as [_ H].
  - split; vm_compute; reflexivity.
  - reflexivity.
  - unfold SkillRegistry.get_skill_names. rewrite H. reflexivity.
Defined.

(** ** Invariants of the registry, through every call *)

Section RegistryThroughCalls.
Variable R : SkillRegistry.t -> Prop.
Hypothesis R_scan : forall env, preserves (fun s => R (fst s)) (SkillRegistry.scan env).
Hypothesis R_load_full :
  forall env n, preserves (fun s => R (fst s)) (SkillRegistry.load_full env n).
Hypothesis R_clear_cache : preserves (fun s => R (fst s)) SkillRegistry.clear_cache.

Lemma of_registry_after env c s : of_registry R s -> of_registry R (after env c s).
Proof.
  destruct c; simpl; apply preserves_snd.
  - apply (on_registry_preserves (fun s => R (fst s))), R_scan.
  - apply (on_registry_preserves (fun s => R (fst s))), R_load_full.
  - apply (on_registry_preserves (fun s => R (fst s))), R_clear_cache.
  - by apply ensure_loaded_preserves.
  - by apply execute_preserves.
  - by apply execute_batch_preserves.
Qed.

Lemma of_registry_after_all cs s : of_registry R s -> of_registry R (after_all cs s).
Proof.
  revert s. induction cs as [|[env c] cs IH]; simpl; intros s Hs; [exact Hs|].
  apply IH, of_registry_after, Hs.
Qed.

End RegistryThroughCalls.

Lemma scan_registry env self w r s' :
  SkillRegistry.scan env (self, w) = (r, s') ->
  fst s' = self
  \/ fst s' = SkillRegistry.mk (scanned env (SkillRegistry._metadata self))
                (SkillRegistry._full_definitions self) true.
Proof.
  rewrite scan_run. destruct (root_exists env); [destruct (iterdir env)|]; intros [= _ <-]; auto.
Qed.

(** *** Records are filed under their names *)

Lemma filed_by_name_scan env :
  preserves (fun s => filed_by_name (fst s)) (SkillRegistry.scan env).
Proof.
  intros [self w] r s' H [Hm Hc].
  destruct (scan_registry _ _ _ _ _ H) as [-> | ->]; [by split|]. simpl in *.
  split; [|exact Hc]. simpl. intros k md. unfold scanned. rewrite record_all_get.
  destruct (find _ _) as [md'|] eqn:E; [|apply Hm].
  intros [= ->]. apply find_some in E as [_ E]. apply String.eqb_eq in E. congruence.
Qed.

Lemma filed_by_name_load_full env n :
  preserves (fun s => filed_by_name (fst s)) (SkillRegistry.load_full env n).
Proof.
  intros [self w] r s' H [Hm Hc]. simpl in *.
  destruct (load_full_cases env n self w)
    as [(o & _ & E) | [(e & _ & [E|E]) | (md & d & _ & Hmd & Hd & E)]];
    rewrite E in H; injection H as _ <-; simpl; try by split.
  split; [exact Hm|]. simpl. intros k o. rewrite lookup_insert.
  case_decide as Hk; [|apply Hc]. intros [= <-]. simpl. subst k. rewrite Hd. by apply Hm.
Qed.

Lemma filed_by_name_clear_cache :
  preserves (fun s => filed_by_name (fst s)) SkillRegistry.clear_cache.
Proof.
  intros [self w] r s' [= _ <-] [Hm Hc]. split; [exact Hm|].
  simpl. intros k o. by rewrite lookup_empty.
Qed.

Lemma filed_by_name_init : filed_by_name SkillRegistry.init.
Proof. split; simpl; intros k x; [discriminate | by rewrite lookup_empty]. Qed.

(** X4.  Whatever calls were made on a new executor, a definition that
    [load_full] returns for a name carries that name: the catalog files
    every record under the name its descriptor declares, and the cache
    files every definition under the name it was asked for.  So the
    [skill_name] in a prompt skill's output is the name that was executed. *)
Theorem loaded_definition_carries_name cs env n o s' :
  SkillExecutor.on_registry (SkillRegistry.load_full env n) (after_all cs blank) = (Ok o, s') ->
  name (meta (deref o)) = n.
Proof.
  intros H. pose proof (on_registry_load_full_caches _ _ _ _ _ H) as Hc.
  pose proof (of_registry_after_all filed_by_name filed_by_name_scan
                filed_by_name_load_full filed_by_name_clear_cache
                cs blank filed_by_name_init) as H0.
  pose proof (on_registry_preserves (fun s => filed_by_name (fst s)) _
                (filed_by_name_load_full env n) _ _ _ H H0) as [_ H1].
  by apply H1.
Qed.

Lemma loaded_definition_carries_name_witness :
  let cs := [(Demo.twins, CallScan); (Demo.skills, CallExecute "greeter" []);
             (Demo.skills, CallClearCache)] in
  let r := SkillExecutor.on_registry (SkillRegistry.load_full Demo.skills "web-search")
             (after_all cs blank) in
  exists o, fst r = Ok o /\ name (meta (deref o)) = "web-search".
Proof.
  intros cs r. eexists. split; [vm_compute; reflexivity|].
  apply (loaded_definition_carries_name cs Demo.skills "web-search" _ (snd r)).
  vm_compute. reflexivity.
Defined.


(** *** The catalog has no name twice *)

Lemma dict_mem_keys {A} k (d : list (string * A)) :
  dict_mem k d = true <-> In k (dict_keys d).
Proof.
  induction d as [|[k' v] d IH]; simpl.
  - split; [discriminate | tauto].
  - destruct (String.eqb k k') eqn:E.
    + apply String.eqb_eq in E as ->. split; auto.
    + apply String.eqb_neq in E. rewrite IH. split; [tauto|]. intros [H|H]; [congruence|exact H].
Qed.

Lemma dict_get_keys {A} k (d : list (string * A)) :
  is_Some (dict_get k d) <-> In k (dict_keys d).
Proof.
  induction d as [|[k' v] d IH]; simpl.
  - split; [by intros [x Hx] | tauto].
  - destruct (String.eqb k k') eqn:E.
    + apply String.eqb_eq in E as ->. split; eauto.
    + apply String.eqb_neq in E. rewrite IH. split; [tauto|]. intros [H|H]; [congruence|exact H].
Qed.

Lemma dict_set_keys {A} k (v : A) d :
  dict_keys (dict_set k v d)
  = if dict_mem k d then dict_keys d else dict_keys d ++ [k].
Proof.
  induction d as [|[k' v'] d IH]; simpl; [reflexivity|].
  destruct (String.eqb k k') eqn:E; simpl.
  - apply String.eqb_eq in E as ->. reflexivity.
  - rewrite IH. by destruct (dict_mem k d).
Qed.

Lemma dict_set_keys_unique {A} k (v : A) d :
  NoDup (dict_keys d) -> NoDup (dict_keys (dict_set k v d)).
Proof.
  intros H. rewrite dict_set_keys. destruct (dict_mem k d) eqn:E; [exact H|].
  apply NoDup_app. split; [exact H|]. split; [|apply NoDup_singleton].
  intros x Hx Hx'. apply list_elem_of_singleton in Hx' as ->.
  apply list_elem_of_In, dict_mem_keys in Hx. congruence.
Qed.

Lemma record_all_keys_unique mds catalog :
  NoDup (dict_keys catalog) -> NoDup (dict_keys (fold_left record mds catalog)).
Proof.
  revert catalog. induction mds as [|md mds IH]; intros catalog H; simpl; [exact H|].
  apply IH. unfold record. by apply dict_set_keys_unique.
Qed.

Lemma keys_unique_scan env :
  preserves (fun s => keys_unique (fst s)) (SkillRegistry.scan env).
Proof.
  intros [self w] r s' H Hk.
  destruct (scan_registry _ _ _ _ _ H) as [-> | ->]; [exact Hk|].
  unfold keys_unique. simpl. by apply record_all_keys_unique.
Qed.

Lemma keys_unique_load_full env n :
  preserves (fun s => keys_unique (fst s)) (SkillRegistry.load_full env n).
Proof.
  intros [self w] r s' H Hk. simpl in *.
  destruct (load_full_cases env n self w)
    as [(o & _ & E) | [(e & _ & [E|E]) | (md & d & _ & _ & _ & E)]];
    rewrite E in H; injection H as _ <-; exact Hk.
Qed.

Lemma keys_unique_clear_cache :
  preserves (fun s => keys_unique (fst s)) SkillRegistry.clear_cache.
Proof. intros [self w] r s' [= _ <-] H. exact H. Qed.

(** X5.  Whatever calls were made on a new executor, in whatever
    directories, [get_skill_names] lists no name twice and [list] returns
    one record per name, also when several directories declare the same
    name. *)
Theorem skill_names_are_unique cs :
  let self := SkillExecutor.registry (fst (after_all cs blank)) in
  NoDup (SkillRegistry.get_skill_names self)
  /\ length (SkillRegistry.list_ None self) = length (SkillRegistry.get_skill_names self)
  /\ map name (SkillRegistry.list_ None self) = SkillRegistry.get_skill_names self.
Proof.
  intros self.
  pose proof (of_registry_after_all keys_unique keys_unique_scan keys_unique_load_full
                keys_unique_clear_cache cs blank) as Hk.
  pose proof (of_registry_after_all filed_by_name filed_by_name_scan
                filed_by_name_load_full filed_by_name_clear_cache
                cs blank filed_by_name_init) as [Hf _].
  fold self in Hf. split; [apply Hk; constructor|].
  unfold SkillRegistry.list_, SkillRegistry.get_skill_names, dict_values, dict_keys.
  split; [by rewrite !length_map|].
  specialize (Hk ltac:(constructor)). unfold of_registry, keys_unique in Hk. fold self in Hk.
  revert Hk Hf. generalize (SkillRegistry._metadata self) as d.
  induction d as [|[k md] d IH]; intros Hnd Hf; simpl; [reflexivity|].
  apply NoDup_cons in Hnd as [Hk Hnd]. f_equal.
  - apply Hf. simpl. by rewrite String.eqb_refl.
  - apply IH; [exact Hnd|]. intros k' md' Hget. apply Hf. simpl.
    destruct (String.eqb k' k) eqn:E; [|exact Hget].
    apply String.eqb_eq in E as ->. exfalso. apply Hk. apply list_elem_of_In.
    apply dict_get_keys. eauto.
Qed.

(** ** Scanning again *)

Lemma dict_get_absent {A} k (d : list (string * A)) :
  ~ In k (dict_keys d) -> dict_get k d = None.
Proof.
  intros H. destruct (dict_get k d) eqn:E; [|reflexivity].
  exfalso. apply H, dict_get_keys. eauto.
Qed.

(** Two dicts with the same keys in the same order and the same value for
    every key are the same dict. *)
Lemma dict_ext {A} (d1 d2 : list (string * A)) :
  NoDup (dict_keys d1) -> dict_keys d1 = dict_keys d2 ->
  (forall k, dict_get k d1 = dict_get k d2) -> d1 = d2.
Proof.
  revert d2. induction d1 as [|[k v1] d1 IH]; intros [|[k2 v2] d2] Hnd Hk Hg;
    try discriminate Hk; [reflexivity|].
  simpl in Hk. injection Hk as <- Hk. apply NoDup_cons in Hnd as [Hk1 Hnd].
  pose proof (Hg k) as Hv. simpl in Hv. rewrite String.eqb_refl in Hv. injection Hv as <-.
  f_equal. apply IH; [exact Hnd | exact Hk|]. intros k'.
  destruct (String.eqb k' k) eqn:E.
  - apply String.eqb_eq in E as ->.
    rewrite !dict_get_absent; [reflexivity | |]; rewrite <- ?Hk; by rewrite <- list_elem_of_In.
  - specialize (Hg k'). simpl in Hg. by rewrite E in Hg.
Qed.

Lemma record_all_keys_same mds d :
  (forall md, In md mds -> In (name md) (dict_keys d)) ->
  dict_keys (fold_left record mds d) = dict_keys d.
Proof.
  revert d. induction mds as [|md mds IH]; intros d H; simpl; [reflexivity|].
  assert (Hk : dict_keys (record d md) = dict_keys d).
  { unfold record. rewrite dict_set_keys.
    destruct (dict_mem (name md) d) eqn:E; [reflexivity|].
    assert (dict_mem (name md) d = true) by (apply dict_mem_keys, H; by left). congruence. }
  rewrite IH; [exact Hk|]. intros md' Hin. rewrite Hk. apply H. by right.
Qed.

Lemma record_all_has_names mds d md :
  In md mds -> In (name md) (dict_keys (fold_left record mds d)).
Proof.
  intros Hin. apply dict_get_keys. rewrite record_all_get.
  destruct (find _ (rev mds)) as [md'|] eqn:E; [eauto|].
  exfalso. apply in_rev in Hin. apply (find_none _ _ E md) in Hin.
  by rewrite String.eqb_refl in Hin.
Qed.

Lemma record_all_twice mds d :
  NoDup (dict_keys d) ->
  fold_left record mds (fold_left record mds d) = fold_left record mds d.
Proof.
  intros Hnd. symmetry. apply dict_ext.
  - by apply record_all_keys_unique.
  - symmetry. apply record_all_keys_same. intros md. apply record_all_has_names.
  - intros k. rewrite (record_all_get mds (fold_left record mds d)).
    destruct (find _ (rev mds)) as [md|] eqn:E; [|reflexivity].
    by rewrite record_all_get, E.
Qed.

(** X6.  A second [scan] of a directory that has not changed leaves the
    registry exactly as the first one left it: the same catalog in the
    same order, the same cache, the same flag.  (The descriptors are opened
    and the warnings printed once more.) *)
Theorem rescan_changes_nothing env self w w' :
  keys_unique self ->
  let once := fst (snd (SkillRegistry.scan env (self, w))) in
  fst (snd (SkillRegistry.scan env (once, w'))) = once.
Proof.
  intros Hk once. unfold once. rewrite !scan_run.
  destruct (root_exists env); simpl; [|reflexivity].
  destruct (iterdir env); simpl; [reflexivity|].
  f_equal. unfold scanned. by apply record_all_twice.
Qed.

Lemma rescan_changes_nothing_witness :
  let once := fst (snd (SkillRegistry.scan Demo.twins (SkillRegistry.init, mkWorld [] 0 0))) in
  fst (snd (SkillRegistry.scan Demo.twins (once, mkWorld [] 7 7))) = once.
Proof.
  apply (rescan_changes_nothing Demo.twins SkillRegistry.init). constructor.
Defined.

(** ** What [load_full] does to the registry *)

(** X7.  A [load_full] that raises caches nothing: the catalog, the cache
    and the flag are as before, the name is still not cached, no object was
    constructed, and at most the descriptor of that name was opened.  The
    next [load_full] for the name starts afresh. *)
Theorem load_full_failure_changes_nothing env n self w e s' :
  SkillRegistry.load_full env n (self, w) = (Raise e, s') ->
  fst s' = self
  /\ SkillRegistry._full_definitions self !! n = None
  /\ next_addr (snd s') = next_addr w
  /\ (log (snd s') = log w \/ log (snd s') = log w ++ [EvOpen n]).
Proof.
  intros H.
  destruct (load_full_cases env n self w)
    as [(o & _ & E) | [(e' & Hc & [E|E]) | (md & d & _ & _ & _ & E)]];
    rewrite E in H; try discriminate H; injection H as _ <-; simpl; auto.
Qed.

Lemma load_full_failure_changes_nothing_witness :
  let s := snd (SkillRegistry.scan Demo.twins (SkillRegistry.init, mkWorld [] 0 0)) in
  fst (snd (SkillRegistry.load_full Demo.twins "dup" s)) = fst s.
Proof.
  intros s.
  destruct (load_full_failure_changes_nothing Demo.twins "dup" (fst s) (snd s)
              (mkExn FileNotFoundError "skill.yaml not found for 'dup'")
              (snd (SkillRegistry.load_full Demo.twins "dup" s))) as [H _].
  - vm_compute. reflexivity.
  - exact H.
Defined.

(** X8.  A [load_full] that finds nothing cached and returns has opened
    the descriptor of that name once and constructed one new object.  The
    object's metadata is the record the catalog holds for the name: name,
    version, description, tags and type are those of the last scan, not
    those in the descriptor at the time of the load.  The object is cached
    under the name and no other cache entry changes; the catalog is
    untouched. *)
Theorem load_full_miss_builds_from_catalog env n self w o s' :
  SkillRegistry._full_definitions self !! n = None ->
  SkillRegistry.load_full env n (self, w) = (Ok o, s') ->
  dict_get n (SkillRegistry._metadata self) = Some (meta (deref o))
  /\ addr o = next_addr w
  /\ next_addr (snd s') = S (next_addr w)
  /\ log (snd s') = log w ++ [EvOpen n]
  /\ SkillRegistry._metadata (fst s') = SkillRegistry._metadata self
  /\ SkillRegistry._loaded (fst s') = SkillRegistry._loaded self
  /\ SkillRegistry._full_definitions (fst s') !! n = Some o
  /\ forall k, k <> n ->
       SkillRegistry._full_definitions (fst s') !! k = SkillRegistry._full_definitions self !! k.
Proof.
  intros Hmiss H.
  destruct (load_full_cases env n self w)
    as [(o' & Hc & E) | [(e' & Hc & [E|E]) | (md & d & _ & Hmd & Hd & E)]];
    rewrite E in H; try discriminate H; [congruence|].
  injection H as <- <-. simpl. rewrite Hd.
  repeat (split; [reflexivity || assumption|]). split; [apply lookup_insert_eq|].
  intros k Hk. by apply lookup_insert_ne.
Qed.

Lemma load_full_miss_builds_from_catalog_witness :
  let s := snd (SkillRegistry.scan Demo.skills (SkillRegistry.init, mkWorld [] 0 0)) in
  let r := SkillRegistry.load_full (Demo.directory "skills"
                                      [("greeter", Demo.described "renamed" "hybrid" [])])
             "greeter" s in
  exists o, fst r = Ok o
            /\ meta (deref o)
               = mkSkillMetadata "greeter" "1.0.0" "The greeter skill" ["text"] PURE_PROMPT.
Proof.
  intros s r.
  pose (o := mkObj 0 (mkSkillDefinition
                        (mkSkillMetadata "greeter" "1.0.0" "The greeter skill" ["text"]
                           PURE_PROMPT)
                        (mkInputSchema "object" [] []) (mkOutputSchema "object" [])
                        None None)).
  exists o. split; [vm_compute; reflexivity|].
  destruct (load_full_miss_builds_from_catalog
              (Demo.directory "skills" [("greeter", Demo.described "renamed" "hybrid" [])])
              "greeter" (fst s) (snd s) o (snd r)) as [H _].
  - vm_compute. reflexivity.
  - vm_compute. reflexivity.
  - reflexivity.
Defined.

Lemma loaded_In {A B} (f : A -> Res B) xs x y :
  In x xs -> f x = Ok y -> In y (loaded (map f xs)).
Proof.
  induction xs as [|x' xs IH]; simpl; [tauto|]. intros [->|Hin] Hf.
  - rewrite Hf. by left.
  - destruct (f x'); [right|]; by apply IH.
Qed.

(** X9.  [scan] files a skill under the name its descriptor declares, and
    [load_full] looks for the descriptor in the directory of that name.  So
    a skill whose directory is not named as the skill is listed after the
    scan but cannot be executed when no directory of its name holds a
    descriptor: [execute] raises [FileNotFoundError]. *)
Theorem misfiled_skill_cannot_be_executed env dir md input :
  root_exists env = true ->
  In dir (SkillRegistry.candidates env) ->
  metadata_result env dir = Ok md ->
  descriptor env (name md) = None ->
  let r := SkillExecutor.execute env (name md) input blank in
  fst r = Raise (mkExn FileNotFoundError ("skill.yaml not found for '" +:+ name md +:+ "'"))
  /\ In (name md) (SkillRegistry.get_skill_names (SkillExecutor.registry (fst (snd r))))
  /\ SkillExecutor.list_skills None (fst (snd r)) <> [].
Proof.
  intros Hroot Hdir Hmd Hnone r.
  destruct (candidates_listed env dir Hdir) as [children Hlist].
  pose (dirs := SkillRegistry.candidates env).
  pose (catalog := scanned env []).
  assert (Hin : In (name md) (dict_keys catalog)).
  { apply record_all_has_names. by eapply loaded_In. }
  apply dict_get_keys in Hin as Hget. destruct Hget as [md' Hget].
  assert (Hrun : r = (Raise (mkExn FileNotFoundError
                               ("skill.yaml not found for '" +:+ name md +:+ "'")),
                      (SkillExecutor.mk (SkillRegistry.mk catalog ∅ true) true,
                       add_log (mkWorld [] 0 0)
                         (map EvOpen dirs
                          ++ map warning (failures (map (metadata_result env) dirs)))))).
  { unfold r. eapply execute_load_raises.
    - unfold blank. rewrite ensure_loaded_run. simpl. rewrite Hroot, Hlist. reflexivity.
    - apply on_registry_run. unfold SkillRegistry.load_full, bind, get_self. simpl.
      rewrite lookup_empty. fold catalog. rewrite Hget, Hnone. reflexivity. }
  rewrite Hrun. simpl. split; [reflexivity|]. split; [exact Hin|].
  unfold SkillExecutor.list_skills, SkillRegistry.list_, dict_values. simpl.
  destruct catalog; [destruct Hin | discriminate].
Qed.

Lemma misfiled_skill_cannot_be_executed_witness :
  fst (SkillExecutor.execute Demo.twins "dup" [] blank)
  = Raise (mkExn FileNotFoundError "skill.yaml not found for 'dup'").
Proof.
  pose proof (misfiled_skill_cannot_be_executed Demo.twins "a"
                (mkSkillMetadata "dup" "1.0.0" "The dup skill" [] PURE_PROMPT) []
                eq_refl (or_introl eq_refl) eq_refl eq_refl) as H.
  exact (proj1 H).
Defined.

(** ** Executing a skill that is already loaded *)


(** What a dispatch raises is the [ValueError] of a guard, or comes from
    the import of the handler module or from the handler; what [except
    Exception] does not catch comes from these two as it is. *)
Lemma escaping_from_code env skill input e :
  escaping (dispatch_result env skill input) = Some e ->
  is_Exception e = false
  /\ type (meta skill) <> PURE_PROMPT
  /\ exists exec,
      execution skill = Some exec
      /\ (import_module env (SkillExecutor.module_path_of skill exec) = ImportFails e
          \/ exists attrs f,
              import_module env (SkillExecutor.module_path_of skill exec) = Module attrs
              /\ attrs (function exec) = Some f
              /\ f input = Raises e).
Proof.
  intros H.
  assert (Hty : type (meta skill) <> PURE_PROMPT).
  { intros Hty. by rewrite (escaping_prompt env skill input Hty) in H. }
  destruct (execution skill) as [exec|] eqn:Hexec;
    [|by rewrite (escaping_no_execution env skill input Hexec) in H].
  revert H. unfold escaping, dispatch_result, dispatch, blank,
    SkillExecutor._execute_hybrid_skill, SkillExecutor._execute_script_skill.
  assert (Hscript :
    match (try_except
             (let module_path := SkillExecutor.module_path_of skill exec in
              run emit (EvImport module_path) in
              match import_module env module_path with
              | ImportFails e => raise e
              | Module attrs =>
                  let function_name := function exec in
                  match attrs function_name with
                  | None =>
                      raise (mkExn AttributeError
                               ("Function '" +:+ function_name +:+ "' not found in module '"
                                +:+ module_path +:+ "'"))
                  | Some handler_func =>
                      run emit (EvCall module_path function_name input) in
                      match handler_func input with
                      | Returns result => ret result
                      | Raises e => raise e
                      end
                  end
              end)
             (fun e =>
                if is_ImportError e then
                  raise (mkExn ImportError
                           ("Failed to import skill module for '" +:+ name (meta skill)
                            +:+ "': " +:+ exn_str e))
                else if is_AttributeError e then
                  raise (mkExn AttributeError
                           ("Handler function not found for skill '" +:+ name (meta skill)
                            +:+ "': " +:+ exn_str e))
                else raise e)
             (SkillExecutor.init, mkWorld [] 0 0)).1 with
    | Raise e' => if is_Exception e' then None else Some e'
    | Ok _ => None
    end = Some e ->
    is_Exception e = false
    /\ exists exec',
        Some exec = Some exec'
        /\ (import_module env (SkillExecutor.module_path_of skill exec') = ImportFails e
            \/ exists attrs f,
                import_module env (SkillExecutor.module_path_of skill exec') = Module attrs
                /\ attrs (function exec') = Some f
                /\ f input = Raises e)).
  { unfold try_except, bind, emit, raise, ret. simpl.
    destruct (import_module env _) as [e0|attrs] eqn:Himp; simpl.
    - destruct (is_Exception e0) eqn:He0; simpl.
      + by destruct (is_ImportError e0), (is_AttributeError e0); simpl;
          rewrite ?He0.
      + rewrite He0. intros [= <-]. split; [exact He0|]. exists exec. auto.
    - destruct (attrs (function exec)) as [f|] eqn:Hattr; simpl; [|discriminate].
      destruct (f input) as [v|e0] eqn:Hf; simpl; [discriminate|].
      destruct (is_Exception e0) eqn:He0; simpl.
      + by destruct (is_ImportError e0), (is_AttributeError e0); simpl;
          rewrite ?He0.
      + rewrite He0. intros [= <-]. split; [exact He0|]. exists exec. split; [reflexivity|].
        right. exists attrs, f. auto. }
  destruct (type (meta skill)); [congruence| |]; rewrite Hexec; intros H;
    destruct (Hscript H) as [He Hfrom]; auto.
Qed.

(** X10.  On a loaded executor, [execute] of a cached skill touches
    neither the executor nor its registry: no file is opened and nothing is
    scanned, and the world only gains the events of the dispatch and the
    readings of the clock.  When the dispatch ends, [execute] returns the
    result that wraps its outcome, unless the import of the handler module
    or the handler itself raised what does not derive from [Exception]
    (a [SystemExit], a [KeyboardInterrupt], a [CancelledError]): that
    exception, and no other, leaves [execute]. *)
Theorem execute_cached_skill env n input x w o :
  SkillExecutor._loaded x = true ->
  SkillRegistry._full_definitions (SkillExecutor.registry x) !! n = Some o ->
  let r := dispatch_result env (deref o) input in
  let evs := dispatch_events env (deref o) input in
  SkillExecutor.execute env n input (x, w)
  = match escaping r with
    | None =>
        (Ok (result_of r (wall env (S (ticks w)) - wall env (ticks w))), (x, executed w evs))
    | Some e => (Raise e, (x, interrupted w evs))
    end
  /\ (forall e,
         escaping r = Some e ->
         is_Exception e = false
         /\ type (meta (deref o)) <> PURE_PROMPT
         /\ exists exec,
             execution (deref o) = Some exec
             /\ (import_module env (SkillExecutor.module_path_of (deref o) exec)
                 = ImportFails e
                 \/ exists attrs f,
                     import_module env (SkillExecutor.module_path_of (deref o) exec)
                     = Module attrs
                     /\ attrs (function exec) = Some f
                     /\ f input = Raises e)).
Proof.
  intros Hl Hc r evs. split.
  - apply (execute_concluded env n input (x, w) (x, w)).
    + by apply ensure_loaded_done.
    + by apply on_registry_load_full_hit.
  - intros e. apply escaping_from_code.
Qed.

(** A handler that leaves by [sys.exit(1)]: the [SystemExit] is no
    [Exception], and [execute] lets it through. *)
Example execute_lets_system_exit_through :
  fst (SkillExecutor.execute Demo.partial "leaver" [] blank)
  = Raise (mkExn (NonException "SystemExit") "1").
Proof. vm_compute. reflexivity. Qed.

Lemma execute_cached_skill_witness :
  let s := after Demo.skills (CallLoadFull "faulty") (after Demo.skills CallEnsureLoaded blank) in
  fst (SkillExecutor.execute Demo.nowhere "faulty" [] (fst s, snd s))
  = Ok (mkSkillResult false VNone (Some "bad input") 1000).
Proof.
  intros s.
  pose (o := mkObj 0 (mkSkillDefinition
                        (mkSkillMetadata "faulty" "1.0.0" "The faulty skill" [] PURE_SCRIPT)
                        (mkInputSchema "object" [] []) (mkOutputSchema "object" [])
                        None (Some (mkExecutionConfig "lib/run.py" "main" 30000)))).
  assert (Hl : SkillExecutor._loaded (fst s) = true) by (vm_compute; reflexivity).
  assert (Hc : SkillRegistry._full_definitions (SkillExecutor.registry (fst s)) !! "faulty"
               = Some o) by (vm_compute; reflexivity).
  rewrite (proj1 (execute_cached_skill Demo.nowhere "faulty" [] (fst s) (snd s) o Hl Hc)).
  vm_compute. reflexivity.
Defined.

(** ** Batches of prompt skills *)






(** ** Handlers are called at most once *)

Lemma code_events_app evs evs' :
  code_events (evs ++ evs') = code_events evs ++ code_events evs'.
Proof. unfold code_events. induction evs as [|[] evs IH]; simpl; by rewrite ?IH. Qed.

Lemma code_events_opens dirs : code_events (map EvOpen dirs) = [].
Proof. induction dirs; simpl; auto. Qed.

Lemma code_events_warnings es : code_events (map warning es) = [].
Proof. induction es; simpl; auto. Qed.

Lemma handler_calls_code_events evs : handler_calls (code_events evs) = handler_calls evs.
Proof. induction evs as [|[] evs IH]; simpl; by rewrite ?IH. Qed.

(** The events of a dispatch: none, or an import, or an import and then
    one call of the handler; a prompt skill leaves none. *)
Lemma dispatch_events_shape env skill input :
  (dispatch_events env skill input = []
   \/ (exists exec,
          execution skill = Some exec
          /\ (dispatch_events env skill input
              = [EvImport (SkillExecutor.module_path_of skill exec)]
              \/ dispatch_events env skill input
                 = [EvImport (SkillExecutor.module_path_of skill exec);
                    EvCall (SkillExecutor.module_path_of skill exec) (function exec) input])))
  /\ (type (meta skill) = PURE_PROMPT -> dispatch_events env skill input = []).
Proof.
  unfold dispatch_events, dispatch, blank, SkillExecutor._execute_hybrid_skill,
    SkillExecutor._execute_script_skill, SkillExecutor._execute_prompt_skill.
  destruct (type (meta skill)).
  - destruct (prompt_template skill) as [[|c t]|]; simpl; auto.
  - split; [|discriminate]. destruct (execution skill) as [exec|]; [|by left].
    right. exists exec. split; [reflexivity|].
    unfold try_except, bind, emit, raise, ret. simpl.
    destruct (import_module env _) as [e|attrs];
      [destruct (is_Exception e), (is_ImportError e), (is_AttributeError e); by left|].
    destruct (attrs _) as [f|]; simpl; [|by left].
    destruct (f input) as [v|e]; simpl; [by right|].
    destruct (is_Exception e), (is_ImportError e), (is_AttributeError e); by right.
  - split; [|discriminate]. destruct (execution skill) as [exec|]; [|by left].
    right. exists exec. split; [reflexivity|].
    unfold try_except, bind, emit, raise, ret. simpl.
    destruct (import_module env _) as [e|attrs];
      [destruct (is_Exception e), (is_ImportError e), (is_AttributeError e); by left|].
    destruct (attrs _) as [f|]; simpl; [|by left].
    destruct (f input) as [v|e]; simpl; [by right|].
    destruct (is_Exception e), (is_ImportError e), (is_AttributeError e); by right.
Qed.

Lemma ensure_loaded_log env s r s1 :
  SkillExecutor.ensure_loaded env s = (r, s1) ->
  exists evs, log (snd s1) = log (snd s) ++ evs /\ code_events evs = [].
Proof.
  destruct s as [x w]. rewrite ensure_loaded_run.
  destruct (SkillExecutor._loaded x); [|destruct (root_exists env); [destruct (iterdir env)|]]; intros [= _ <-]; simpl.
  - exists []. by rewrite app_nil_r.
  - exists []. by rewrite app_nil_r.
  - eexists. split; [reflexivity|].
    by rewrite code_events_app, code_events_opens, code_events_warnings.
  - exists []. by rewrite app_nil_r.
Qed.

Lemma load_full_log env n s r s1 :
  SkillExecutor.on_registry (SkillRegistry.load_full env n) s = (r, s1) ->
  exists evs, log (snd s1) = log (snd s) ++ evs /\ code_events evs = [].
Proof.
  destruct s as [[reg ld] w].
  destruct (load_full_cases env n reg w)
    as [(o & _ & E) | [(e & _ & [E|E]) | (md & d & _ & _ & _ & E)]];
    rewrite (on_registry_run _ _ ld _ _ _ _ E); intros [= _ <-]; simpl;
    first [by exists []; rewrite app_nil_r | by exists [EvOpen n]].
Qed.

Lemma execute_events env n input s r s' :
  SkillExecutor.execute env n input s = (r, s') ->
  exists evs,
    log (snd s') = log (snd s) ++ evs
    /\ (length (handler_calls evs) <= 1)%nat
    /\ forall o, cached_at n o s' -> type (meta (deref o)) = PURE_PROMPT ->
                 code_events evs = [].
Proof.
  intros Hrun.
  destruct (execute_cases env n input s)
    as [(e & s1 & H1 & H) | [(s1 & e & s2 & H1 & H2 & H)
                            | (s1 & o & self & w & H1 & H2 & H)]];
    try (unfold concluded in H;
         destruct (escaping (dispatch_result env (deref o) input)));
    rewrite H in Hrun; injection Hrun as _ <-.
  - destruct (ensure_loaded_log _ _ _ _ H1) as (evs & Hlog & Hcode).
    exists evs. split; [exact Hlog|].
    rewrite <- handler_calls_code_events, Hcode. split; [simpl; lia | auto].
  - destruct (ensure_loaded_log _ _ _ _ H1) as (evs1 & Hlog1 & Hcode1).
    destruct (load_full_log _ _ _ _ _ H2) as (evs2 & Hlog2 & Hcode2).
    exists (evs1 ++ evs2). split; [by rewrite Hlog2, Hlog1, app_assoc|].
    rewrite <- handler_calls_code_events, code_events_app, Hcode1, Hcode2.
    split; [simpl; lia | auto].
  - destruct (ensure_loaded_log _ _ _ _ H1) as (evs1 & Hlog1 & Hcode1).
    destruct (load_full_log _ _ _ _ _ H2) as (evs2 & Hlog2 & Hcode2).
    simpl in Hlog2.
    exists (evs1 ++ evs2 ++ dispatch_events env (deref o) input).
    split; [simpl; by rewrite Hlog2, Hlog1, !app_assoc|].
    rewrite <- handler_calls_code_events, !code_events_app, Hcode1, Hcode2.
    simpl. rewrite handler_calls_code_events.
    destruct (dispatch_events_shape env (deref o) input) as [Hshape Hprompt].
    split.
    + destruct Hshape as [-> | (exec & _ & [-> | ->])]; simpl; lia.
    + intros o' Ho' Hty. apply on_registry_load_full_caches in H2.
      unfold cached_at, reg_cached in Ho', H2. simpl in Ho', H2.
      assert (o' = o) as -> by congruence. by rewrite Hprompt.
  - destruct (ensure_loaded_log _ _ _ _ H1) as (evs1 & Hlog1 & Hcode1).
    destruct (load_full_log _ _ _ _ _ H2) as (evs2 & Hlog2 & Hcode2).
    simpl in Hlog2.
    exists (evs1 ++ evs2 ++ dispatch_events env (deref o) input).
    split; [simpl; by rewrite Hlog2, Hlog1, !app_assoc|].
    rewrite <- handler_calls_code_events, !code_events_app, Hcode1, Hcode2.
    simpl. rewrite handler_calls_code_events.
    destruct (dispatch_events_shape env (deref o) input) as [Hshape Hprompt].
    split.
    + destruct Hshape as [-> | (exec & _ & [-> | ->])]; simpl; lia.
    + intros o' Ho' Hty. apply on_registry_load_full_caches in H2.
      unfold cached_at, reg_cached in Ho', H2. simpl in Ho', H2.
      assert (o' = o) as -> by congruence. by rewrite Hprompt.
Qed.

(** X12.  Whatever [execute] does, it only adds to the log, and among the
    events it adds there is at most one call of a handler function: no
    handler is ever called a second time.  For a pure-prompt skill no
    module is imported and no handler is called: no code of the skill
    runs. *)
Theorem execute_calls_handler_at_most_once env n input s :
  let s' := snd (SkillExecutor.execute env n input s) in
  exists evs,
    log (snd s') = log (snd s) ++ evs
    /\ (length (handler_calls evs) <= 1)%nat
    /\ forall o, cached_at n o s' -> type (meta (deref o)) = PURE_PROMPT ->
                 code_events evs = [].
Proof.
  intros s'. apply (execute_events env n input s (fst (SkillExecutor.execute env n input s))).
  unfold s'. by destruct (SkillExecutor.execute env n input s).
Qed.


(** ** [get_skill_info] *)

Lemma get_skill_info_run env n s s1 cached s2 :
  SkillExecutor.ensure_loaded env s = (Ok tt, s1) ->
  SkillExecutor.on_registry (SkillRegistry.load_full env n) s1 = (Ok cached, s2) ->
  exists info,
    SkillExecutor.get_skill_info env n s = (Ok (VDict info), s2)
    /\ dict_get "name" info = Some (VStr (name (meta (deref cached))))
    /\ dict_get "type" info = Some (VStr (SkillType_value (type (meta (deref cached)))))
    /\ dict_get "has_prompt" info
       = Some (VBool (SkillExecutor.is_not_None (prompt_template (deref cached))))
    /\ dict_get "has_execution" info
       = Some (VBool (SkillExecutor.is_not_None (execution (deref cached)))).
Proof.
  intros H1 H2. eexists. split.
  - unfold SkillExecutor.get_skill_info. unfold bind at 1. rewrite H1.
    unfold bind at 1. rewrite H2. reflexivity.
  - repeat split; reflexivity.
Qed.

(** X13.  On a loaded executor, [get_skill_info] of a cached skill
    returns the nine fields of its definition and changes nothing: no file
    is opened, no handler is imported.  It has no [try]: for a name that is
    neither cached nor in the catalog it raises the [ValueError] of
    [load_full], and an executor that cannot scan its root raises the
    [FileNotFoundError] of [scan]. *)
Theorem get_skill_info_reports_definition env n x w :
  (SkillExecutor._loaded x = true ->
   forall o,
     SkillRegistry._full_definitions (SkillExecutor.registry x) !! n = Some o ->
     SkillExecutor.get_skill_info env n (x, w)
     = (Ok (VDict [("name", VStr (name (meta (deref o))));
                   ("version", VStr (version (meta (deref o))));
                   ("description", VStr (description (meta (deref o))));
                   ("tags", VList (map VStr (tags (meta (deref o)))));
                   ("type", VStr (SkillType_value (type (meta (deref o)))));
                   ("input_schema", InputSchema_dict (input_schema (deref o)));
                   ("output_schema", OutputSchema_dict (output_schema (deref o)));
                   ("has_prompt",
                    VBool (SkillExecutor.is_not_None (prompt_template (deref o))));
                   ("has_execution",
                    VBool (SkillExecutor.is_not_None (execution (deref o))))]),
        (x, w)))
  /\ (SkillExecutor._loaded x = true ->
      SkillRegistry._full_definitions (SkillExecutor.registry x) !! n = None ->
      dict_get n (SkillRegistry._metadata (SkillExecutor.registry x)) = None ->
      exists e,
        SkillExecutor.get_skill_info env n (x, w) = (Raise e, (x, w))
        /\ exn_class e = ValueError)
  /\ (SkillExecutor._loaded x = false -> root_exists env = false ->
      exists e,
        SkillExecutor.get_skill_info env n (x, w) = (Raise e, (x, w))
        /\ exn_class e = FileNotFoundError).
Proof.
  unfold SkillExecutor.get_skill_info. split; [|split].
  - intros Hl o Ho. unfold bind at 1. rewrite ensure_loaded_run, Hl.
    unfold bind at 1. rewrite (on_registry_load_full_hit env n o); [reflexivity | exact Ho].
  - intros Hl Hc Hm. unfold bind at 1. rewrite ensure_loaded_run, Hl.
    unfold bind at 1. destruct x as [reg ld].
    cbn [SkillExecutor.registry] in Hc, Hm.
    assert (E : SkillRegistry.load_full env n (reg, w)
                = (Raise (mkExn ValueError
                            ("Skill '" +:+ n +:+ "' not found in registry. "
                             +:+ "Available skills: "
                             +:+ py_str env (VList (map VStr (dict_keys
                                                      (SkillRegistry._metadata reg)))))),
                   (reg, w))).
    { unfold SkillRegistry.load_full, bind, get_self. simpl. by rewrite Hc, Hm. }
    rewrite (on_registry_run _ _ ld _ _ _ _ E). eexists. split; reflexivity.
  - intros Hl Hroot. unfold bind at 1. rewrite ensure_loaded_run, Hl, Hroot.
    eexists. split; reflexivity.
Qed.

Lemma get_skill_info_reports_definition_witness :
  let s := after Demo.skills (CallLoadFull "bare") (after Demo.skills CallEnsureLoaded blank) in
  exists info,
    SkillExecutor.get_skill_info Demo.nowhere "bare" (fst s, snd s) = (Ok (VDict info), (fst s, snd s))
    /\ dict_get "has_prompt" info = Some (VBool false).
Proof.
  intros s.
  destruct (get_skill_info_reports_definition Demo.nowhere "bare" (fst s) (snd s)) as [H _].
  eexists. split.
  - apply H; vm_compute; reflexivity.
  - reflexivity.
Defined.

(** X14.  [get_skill_info] and [execute] judge a prompt template
    differently: the one asks whether it is [None], the other whether it is
    empty.  For a pure-prompt skill whose template is the empty string,
    [get_skill_info] reports [has_prompt = True] and [execute] fails with
    "missing prompt_template". *)
Theorem empty_template_reported_but_rejected env n input s s1 o s2 :
  SkillExecutor.ensure_loaded env s = (Ok tt, s1) ->
  SkillExecutor.on_registry (SkillRegistry.load_full env n) s1 = (Ok o, s2) ->
  type (meta (deref o)) = PURE_PROMPT ->
  prompt_template (deref o) = Some "" ->
  (exists info,
      fst (SkillExecutor.get_skill_info env n s) = Ok (VDict info)
      /\ dict_get "has_prompt" info = Some (VBool true))
  /\ exists elapsed,
      fst (SkillExecutor.execute env n input s)
      = Ok (mkSkillResult false VNone
              (Some ("Pure prompt skill '" +:+ name (meta (deref o))
                     +:+ "' missing prompt_template")) elapsed).
Proof.
  intros H1 H2 Hty Htpl. split.
  - destruct (get_skill_info_run env n s s1 o s2 H1 H2) as (info & H & _ & _ & Hp & _).
    exists info. rewrite H, Hp, Htpl. auto.
  - destruct s2 as [self w]. eexists.
    rewrite (execute_run _ _ _ _ _ _ _ _ H1 H2) by (by apply escaping_prompt).
    unfold dispatch_result, dispatch, SkillExecutor._execute_prompt_skill.
    rewrite Hty, Htpl. reflexivity.
Qed.

Lemma empty_template_reported_but_rejected_witness :
  let env := Demo.directory "skills"
               [("blank", Demo.described "blank" "pure-prompt"
                            [("prompt_template", VStr "")])] in
  exists elapsed,
    fst (SkillExecutor.execute env "blank" [] blank)
    = Ok (mkSkillResult false VNone
            (Some "Pure prompt skill 'blank' missing prompt_template") elapsed).
Proof.
  intros env.
  pose (s1 := after env CallEnsureLoaded blank).
  pose (r := SkillExecutor.on_registry (SkillRegistry.load_full env "blank") s1).
  destruct (empty_template_reported_but_rejected env "blank" [] blank s1
              (mkObj 0 (mkSkillDefinition
                          (mkSkillMetadata "blank" "1.0.0" "The blank skill" [] PURE_PROMPT)
                          (mkInputSchema "object" [] []) (mkOutputSchema "object" [])
                          (Some "") None))
              (snd r)) as [_ [elapsed H]].
  - vm_compute. reflexivity.
  - vm_compute. reflexivity.
  - reflexivity.
  - reflexivity.
  - exists elapsed. exact H.
Defined.

(** ** [list_skills] and the executor's own flag *)

(** X15.  The executor keeps its own loaded flag.  A scan made directly
    on its registry, when the root can be listed, fills the catalog and sets
    the registry's flag but not the executor's: [list_skills] still returns
    the empty list, and the next [ensure_loaded] scans a second time.  When
    the root cannot be listed the scan changes nothing, and the next
    [ensure_loaded] raises as the scan did. *)
Theorem direct_scan_not_seen_by_executor env x w wanted :
  SkillExecutor._loaded x = false ->
  root_exists env = true ->
  let s1 := after env CallScan (x, w) in
  match iterdir env with
  | inr _ =>
      SkillRegistry.is_loaded (SkillExecutor.registry (fst s1)) = true
      /\ SkillRegistry.get_skill_names (SkillExecutor.registry (fst s1))
         = dict_keys (scanned env (SkillRegistry._metadata (SkillExecutor.registry x)))
      /\ SkillExecutor.list_skills wanted (fst s1) = []
      /\ new_events (snd s1) (snd (snd (SkillExecutor.ensure_loaded env s1)))
         = map EvOpen (SkillRegistry.candidates env)
           ++ map warning (failures (map (metadata_result env)
                                       (SkillRegistry.candidates env)))
  | inl e =>
      s1 = (x, w)
      /\ SkillExecutor.list_skills wanted (fst s1) = []
      /\ SkillExecutor.ensure_loaded env s1 = (Raise e, s1)
  end.
Proof.
  intros Hl Hroot s1. destruct x as [reg ld]. simpl in Hl. subst ld.
  destruct (iterdir env) as [e|children] eqn:Hlist.
  { assert (Hs1 : s1 = (SkillExecutor.mk reg false, w)).
    { unfold s1, after, SkillExecutor.on_registry. simpl.
      rewrite scan_run, Hroot, Hlist. reflexivity. }
    rewrite Hs1. split; [reflexivity|]. split; [reflexivity|].
    rewrite ensure_loaded_run. simpl. by rewrite Hroot, Hlist. }
  assert (Hs1 : s1 = (SkillExecutor.mk
                        (SkillRegistry.mk (scanned env (SkillRegistry._metadata reg))
                           (SkillRegistry._full_definitions reg) true) false,
                      add_log w (map EvOpen (SkillRegistry.candidates env)
                                 ++ map warning (failures (map (metadata_result env)
                                                             (SkillRegistry.candidates env)))))).
  { unfold s1, after, SkillExecutor.on_registry. simpl.
    rewrite scan_run, Hroot, Hlist. reflexivity. }
  rewrite Hs1. simpl. repeat (split; [reflexivity|]).
  rewrite ensure_loaded_run. simpl. rewrite Hroot, Hlist. simpl.
  unfold new_events. simpl. apply drop_app_length.
Qed.

Lemma direct_scan_not_seen_by_executor_witness :
  let s1 := after Demo.skills CallScan blank in
  length (SkillRegistry.get_skill_names (SkillExecutor.registry (fst s1))) = 7%nat
  /\ SkillExecutor.list_skills None (fst s1) = [].
Proof.
  intros s1.
  pose proof (direct_scan_not_seen_by_executor Demo.skills SkillExecutor.init
                (mkWorld [] 0 0) None eq_refl eq_refl) as H.
  cbv zeta in H. change (iterdir Demo.skills) with
    (@inr Exn _ (map (fun f : string * Yaml => (fst f, true)) Demo.files
                 ++ [("README.md", false)])) in H.
  cbv iota in H. destruct H as (_ & Hn & Hl & _).
  split; [|exact Hl]. fold blank in Hn. fold s1 in Hn. rewrite Hn. reflexivity.
Defined.

(** ** Filtering by tags *)

Lemma any_tag_spec wanted s :
  SkillRegistry.any_tag wanted s = true
  <-> exists tag, In tag wanted /\ In tag (tags s).
Proof.
  unfold SkillRegistry.any_tag. rewrite existsb_exists. split.
  - intros (tag & Hin & H). apply existsb_exists in H as (t & Ht & E).
    apply String.eqb_eq in E as <-. eauto.
  - intros (tag & Hin & Ht). exists tag. split; [exact Hin|].
    apply existsb_exists. exists tag. split; [exact Ht | apply String.eqb_refl].
Qed.

Lemma filter_sublist {A} (f : A -> bool) l : sublist (List.filter f l) l.
Proof.
  induction l as [|x l IH]; simpl; [constructor|].
  destruct (f x); [by apply sublist_skip | by apply sublist_cons].
Qed.

Lemma filter_sublist_mono {A} (f g : A -> bool) l :
  (forall x, f x = true -> g x = true) -> sublist (List.filter f l) (List.filter g l).
Proof.
  intros H. induction l as [|x l IH]; simpl; [constructor|].
  destruct (f x) eqn:E.
  - rewrite (H x E). by apply sublist_skip.
  - destruct (g x); [by apply sublist_cons | exact IH].
Qed.

(** X16.  With a non-empty list of tags, [list] returns exactly the
    records of the catalog that carry at least one of the tags, in the
    order of the catalog; a record with no tags is never among them, and
    listing by more tags never returns fewer records. *)
Theorem list_filters_by_shared_tag (self : SkillRegistry.t) tag more :
  let wanted := tag :: more in
  (forall s, In s (SkillRegistry.list_ (Some wanted) self)
             <-> In s (SkillRegistry.list_ None self)
                 /\ exists t, In t wanted /\ In t (tags s))
  /\ sublist (SkillRegistry.list_ (Some wanted) self) (SkillRegistry.list_ None self)
  /\ (forall extra,
         sublist (SkillRegistry.list_ (Some wanted) self)
                 (SkillRegistry.list_ (Some (wanted ++ extra)) self)).
Proof.
  intros wanted.
  change (SkillRegistry.list_ (Some wanted) self)
    with (List.filter (SkillRegistry.any_tag wanted)
            (dict_values (SkillRegistry._metadata self))).
  change (SkillRegistry.list_ None self) with (dict_values (SkillRegistry._metadata self)).
  split; [|split].
  - intros s. rewrite filter_In. by rewrite any_tag_spec.
  - apply filter_sublist.
  - intros extra.
    change (SkillRegistry.list_ (Some (wanted ++ extra)) self)
      with (List.filter (SkillRegistry.any_tag (wanted ++ extra))
              (dict_values (SkillRegistry._metadata self))).
    apply filter_sublist_mono. intros s Hs.
    apply any_tag_spec. apply any_tag_spec in Hs as (t & Ht & Hs).
    exists t. split; [|exact Hs]. apply in_or_app. by left.
Qed.

(** ** Identity after [clear_cache] *)

Lemma made_since_world strict a0 x w w' :
  next_addr w' = next_addr w -> made_since strict a0 (x, w) -> made_since strict a0 (x, w').
Proof. intros Hw [H1 H2]. split; simpl in *; [by rewrite Hw | exact H2]. Qed.

Lemma made_since_ensure_loaded strict a0 env :
  preserves (made_since strict a0) (SkillExecutor.ensure_loaded env).
Proof.
  intros [[reg ld] w] r s' H Hs. rewrite ensure_loaded_run in H. simpl in H.
  destruct ld; [|destruct (root_exists env); [destruct (iterdir env)|]]; injection H as _ <-; exact Hs.
Qed.

Lemma made_since_scan strict a0 env :
  preserves (made_since strict a0) (SkillExecutor.on_registry (SkillRegistry.scan env)).
Proof.
  intros [[reg ld] w] r s' H Hs. unfold SkillExecutor.on_registry in H. simpl in H.
  rewrite scan_run in H. destruct (root_exists env); [destruct (iterdir env)|]; injection H as _ <-; exact Hs.
Qed.

Lemma made_since_load_full strict a0 env n :
  preserves (made_since strict a0)
    (SkillExecutor.on_registry (SkillRegistry.load_full env n)).
Proof.
  intros [[reg ld] w] r s' H [H1 H2]. simpl in H1, H2.
  destruct (load_full_cases env n reg w)
    as [(o & _ & E) | [(e & _ & [E|E]) | (md & d & _ & _ & _ & E)]];
    rewrite (on_registry_run _ _ ld _ _ _ _ E) in H; injection H as _ <-;
    try (split; [exact H1 | exact H2]).
  split; simpl; [lia|]. intros Hs k o. rewrite lookup_insert.
  case_decide; [intros [= <-]; simpl; lia | by apply H2].
Qed.

Lemma made_since_after strict a0 env c s :
  made_since strict a0 s -> made_since strict a0 (after env c s).
Proof.
  pose proof (fun x w ev (H : made_since strict a0 (x, w)) =>
                made_since_world strict a0 x w (add_log w [ev]) eq_refl H) as Hlog.
  pose proof (fun x w (H : made_since strict a0 (x, w)) =>
                made_since_world strict a0 x w
                  (mkWorld (log w) (S (ticks w)) (next_addr w)) eq_refl H) as Htick.
  destruct c; simpl; apply preserves_snd.
  - apply made_since_scan.
  - apply made_since_load_full.
  - intros [[reg ld] w] r s' [= _ <-] [H1 _]. split; [exact H1|].
    simpl. intros _ k o. by rewrite lookup_empty.
  - apply made_since_ensure_loaded.
  - apply execute_keeps; auto using made_since_ensure_loaded, made_since_load_full.
  - apply execute_batch_keeps; auto using made_since_ensure_loaded, made_since_load_full.
Qed.

Lemma made_since_after_all strict a0 cs s :
  made_since strict a0 s -> made_since strict a0 (after_all cs s).
Proof.
  revert s. induction cs as [|[env c] cs IH]; simpl; intros s Hs; [exact Hs|].
  apply IH, made_since_after, Hs.
Qed.

Lemma addrs_below_after_all cs : addrs_below (after_all cs blank).
Proof.
  assert (Hgen : forall cs s, addrs_below s -> addrs_below (after_all cs s)).
  { clear cs. intros cs. induction cs as [|[env c] cs IH]; simpl; intros s Hs; [exact Hs|].
    apply IH. clear IH.
    assert (Hens : forall env, preserves addrs_below (SkillExecutor.ensure_loaded env)).
    { intros env' [[reg ld] w] r s' H Hb. rewrite ensure_loaded_run in H. simpl in H.
      destruct ld; [|destruct (root_exists env'); [destruct (iterdir env')|]]; injection H as _ <-; exact Hb. }
    assert (Hload : forall env n, preserves addrs_below
                      (SkillExecutor.on_registry (SkillRegistry.load_full env n))).
    { intros env' n [[reg ld] w] r s' H Hb.
      destruct (load_full_cases env' n reg w)
        as [(o & _ & E) | [(e & _ & [E|E]) | (md & d & _ & _ & _ & E)]];
        rewrite (on_registry_run _ _ ld _ _ _ _ E) in H; injection H as _ <-; try exact Hb.
      intros k o. simpl. rewrite lookup_insert.
      case_decide; [intros [= <-]; simpl; lia|]. intros Hk. specialize (Hb k o Hk).
      simpl in Hb. lia. }
    destruct c; simpl; apply preserves_snd; auto.
    - intros [[reg ld] w] r s' H Hb. unfold SkillExecutor.on_registry in H. simpl in H.
      rewrite scan_run in H. destruct (root_exists env); [destruct (iterdir env)|]; injection H as _ <-; exact Hb.
    - intros [[reg ld] w] r s' [= _ <-] _ k o. simpl. by rewrite lookup_empty.
    - apply execute_keeps; auto.
    - apply execute_batch_keeps; auto. }
  apply Hgen. intros k o. simpl. by rewrite lookup_empty.
Qed.

(** X17.  The identity of a definition does not survive [clear_cache].  A
    definition that [load_full] returned before the cache was cleared and
    one that [load_full] returns afterwards are two objects, whatever calls
    were made in between and after: the later one was constructed anew. *)
Theorem clear_cache_forgets_instance cs env n o s1 cs1 env1 cs2 env2 o' s3 :
  SkillExecutor.on_registry (SkillRegistry.load_full env n) (after_all cs blank) = (Ok o, s1) ->
  SkillExecutor.on_registry (SkillRegistry.load_full env2 n)
    (after_all cs2 (after env1 CallClearCache (after_all cs1 s1))) = (Ok o', s3) ->
  addr o' <> addr o.
Proof.
  intros H1 H2.
  assert (Hlt : (addr o < next_addr (snd s1))%nat).
  { pose proof (addrs_below_after_all (cs ++ [(env, CallLoadFull n)])) as Hb.
    unfold after_all in Hb. rewrite fold_left_app in Hb. simpl in Hb.
    fold (after_all cs blank) in Hb. rewrite H1 in Hb. simpl in Hb.
    apply (Hb n). by eapply on_registry_load_full_caches. }
  assert (H0 : made_since false (next_addr (snd s1)) s1) by (split; [lia | discriminate]).
  apply (made_since_after_all _ _ cs1) in H0.
  assert (Hc : made_since true (next_addr (snd s1))
                 (after env1 CallClearCache (after_all cs1 s1))).
  { destruct (after_all cs1 s1) as [[reg ld] w]. destruct H0 as [H0 _].
    split; [exact H0|]. simpl. intros _ k x. by rewrite lookup_empty. }
  apply (made_since_after_all _ _ cs2) in Hc.
  pose proof (made_since_load_full _ _ env2 n _ _ _ H2 Hc) as [_ H3].
  apply on_registry_load_full_caches in H2.
  specialize (H3 eq_refl n o' H2). lia.
Qed.

Lemma clear_cache_forgets_instance_witness :
  let r1 := SkillExecutor.on_registry (SkillRegistry.load_full Demo.skills "greeter")
              (after_all [(Demo.skills, CallEnsureLoaded)] blank) in
  let r2 := SkillExecutor.on_registry (SkillRegistry.load_full Demo.skills "greeter")
              (after_all [] (after Demo.skills CallClearCache
                               (after_all [(Demo.skills, CallExecute "bare" [])] (snd r1)))) in
  exists o o', fst r1 = Ok o /\ fst r2 = Ok o' /\ deref o' = deref o /\ addr o' <> addr o.
Proof.
  intros r1 r2. eexists _, _. split; [vm_compute; reflexivity|].
  split; [vm_compute; reflexivity|]. split; [reflexivity|].
  eapply (clear_cache_forgets_instance [(Demo.skills, CallEnsureLoaded)] Demo.skills "greeter"
            _ (snd r1) [(Demo.skills, CallExecute "bare" [])] Demo.skills [] Demo.skills
            _ (snd r2)).
  - vm_compute. reflexivity.
  - vm_compute. reflexivity.
Defined.


(** ** Round trips between values and records *)

(** X18.  [SkillType(value)] and [.value] are inverse to each other:
    every member is found again from its value, the three values are the
    only ones accepted, and any other value raises [ValueError]. *)
Theorem SkillType_value_round_trip env :
  (forall t, SkillType_call env (VStr (SkillType_value t)) = Ok t)
  /\ (forall v t, SkillType_call env v = Ok t -> v = VStr (SkillType_value t))
  /\ (forall v, (forall t, v <> VStr (SkillType_value t)) ->
                exists e, SkillType_call env v = Raise e /\ exn_class e = ValueError).
Proof.
  assert (Hinv : forall v t, SkillType_call env v = Ok t -> v = VStr (SkillType_value t)).
  { intros v t. unfold SkillType_call. destruct v as [| | |s| |]; try discriminate.
    destruct (String.eqb s "pure-prompt") eqn:E1;
      [apply String.eqb_eq in E1 as ->; by intros [= <-]|].
    destruct (String.eqb s "pure-script") eqn:E2;
      [apply String.eqb_eq in E2 as ->; by intros [= <-]|].
    destruct (String.eqb s "hybrid") eqn:E3;
      [apply String.eqb_eq in E3 as ->; by intros [= <-]|].
    discriminate. }
  split; [by intros []|]. split; [exact Hinv|].
  intros v Hv. destruct (SkillType_call env v) as [t|e] eqn:E.
  - exfalso. by apply (Hv t), Hinv.
  - exists e. split; [reflexivity|]. revert E. unfold SkillType_call.
    destruct v as [| | |s| |]; try by intros [= <-].
    destruct (String.eqb s "pure-prompt"); [discriminate|].
    destruct (String.eqb s "pure-script"); [discriminate|].
    destruct (String.eqb s "hybrid"); [discriminate|]. by intros [= <-].
Qed.

(** X19.  What [.dict()] makes of a schema validates back to the same
    schema, and the summary [list_skills] gives for a record is itself a
    well-formed descriptor: a directory holding it loads to the same
    record. *)
Theorem dict_forms_validate_back env :
  (forall s, Pydantic.input_schema_of (InputSchema_dict s) = Some s)
  /\ (forall s, Pydantic.output_schema_of (OutputSchema_dict s) = Some s)
  /\ (forall md dir config,
         SkillExecutor.summary md = VDict config ->
         descriptor env dir = Some (Mapping config) ->
         metadata_result env dir = Ok md).
Proof.
  split; [|split].
  - intros [t p r]. unfold Pydantic.input_schema_of, InputSchema_dict,
      Pydantic.with_default. simpl. by rewrite str_items_map_VStr.
  - by intros [t p].
  - intros [n v d tg ty] dir config [= <-] Hd.
    unfold metadata_result, SkillRegistry._load_metadata. rewrite Hd.
    unfold bind, emit.
    destruct ty; simpl; unfold Pydantic.metadata_of; simpl; by rewrite str_items_map_VStr.
Qed.

(** ** The module of a handler *)

Lemma substring_prefix (h p : string) :
  String.substring 0 (String.length h) (h +:+ p) = h.
Proof. induction h as [|c h IH]; simpl; [by destruct p | by rewrite IH]. Qed.

Lemma substring_all (p : string) : String.substring 0 (String.length p) p = p.
Proof. induction p as [|c p IH]; simpl; [reflexivity | by rewrite IH]. Qed.

Lemma substring_suffix (h p : string) :
  String.substring (String.length h) (String.length p) (h +:+ p) = p.
Proof. induction h as [|c h IH]; simpl; [apply substring_all | exact IH]. Qed.

Lemma endswith_app (h p : string) : Str.endswith p (h +:+ p) = true.
Proof.
  unfold Str.endswith. rewrite string_app_length.
  replace (String.length p <=? String.length h + String.length p)%nat with true
    by (symmetry; apply Nat.leb_le; lia).
  replace (String.length h + String.length p - String.length p)%nat
    with (String.length h) by lia.
  rewrite substring_suffix. apply String.eqb_refl.
Qed.

Lemma drop_last_app (h p : string) : Str.drop_last (String.length p) (h +:+ p) = h.
Proof.
  unfold Str.drop_last. rewrite string_app_length.
  replace (String.length h + String.length p - String.length p)%nat
    with (String.length h) by lia.
  apply substring_prefix.
Qed.

(** Replacing one character by another leaves none of the first. *)
Lemma replace_char_removes (a b : ascii) s :
  a <> b -> Str.contains (String a "") (Str.replace (String a "") (String b "") s) = false.
Proof.
  intros Hab. unfold Str.replace. induction s as [|c s IH]; [reflexivity|].
  cbn [Str.replace_from Str.startswith String.length Nat.pred].
  assert (Hab' : Ascii.eqb a b = false) by by apply Ascii.eqb_neq.
  destruct (Ascii.eqb a c) eqn:E.
  - change (String b "" +:+ ?x) with (String b x).
    cbn [Str.contains Str.startswith]. rewrite Hab'. exact IH.
  - cbn [Str.contains Str.startswith]. rewrite E. exact IH.
Qed.

(** X20.  The module of a handler is [skills.<name>.<handler>], the
    handler without one final [.py] and with a dot for every slash: a
    handler named with or without the suffix resolves to the same module,
    no slash is left in the handler part, and the default handler
    [handler.py] resolves to [skills.<name>.handler]. *)
Theorem handler_module_path (md : SkillMetadata) i o p h f t :
  let skill e := mkSkillDefinition md i o p (Some e) in
  let path h := SkillExecutor.module_path_of (skill (mkExecutionConfig h f t))
                  (mkExecutionConfig h f t) in
  (Str.endswith ".py" h = false -> path (h +:+ ".py") = path h)
  /\ (exists part, path h = "skills." +:+ name md +:+ "." +:+ part
                   /\ Str.contains "/" part = false)
  /\ path "handler.py" = "skills." +:+ name md +:+ ".handler".
Proof.
  intros skill path. unfold path, skill, SkillExecutor.module_path_of.
  cbn [handler meta].
  split; [|split].
  - intros Hh. rewrite endswith_app, Hh.
    change 3%nat with (String.length ".py"). by rewrite drop_last_app.
  - eexists. split; [reflexivity|]. by apply replace_char_removes.
  - reflexivity.
Qed.

Lemma handler_module_path_witness :
  let skill := mkSkillDefinition
                 (mkSkillMetadata "faulty" "1.0.0" "" [] PURE_SCRIPT)
                 (mkInputSchema "object" [] []) (mkOutputSchema "object" []) None in
  SkillExecutor.module_path_of (skill (Some (mkExecutionConfig "lib/run.py" "main" 1)))
    (mkExecutionConfig "lib/run.py" "main" 1)
  = SkillExecutor.module_path_of (skill (Some (mkExecutionConfig "lib/run" "main" 1)))
      (mkExecutionConfig "lib/run" "main" 1).
Proof.
  intros skill.
  destruct (handler_module_path (mkSkillMetadata "faulty" "1.0.0" "" [] PURE_SCRIPT)
              (mkInputSchema "object" [] []) (mkOutputSchema "object" []) None
              "lib/run" "main" 1) as [H _].
  apply H. reflexivity.
Defined.

(** ** More on template substitution *)


Lemma startswith_length p s :
  Str.startswith p s = true -> (String.length p <= String.length s)%nat.
Proof.
  revert s. induction p as [|a p IH]; intros s; simpl; [lia|].
  destruct s as [|b s]; [discriminate|]. destruct (Ascii.eqb a b); [|discriminate].
  intros H. apply IH in H. simpl. lia.
Qed.

Lemma contains_cons p c s : Str.contains p s = true -> Str.contains p (String c s) = true.
Proof. intros H. cbn [Str.contains]. rewrite H. by destruct (Str.startswith p (String c s)). Qed.



Lemma contains_short p s :
  (String.length s < String.length p)%nat -> Str.contains p s = false.
Proof.
  induction s as [|c s IH]; intros Hlen; cbn [Str.contains].
  - destruct p; [simpl in Hlen; lia | reflexivity].
  - destruct (Str.startswith p (String c s)) eqn:E.
    + apply startswith_length in E. lia.
    + apply IH. simpl in Hlen. lia.
Qed.

Lemma replace_absent old new s : Str.contains old s = false -> Str.replace old new s = s.
Proof.
  unfold Str.replace. destruct old as [|a old]; [by destruct s|].
  induction s as [|c s IH]; [reflexivity|]. cbn [Str.contains Str.replace_from].
  destruct (Str.startswith (String a old) (String c s)); [discriminate|].
  intros H. by rewrite IH.
Qed.



Lemma string_app_empty (s : string) : s +:+ "" = s.
Proof.
  induction s as [|c s IH]; [reflexivity|].
  change (String c (s +:+ "") = String c s). by rewrite IH.
Qed.

Lemma replace_whole old new : old <> "" -> Str.replace old new old = new.
Proof.
  intros H. unfold Str.replace. destruct old as [|a old'] eqn:E; [congruence|].
  rewrite <- E. rewrite <- (string_app_empty old) at 2.
  rewrite replace_from_here by congruence. simpl. apply string_app_empty.
Qed.

(** X22.  Substitution is not one pass over the template: a value put in
    for one key is scanned again for the keys that follow.  A template that
    is the placeholder of a key whose value is the placeholder of a later,
    different key renders to the later key's value. *)
Theorem render_expands_values_of_earlier_keys env k1 k2 v :
  k1 <> k2 ->
  SkillExecutor.render env ("{" +:+ k1 +:+ "}")
    [(k1, VStr ("{" +:+ k2 +:+ "}")); (k2, VStr v)]
  = v.
Proof.
  intros _.
  assert (Hlong : forall k, Str.contains ("{{" +:+ k +:+ "}}") ("{" +:+ k +:+ "}") = false).
  { intros k. apply contains_short. rewrite !string_app_length. simpl. lia. }
  unfold SkillExecutor.render. cbn [fold_left SkillExecutor.substitute py_str].
  rewrite (replace_absent _ _ _ (Hlong k1)). rewrite replace_whole by discriminate.
  rewrite (replace_absent _ _ _ (Hlong k2)). by rewrite replace_whole by discriminate.
Qed.

Lemma render_expands_values_of_earlier_keys_witness :
  SkillExecutor.render Demo.skills "{greeting}"
    [("greeting", VStr "{name}"); ("name", VStr "Ada")]
  = "Ada".
Proof.
  apply (render_expands_values_of_earlier_keys Demo.skills "greeting" "name" "Ada").
  discriminate.
Defined.

(** ** The web-search handler *)








(** ** The code analyzer *)

Lemma fold_append_length {A B} (f : B -> A) (ms : list B) (acc : list A) :
  length (fold_left (fun acc m => acc ++ [f m]) ms acc) = (length acc + length ms)%nat.
Proof.
  revert acc. induction ms as [|m ms IH]; intros acc; simpl; [lia|].
  rewrite IH, length_app. simpl. lia.
Qed.

Lemma fold_append_Forall {A B} (P : A -> Prop) (f : B -> A) (ms : list B) (acc : list A) :
  Forall P acc -> (forall m, P (f m)) ->
  Forall P (fold_left (fun acc m => acc ++ [f m]) ms acc).
Proof.
  revert acc. induction ms as [|m ms IH]; intros acc Hacc Hf; simpl; [exact Hacc|].
  apply IH; [|exact Hf]. apply Forall_app. split; [exact Hacc|]. by constructor.
Qed.

Lemma check_function_length code ms acc :
  (length acc <= length (fold_left (Analyzer.check_function code) ms acc)
   <= length acc + length ms)%nat.
Proof.
  revert acc. induction ms as [|m ms IH]; intros acc; simpl; [lia|].
  specialize (IH (Analyzer.check_function code acc m)).
  assert (length acc <= length (Analyzer.check_function code acc m) <= length acc + 1)%nat.
  { unfold Analyzer.check_function. destruct (Nat.ltb 50 _); [|lia].
    rewrite length_app. simpl. lia. }
  lia.
Qed.

(** X25.  Whenever [analyze] returns, the score is
    100 - 5 * issues - 10 * critical suggestions, cut at zero: it is never
    below 0 nor above 100, it is 100 exactly when there is no issue and no
    critical suggestion, and twenty issues bring it to 0. *)
Theorem analyze_score_is_bounded finditer env input v :
  Analyzer.analyze finditer env input = Returns v ->
  exists score issues suggestions metrics language,
    v = report score issues suggestions metrics language
    /\ score = Z.max 0 (100 - 5 * Z.of_nat (length issues)
                        - 10 * Z.of_nat (length (Analyzer.critical env suggestions)))
    /\ 0 <= score <= 100
    /\ (score = 100 <-> issues = [] /\ Analyzer.critical env suggestions = [])
    /\ ((20 <= length issues)%nat -> score = 0).
Proof.
  unfold Analyzer.analyze.
  destruct (if Analyzer.equals_str "python" _ then _ else _)
    as [e|[[issues suggestions] metrics]]; [discriminate|].
  intros [= <-]. eexists _, issues, suggestions, metrics, _. split; [reflexivity|].
  split; [lia|]. split; [lia|]. split; [|lia].
  split.
  - intros H. split; [destruct issues | destruct (Analyzer.critical env suggestions)];
      try reflexivity; simpl length in H; lia.
  - intros [-> ->]. reflexivity.
Qed.

Lemma analyze_score_is_bounded_witness :
  exists score issues suggestions metrics language,
    Analyzer.analyze (fun _ _ => []) Demo.skills [("code", VStr "x = 1")]
    = Returns (report score issues suggestions metrics language)
    /\ 0 <= score <= 100.
Proof.
  destruct (analyze_score_is_bounded (fun _ _ => []) Demo.skills [("code", VStr "x = 1")]
              (report 100 [] []
                 [("lines_of_code", VInt 1);
                  ("complexity", VDict [("num_functions", VInt 0);
                                        ("estimated_complexity", VStr "low")])]
                 (VStr "python")))
    as (score & issues & suggestions & metrics & language & Hv & _ & Hb & _).
  - vm_compute. reflexivity.
  - exists score, issues, suggestions, metrics, language. split; [|exact Hb].
    rewrite <- Hv. vm_compute. reflexivity.
Defined.

(** X26.  For a language other than python, javascript and typescript
    nothing is analysed: whatever [code] is, a string or not, [analyze]
    returns the score 100 with no issues, no suggestions and empty
    metrics, and gives the language back. *)
Theorem analyze_unknown_language finditer env input :
  let language := default (VStr "python") (dict_get "language" input) in
  Analyzer.equals_str "python" language = false ->
  Analyzer.equals_str "javascript" language = false ->
  Analyzer.equals_str "typescript" language = false ->
  Analyzer.analyze finditer env input = Returns (report 100 [] [] [] language).
Proof.
  intros language H1 H2 H3. unfold Analyzer.analyze. fold language.
  rewrite H1, H2, H3. reflexivity.
Qed.

Lemma analyze_unknown_language_witness :
  Analyzer.analyze (fun _ _ => [Analyzer.mkMatch 0 ""]) Demo.skills
    [("code", VNone); ("language", VStr "Python")]
  = Returns (report 100 [] [] [] (VStr "Python")).
Proof.
  apply (analyze_unknown_language (fun _ _ => [Analyzer.mkMatch 0 ""]) Demo.skills
           [("code", VNone); ("language", VStr "Python")]); reflexivity.
Defined.

Lemma lines_of_code_counted mark code :
  counts_lines mark code (Z.of_nat (Analyzer.lines_of_code mark code)).
Proof.
  split; [|reflexivity]. unfold Analyzer.lines_of_code.
  pose proof (filter_length_le
                (fun l => (Analyzer.nonempty (Analyzer.strip l)
                           && negb (Str.startswith mark (Analyzer.strip l)))%bool)
                (Analyzer.split_lines code)). lia.
Qed.

(** X27.  For python code the function count in the metrics is always 0
    and the estimated complexity always "low", however many function
    definitions the code has: the loop over the definitions has used up the
    iterator before the metrics count what is left of it.  There is one
    suggestion per TODO comment, one issue per print call and at most one
    more per function definition.  The lines of code counted are no more
    than the code has lines. *)
Theorem analyze_python_counts_no_functions finditer env input code :
  Analyzer.equals_str "python" (default (VStr "python") (dict_get "language" input)) = true ->
  default (VStr "") (dict_get "code" input) = VStr code ->
  exists score issues suggestions lines,
    Analyzer.analyze finditer env input
    = Returns (report score issues suggestions
                 [("lines_of_code", VInt lines);
                  ("complexity", VDict [("num_functions", VInt 0);
                                        ("estimated_complexity", VStr "low")])]
                 (default (VStr "python") (dict_get "language" input)))
    /\ counts_lines "#" code lines
    /\ length suggestions = length (finditer Analyzer.todo_pattern code)
    /\ (length (finditer Analyzer.print_pattern code) <= length issues
        <= length (finditer Analyzer.print_pattern code)
           + length (finditer Analyzer.def_pattern code))%nat.
Proof.
  intros Hlang Hcode. unfold Analyzer.analyze. rewrite Hlang, Hcode.
  unfold Analyzer._analyze_python, Analyzer.for_each. cbn [fst snd length Nat.ltb Nat.leb].
  eexists _, _, _, _. split; [reflexivity|]. split; [apply lines_of_code_counted|]. split.
  - by rewrite fold_append_length.
  - pose proof (check_function_length code (finditer Analyzer.def_pattern code)
                  (fold_left
                     (fun issues m =>
                        issues ++ [Analyzer.issue "warning" "best-practices"
                                     "Print statement found in code"
                                     (Analyzer.line_of code (Analyzer.start m))
                                     "Consider using logging instead of print"])
                     (finditer Analyzer.print_pattern code) [])) as H.
    rewrite fold_append_length in H. simpl in H. exact H.
Qed.

Lemma analyze_python_counts_no_functions_witness :
  let finditer : Analyzer.Finditer :=
    fun p _ => if String.eqb p Analyzer.def_pattern
               then [Analyzer.mkMatch 0 "f"; Analyzer.mkMatch 12 "g"]
               else [] in
  exists score issues suggestions lines,
    Analyzer.analyze finditer Demo.skills [("code", VStr "def f(): 1
def g(): 2")]
    = Returns (report score issues suggestions
                 [("lines_of_code", VInt lines);
                  ("complexity", VDict [("num_functions", VInt 0);
                                        ("estimated_complexity", VStr "low")])]
                 (VStr "python")).
Proof.
  intros finditer.
  destruct (analyze_python_counts_no_functions finditer Demo.skills
              [("code", VStr "def f(): 1
def g(): 2")] "def f(): 1
def g(): 2") as (score & issues & suggestions & lines & H & _); [reflexivity | reflexivity |].
  exists score, issues, suggestions, lines. exact H.
Defined.

(** X28.  For javascript and typescript code there is one issue per
    [console.log] call and one per [var] keyword, the former first, and no
    suggestion; so the score is 100 - 5 * (calls + keywords), cut at
    zero.  The lines of code counted are no more than the code has
    lines. *)
Theorem analyze_javascript_counts finditer env input code :
  let language := default (VStr "python") (dict_get "language" input) in
  Analyzer.equals_str "python" language = false ->
  (Analyzer.equals_str "javascript" language || Analyzer.equals_str "typescript" language)%bool
  = true ->
  default (VStr "") (dict_get "code" input) = VStr code ->
  let found := (length (finditer Analyzer.console_pattern code)
                + length (finditer Analyzer.var_pattern code))%nat in
  exists issues lines,
    Analyzer.analyze finditer env input
    = Returns (report (Z.max 0 (100 - 5 * Z.of_nat found)) issues []
                 [("lines_of_code", VInt lines);
                  ("complexity", VDict [("estimated_complexity", VStr "low")])]
                 language)
    /\ counts_lines "//" code lines
    /\ length issues = found.
Proof.
  intros language H1 H2 Hcode found. unfold Analyzer.analyze. fold language.
  rewrite H1, H2, Hcode.
  unfold Analyzer._analyze_javascript, Analyzer.for_each. cbn [fst snd].
  eexists _, _. split; [|split; [apply lines_of_code_counted|]].
  - unfold report. do 4 f_equal. rewrite !fold_append_length. simpl. fold found. f_equal. lia.
  - rewrite !fold_append_length. reflexivity.
Qed.

Lemma analyze_javascript_counts_witness :
  let finditer : Analyzer.Finditer :=
    fun p _ => if String.eqb p Analyzer.var_pattern
               then [Analyzer.mkMatch 0 ""; Analyzer.mkMatch 11 ""]
               else [] in
  exists issues metrics,
    Analyzer.analyze finditer Demo.skills
      [("language", VStr "typescript"); ("code", VStr "var a = 1; var b = 2;")]
    = Returns (report 90 issues [] metrics (VStr "typescript"))
    /\ length issues = 2%nat.
Proof.
  intros finditer.
  destruct (analyze_javascript_counts finditer Demo.skills
              [("language", VStr "typescript"); ("code", VStr "var a = 1; var b = 2;")]
              "var a = 1; var b = 2;") as (issues & lines & H & _ & Hlen);
    [reflexivity | reflexivity | reflexivity |].
  eexists issues, _. split; [exact H | exact Hlen].
Defined.

Lemma split_lines_length code :
  length (Analyzer.split_lines code) = S (Analyzer.count_newlines code).
Proof.
  induction code as [|c code IH]; simpl; [reflexivity|].
  destruct (Ascii.eqb c Analyzer.newline); simpl; [by rewrite IH|].
  destruct (Analyzer.split_lines code); [discriminate IH | exact IH].
Qed.

Lemma count_newlines_prefix code pos :
  (Analyzer.count_newlines (String.substring 0 pos code) <= Analyzer.count_newlines code)%nat.
Proof.
  revert pos. induction code as [|c code IH]; intros [|pos]; simpl; try lia.
  specialize (IH pos). lia.
Qed.

Lemma line_of_bounds code pos :
  1 <= Analyzer.line_of code pos <= Z.of_nat (length (Analyzer.split_lines code)).
Proof.
  unfold Analyzer.line_of. rewrite split_lines_length.
  pose proof (count_newlines_prefix code pos). lia.
Qed.

Lemma check_function_on_line code ms acc :
  Forall (on_line_of code) acc ->
  Forall (on_line_of code) (fold_left (Analyzer.check_function code) ms acc).
Proof.
  revert acc. induction ms as [|m ms IH]; intros acc Hacc; simpl; [exact Hacc|].
  apply IH. unfold Analyzer.check_function. destruct (Nat.ltb 50 _); [|exact Hacc].
  apply Forall_app. split; [exact Hacc|]. constructor; [|constructor].
  eexists _, _. split; [reflexivity|]. split; [reflexivity | apply line_of_bounds].
Qed.

(** X29.  Every issue and every suggestion [analyze] reports carries a
    line number that is a line of the code: at least 1 and at most the
    number of lines, wherever the matches were found. *)
Theorem analyze_reports_lines_of_the_code finditer env input code score issues suggestions
        metrics language :
  default (VStr "") (dict_get "code" input) = VStr code ->
  Analyzer.analyze finditer env input = Returns (report score issues suggestions metrics language) ->
  Forall (on_line_of code) (issues ++ suggestions).
Proof.
  intros Hcode. unfold Analyzer.analyze. rewrite Hcode.
  destruct (Analyzer.equals_str "python" _).
  - unfold Analyzer._analyze_python, Analyzer.for_each. cbn [fst snd]. intros [= _ <- <- _ _].
    apply Forall_app. split.
    + apply check_function_on_line, fold_append_Forall; [constructor|].
      intros m. eexists _, _. split; [reflexivity|]. split; [reflexivity | apply line_of_bounds].
    + apply fold_append_Forall; [constructor|].
      intros m. eexists _, _. split; [reflexivity|]. split; [reflexivity | apply line_of_bounds].
  - destruct (_ || _)%bool.
    + unfold Analyzer._analyze_javascript, Analyzer.for_each. cbn [fst snd].
      intros [= _ <- <- _ _]. rewrite app_nil_r.
      apply fold_append_Forall.
      * apply fold_append_Forall; [constructor|].
        intros m. eexists _, _. split; [reflexivity|].
        split; [reflexivity | apply line_of_bounds].
      * intros m. eexists _, _. split; [reflexivity|].
        split; [reflexivity | apply line_of_bounds].
    + intros [= _ <- <- _ _]. constructor.
Qed.

Lemma analyze_reports_lines_of_the_code_witness :
  on_line_of "x = 1
print(x)"
    (Analyzer.issue "warning" "best-practices" "Print statement found in code" 2
       "Consider using logging instead of print").
Proof.
  pose (finditer := (fun p _ => if String.eqb p Analyzer.print_pattern
                                then [Analyzer.mkMatch 6 ""] else []) : Analyzer.Finditer).
  pose proof (analyze_reports_lines_of_the_code finditer Demo.skills
                [("code", VStr "x = 1
print(x)")] "x = 1
print(x)" 95
                [Analyzer.issue "warning" "best-practices" "Print statement found in code" 2
                   "Consider using logging instead of print"]
                []
                [("lines_of_code", VInt 2);
                 ("complexity", VDict [("num_functions", VInt 0);
                                       ("estimated_complexity", VStr "low")])]
                (VStr "python") eq_refl eq_refl) as H.
  by apply Forall_inv in H.
Defined.
